(** * GHZ asymmetry control campaigns: circuit builder, parity analyzer, orchestrator

    A shallow embedding of [quantum_campaign_control.py] (triple-ancilla
    variant, register width 9) and [quantum_campaign_b3.py] (dual-ancilla
    variant, register width 8).

    Modelling conventions.
    - Python [int] is [Z]; a qubit index is a [nat] (the topologies hold small
      non-negative integers and the code never indexes from the end).
    - Python [str] is [string]; indexing works on its list of characters and
      raises [IndexError] out of range.
    - Python [float] is idealised as a real number [R]: [/] is real division,
      [abs] is [Rabs], [np.log2 x] is [ln x / ln 2].
    - A [dict] of counts is an association list in insertion order.
    - An exception is the [Raise] case of [result]; [try/except Exception] is
      a match on it.
    - The remote service (transpiler, sampler, job handles) is an environment
      record that says what each external call answers. *)

From Stdlib Require Import ZArith List String Ascii Bool Arith Lia.
From Stdlib Require Import Reals Lra Permutation.
Import ListNotations.

Local Open Scope string_scope.
Local Open Scope list_scope.
Local Open Scope nat_scope.

(** ** Exceptions and the error monad *)

Inductive exn : Type :=
| IndexError
| ValueError
| CircuitError
| ExternalError (msg : string).

Inductive result (A : Type) : Type :=
| Ok (a : A)
| Raise (e : exn).

Arguments Ok {A} a.
Arguments Raise {A} e.

Definition bind {A B : Type} (c : result A) (k : A -> result B) : result B :=
  match c with
  | Ok a => k a
  | Raise e => Raise e
  end.

Notation "x <- c ;; k" := (bind c (fun x => k))
  (at level 61, c at next level, right associativity).

Definition is_ok {A : Type} (c : result A) : bool :=
  match c with Ok _ => true | Raise _ => false end.

(** [for x in xs: body] over a state, where the body may raise. *)
Fixpoint for_each {A S : Type} (body : S -> A -> result S) (xs : list A) (s : S)
  : result S :=
  match xs with
  | [] => Ok s
  | x :: xs' => s' <- body s x ;; for_each body xs' s'
  end.

(** [[f(x) for x in xs]] where [f] may raise. *)
Fixpoint comprehension {A B : Type} (f : A -> result B) (xs : list A)
  : result (list B) :=
  match xs with
  | [] => Ok []
  | x :: xs' => y <- f x ;; ys <- comprehension f xs' ;; Ok (y :: ys)
  end.

(** ** Python string primitives used by the analyzers *)

Definition bit0 : ascii := "0"%char.
Definition bit1 : ascii := "1"%char.
Definition space : ascii := " "%char.
Definition minus_sign : ascii := "-"%char.

(** [s.replace(" ", "")] *)
Definition replace_spaces (s : string) : list ascii :=
  filter (fun c => negb (Ascii.eqb c space)) (list_ascii_of_string s).

Fixpoint bin_digits_pos (p : positive) : list ascii :=
  match p with
  | xH => [bit1]
  | xO p' => bin_digits_pos p' ++ [bit0]
  | xI p' => bin_digits_pos p' ++ [bit1]
  end.

Definition bin_digits (n : Z) : list ascii :=
  match n with
  | Z0 => [bit0]
  | Zpos p => bin_digits_pos p
  | Zneg p => bin_digits_pos p
  end.

Definition zero_pad (w : nat) (l : list ascii) : list ascii :=
  repeat bit0 (w - List.length l) ++ l.

(** [format(n, '0<w>b')]: binary, sign-aware zero padding to width [w]. *)
Definition format_b (w : nat) (n : Z) : list ascii :=
  if (n <? 0)%Z then minus_sign :: zero_pad (w - 1) (bin_digits n)
  else zero_pad w (bin_digits n).

(** [l[i]] for a non-negative index. *)
Definition py_index {A : Type} (l : list A) (i : nat) : result A :=
  match nth_error l i with
  | Some x => Ok x
  | None => Raise IndexError
  end.

(** [int(c)] for a one-character string. *)
Definition py_int (c : ascii) : result Z :=
  let n := nat_of_ascii c in
  if (48 <=? n)%nat && (n <=? 57)%nat then Ok (Z.of_nat (n - 48))
  else Raise ValueError.

(** [l.count("1") % 2] *)
Definition count_ones_mod2 (l : list ascii) : Z :=
  (Z.of_nat (count_occ ascii_dec l bit1) mod 2)%Z.

(** ** Data model *)

(** A key of the counts dictionary: the analyzers accept [int] and [str]. *)
Inductive state_key : Type :=
| KInt (n : Z)
| KStr (s : string).

Definition counts_t : Type := list (state_key * Z).

(** [sum(counts.values())] *)
Definition sum_values (counts : counts_t) : Z :=
  fold_left Z.add (map snd counts) 0%Z.

Record topology : Type := mkTopology {
  ghz_indices : list nat;
  local_a_indices : list nat;
  local_b_indices : list nat
}.

(** The registry; both source files carry the same four entries. *)
Definition TOPOLOGIES : list (string * topology) :=
  [ ("A", mkTopology [0;1;2;3;4;5] [0;1;2] [3;4;5]);
    ("B", mkTopology [1;2;3;4;5;0] [1;2;3] [4;5;0]);
    ("C", mkTopology [2;3;4;5;0;1] [2;3;4] [5;0;1]);
    ("D", mkTopology [0;1;2;3;4;5] [0;2;4] [1;3;5]) ].

Definition SHOTS : Z := 8192.
Definition REPETITIONS : nat := 5.

(** [bits]: [format(state, '0<w>b')] for an [int] key, else
    [state.replace(" ", "")]. *)
Definition bits_of (w : nat) (state : state_key) : list ascii :=
  match state with
  | KInt n => format_b w n
  | KStr s => replace_spaces s
  end.

(** [bits_rev = bits[::-1]] *)
Definition bits_rev_of (w : nat) (state : state_key) : list ascii :=
  rev (bits_of w state).

(** One parity block of the loop body:
    [measured = [bits_rev[i] for i in nodes]],
    [computed = measured.count("1") % 2],
    [ancilla = int(bits_rev[anc])], and the comparison. *)
Definition parity_check (bits_rev : list ascii) (nodes : list nat) (anc : nat)
  : result bool :=
  measured <- comprehension (py_index bits_rev) nodes ;;
  let computed := count_ones_mod2 measured in
  ch <- py_index bits_rev anc ;;
  measured_ancilla <- py_int ch ;;
  Ok (measured_ancilla =? computed)%Z.

Definition log2 (x : R) : R := (ln x / ln 2)%R.

(** [sum(xs)] on floats: left to right from 0. *)
Definition Rsum (xs : list R) : R := fold_left Rplus xs 0%R.

Definition Rpositive (x : R) : bool := if Rlt_dec 0 x then true else false.

(** ** The circuit program (the part of Qiskit's QuantumCircuit the code uses) *)

Inductive instr : Type :=
| HGate (q : nat)
| CXGate (control target : nat)
| Measure (qubit clbit : nat).

Record QuantumCircuit : Type := mkCircuit {
  num_qubits : nat;
  num_clbits : nat;
  data : list instr
}.

(** An instruction is refused ([CircuitError]) when an index is outside the
    register or when a two-qubit gate names one qubit twice. *)
Definition valid_instr (qc : QuantumCircuit) (i : instr) : bool :=
  match i with
  | HGate q => q <? num_qubits qc
  | CXGate c t => (c <? num_qubits qc) && (t <? num_qubits qc) && negb (c =? t)
  | Measure q c => (q <? num_qubits qc) && (c <? num_clbits qc)
  end.

Definition append_instr (qc : QuantumCircuit) (i : instr) : result QuantumCircuit :=
  if valid_instr qc i
  then Ok (mkCircuit (num_qubits qc) (num_clbits qc) (data qc ++ [i]))
  else Raise CircuitError.

Definition qc_h (qc : QuantumCircuit) (q : nat) := append_instr qc (HGate q).
Definition qc_cx (target : nat) (qc : QuantumCircuit) (q : nat) :=
  append_instr qc (CXGate q target).
Definition qc_measure (qc : QuantumCircuit) (qc_pair : nat * nat) :=
  append_instr qc (Measure (fst qc_pair) (snd qc_pair)).

(** [range(n)] *)
Definition range (n : nat) : list nat := seq 0 n.

(** ** The remote service *)

(** What [job.result()] gives back: the nested [try] of the collection phase
    reads the counts out of it, which may raise. *)
Record JobResult : Type := mkJobResult {
  get_counts : result counts_t
}.

(** A job handle: what [job.job_id()] and the blocking [job.result()] answer. *)
Record Job : Type := mkJob {
  call_job_id : result string;
  call_result : result JobResult
}.

(** The backend and its collaborators. The first two arguments of
    [transpile] and [sampler_run] name the call (topology label and
    repetition): an external call may answer differently each time. *)
Record Service : Type := mkService {
  backend_name : string;
  transpile : string -> nat -> QuantumCircuit -> result QuantumCircuit;
  sampler_run : string -> nat -> QuantumCircuit -> result Job
}.

(** What the orchestrator prints, in order. *)
Inductive event : Type :=
| Preparing (run_label : string) (i : nat)
| Submitted (job_id : string)
| SubmissionFailed (e : exn)
| Waiting (job_id run_label : string)
| ExtractFailed (job_id : string) (e : exn)
| Done (job_id : string)
| ProcessFailed (job_id : string) (e : exn).

(** A ledger cell: the text of [f"{x:.2f}"] for a computed [x], or a string
    literal of the source. *)
Inductive cell : Type :=
| Formatted2f (x : R)
| Literal (s : string).

(** One CSV row, columns as in the header. Appending to the ledger file is
    taken to succeed. *)
Record row : Type := mkRow {
  col_backend : string;
  col_run_label : string;
  col_job_id : string;
  col_global_stability : cell;
  col_local_A : cell;
  col_local_B : cell;
  col_asymmetry : cell;
  col_shots : Z
}.

(** A loop whose body may let an exception escape: the state reached and the
    exception, if any, that ended the loop early. *)
Fixpoint run_loop {A S : Type} (body : S -> A -> S * option exn) (xs : list A)
  (s : S) : S * option exn :=
  match xs with
  | [] => (s, None)
  | x :: xs' =>
      match body s x with
      | (s', None) => run_loop body xs' s'
      | (s', Some e) => (s', Some e)
      end
  end.

(** ** Triple-ancilla variant: quantum_campaign_control.py *)
Module Control.

Record acc : Type := mkAcc {
  global_ok : Z;
  localA_ok : Z;
  localB_ok : Z;
  probs : list R
}.

Definition acc0 : acc := mkAcc 0 0 0 [].

Definition loop_body (total : Z) (config : topology) (a : acc)
  (item : state_key * Z) : result acc :=
  let '(state, c) := item in
  let p := (IZR c / IZR total)%R in
  let probs1 := if Rpositive p then probs a ++ [p] else probs a in
  let bits_rev := bits_rev_of 9 state in
  okG <- parity_check bits_rev (ghz_indices config) 6 ;;
  let g1 := if okG then (global_ok a + c)%Z else global_ok a in
  okA <- parity_check bits_rev (local_a_indices config) 7 ;;
  let a1 := if okA then (localA_ok a + c)%Z else localA_ok a in
  okB <- parity_check bits_rev (local_b_indices config) 8 ;;
  let b1 := if okB then (localB_ok a + c)%Z else localB_ok a in
  Ok (mkAcc g1 a1 b1 probs1).

Definition loop (total : Z) (config : topology) (counts : counts_t) : result acc :=
  for_each (loop_body total config) counts acc0.

Definition entropy_of (probs : list R) : R :=
  (- Rsum (map (fun pr => pr * log2 pr) (filter Rpositive probs)))%R.

Definition analyze_results (counts : counts_t) (config : topology)
  : result (R * R * R * R * R) :=
  let total := sum_values counts in
  if (total =? 0)%Z then Ok (0, 0, 0, 0, 0)%R
  else
    a <- loop total config counts ;;
    let G := (IZR (global_ok a) / IZR total)%R in
    let LA := (IZR (localA_ok a) / IZR total)%R in
    let LB := (IZR (localB_ok a) / IZR total)%R in
    let AI := Rabs (LA - LB) in
    let entropy := entropy_of (probs a) in
    Ok (G, LA, LB, AI, entropy).

(** [build_circuit(config)] *)
Definition build_circuit (config : topology) : result QuantumCircuit :=
  let qc := mkCircuit 9 9 [] in
  let ghz_nodes := ghz_indices config in
  let loc_a_nodes := local_a_indices config in
  let loc_b_nodes := local_b_indices config in
  qc <- for_each qc_h ghz_nodes qc ;;
  qc <- for_each (qc_cx 6) ghz_nodes qc ;;
  qc <- for_each (qc_cx 7) loc_a_nodes qc ;;
  qc <- for_each (qc_cx 8) loc_b_nodes qc ;;
  qc <- for_each qc_measure (combine (range 9) (range 9)) qc ;;
  Ok qc.

Record entry : Type := mkEntry {
  entry_job : Job;
  entry_job_id : string;
  entry_run_label : string;
  entry_config : topology;
  entry_rep : nat
}.

Record sub_state : Type := mkSub {
  submitted_jobs : list entry;
  sub_log : list event
}.

(** Body of the inner submission loop. [build_circuit] and [transpile] sit
    before the [try]; the [try] holds [sampler.run], [job.job_id()], the
    append and the sleep. *)
Definition submit_one (svc : Service) (run_label : string) (config : topology)
  (st : sub_state) (i : nat) : sub_state * option exn :=
  let st := mkSub (submitted_jobs st) (sub_log st ++ [Preparing run_label i]) in
  match build_circuit config with
  | Raise e => (st, Some e)
  | Ok qc =>
      match transpile svc run_label i qc with
      | Raise e => (st, Some e)
      | Ok t_qc =>
          match (job <- sampler_run svc run_label i t_qc ;;
                 job_id <- call_job_id job ;;
                 Ok (job, job_id)) with
          | Ok (job, job_id) =>
              (mkSub (submitted_jobs st ++ [mkEntry job job_id run_label config i])
                     (sub_log st ++ [Submitted job_id]), None)
          | Raise e =>
              (mkSub (submitted_jobs st) (sub_log st ++ [SubmissionFailed e]), None)
          end
      end
  end.

Definition submit_topology (svc : Service) (st : sub_state)
  (item : string * topology) : sub_state * option exn :=
  let '(run_label, config) := item in
  run_loop (submit_one svc run_label config) (seq 1 REPETITIONS) st.

(** Phase 1 of [main]. *)
Definition submission_phase (svc : Service) : sub_state * option exn :=
  run_loop (submit_topology svc) TOPOLOGIES (mkSub [] []).

Record col_state : Type := mkCol {
  ledger : list row;
  col_log : list event
}.

(** Body of the collection loop: everything is inside the outer [try]. *)
Definition collect_one (svc : Service) (st : col_state) (e : entry) : col_state :=
  let job := entry_job e in
  let run_label := entry_run_label e in
  let job_id := entry_job_id e in
  let config := entry_config e in
  let st := mkCol (ledger st) (col_log st ++ [Waiting job_id run_label]) in
  match call_result job with
  | Raise x => mkCol (ledger st) (col_log st ++ [ProcessFailed job_id x])
  | Ok res =>
      match get_counts res with
      | Raise x => mkCol (ledger st) (col_log st ++ [ExtractFailed job_id x])
      | Ok counts =>
          match analyze_results counts config with
          | Raise x => mkCol (ledger st) (col_log st ++ [ProcessFailed job_id x])
          | Ok (G, LA, LB, AI, _) =>
              let r := mkRow (backend_name svc) run_label job_id
                         (Formatted2f (G * 100)) (Formatted2f (LA * 100))
                         (Formatted2f (LB * 100)) (Formatted2f (AI * 100))
                         SHOTS in
              mkCol (ledger st ++ [r]) (col_log st ++ [Done job_id])
          end
      end
  end.

(** Phase 2 of [main]. *)
Definition collection_phase (svc : Service) (jobs : list entry) : col_state :=
  fold_left (collect_one svc) jobs (mkCol [] []).

End Control.

(** ** Dual-ancilla variant: quantum_campaign_b3.py *)
Module B3.

Record acc : Type := mkAcc {
  global_ok : Z;
  localA_ok : Z
}.

Definition acc0 : acc := mkAcc 0 0.

Definition loop_body (data_qubits : list nat) (anc_global anc_local : nat)
  (a : acc) (item : state_key * Z) : result acc :=
  let '(state, c) := item in
  let bits_rev := bits_rev_of 8 state in
  okG <- parity_check bits_rev data_qubits anc_global ;;
  let g1 := if okG then (global_ok a + c)%Z else global_ok a in
  okA <- parity_check bits_rev (firstn 3 data_qubits) anc_local ;;
  let a1 := if okA then (localA_ok a + c)%Z else localA_ok a in
  Ok (mkAcc g1 a1).

Definition loop (data_qubits : list nat) (anc_global anc_local : nat)
  (counts : counts_t) : result acc :=
  for_each (loop_body data_qubits anc_global anc_local) counts acc0.

(** The function has two return statements of different arity
    ([return 0, 0, 0] and [return G, LA]); the tuple is a list. *)
Definition analyze_results (counts : counts_t) (data_qubits : list nat)
  (anc_global anc_local : nat) : result (list R) :=
  let total := sum_values counts in
  if (total =? 0)%Z then Ok [0; 0; 0]%R
  else
    a <- loop data_qubits anc_global anc_local counts ;;
    let G := (IZR (global_ok a) / IZR total)%R in
    let LA := (IZR (localA_ok a) / IZR total)%R in
    Ok [G; LA].

(** [loc_a + [x for x in ghz if x not in loc_a]] *)
Definition get_ordered_data (config : topology) : list nat :=
  let ghz := ghz_indices config in
  let loc_a := local_a_indices config in
  let remaining := filter (fun x => negb (existsb (Nat.eqb x) loc_a)) ghz in
  loc_a ++ remaining.

Record topology_map : Type := mkTopologyMap {
  tm_data : list nat;
  anc_global : nat;
  anc_local : nat
}.

(** [classical_control_circuit(topology_map)] *)
Definition classical_control_circuit (tm : topology_map) : result QuantumCircuit :=
  let qc := mkCircuit 8 8 [] in
  let data_qubits := tm_data tm in
  qc <- for_each qc_h data_qubits qc ;;
  qc <- for_each (qc_cx (anc_global tm)) data_qubits qc ;;
  qc <- for_each (qc_cx (anc_local tm)) (firstn 3 data_qubits) qc ;;
  qc <- for_each (fun qc i => qc_measure qc (i, i)) (range 8) qc ;;
  Ok qc.

Definition ANC_GLOBAL : nat := 6.
Definition ANC_LOCAL : nat := 7.

Record entry : Type := mkEntry {
  entry_job : Job;
  entry_job_id : string;
  entry_run_label : string;
  entry_config : topology;
  entry_topology_map : topology_map;
  entry_rep : nat
}.

Record sub_state : Type := mkSub {
  submitted_jobs : list entry;
  sub_log : list event
}.

Definition submit_one (svc : Service) (run_label : string) (config : topology)
  (tm : topology_map) (st : sub_state) (i : nat) : sub_state * option exn :=
  let st := mkSub (submitted_jobs st) (sub_log st ++ [Preparing run_label i]) in
  match classical_control_circuit tm with
  | Raise e => (st, Some e)
  | Ok qc =>
      match transpile svc run_label i qc with
      | Raise e => (st, Some e)
      | Ok t_qc =>
          match (job <- sampler_run svc run_label i t_qc ;;
                 job_id <- call_job_id job ;;
                 Ok (job, job_id)) with
          | Ok (job, job_id) =>
              (mkSub (submitted_jobs st ++ [mkEntry job job_id run_label config tm i])
                     (sub_log st ++ [Submitted job_id]), None)
          | Raise e =>
              (mkSub (submitted_jobs st) (sub_log st ++ [SubmissionFailed e]), None)
          end
      end
  end.

Definition submit_topology (svc : Service) (st : sub_state)
  (item : string * topology) : sub_state * option exn :=
  let '(run_label, config) := item in
  let ordered_data := get_ordered_data config in
  let tm := mkTopologyMap ordered_data ANC_GLOBAL ANC_LOCAL in
  run_loop (submit_one svc run_label config tm) (seq 1 REPETITIONS) st.

(** Phase 1 of [main]. *)
Definition submission_phase (svc : Service) : sub_state * option exn :=
  run_loop (submit_topology svc) TOPOLOGIES (mkSub [] []).

Record col_state : Type := mkCol {
  ledger : list row;
  col_log : list event
}.

(** [G, LA = analyze_results(...)]: unpacking a tuple of another length
    raises [ValueError]. *)
Definition analysis_step (counts : counts_t) (tm : topology_map) : result (R * R) :=
  t <- analyze_results counts (tm_data tm) (anc_global tm) (anc_local tm) ;;
  match t with
  | [G; LA] => Ok (G, LA)
  | _ => Raise ValueError
  end.

Definition collect_one (svc : Service) (st : col_state) (e : entry) : col_state :=
  let job := entry_job e in
  let run_label := entry_run_label e in
  let job_id := entry_job_id e in
  let topo_map := entry_topology_map e in
  let st := mkCol (ledger st) (col_log st ++ [Waiting job_id run_label]) in
  match call_result job with
  | Raise x => mkCol (ledger st) (col_log st ++ [ProcessFailed job_id x])
  | Ok res =>
      match get_counts res with
      | Raise x => mkCol (ledger st) (col_log st ++ [ExtractFailed job_id x])
      | Ok counts =>
          match analysis_step counts topo_map with
          | Raise x => mkCol (ledger st) (col_log st ++ [ProcessFailed job_id x])
          | Ok (G, LA) =>
              let r := mkRow (backend_name svc) run_label job_id
                         (Formatted2f (G * 100)) (Formatted2f (LA * 100))
                         (Literal "0.00") (Literal "0.00")
                         SHOTS in
              mkCol (ledger st ++ [r]) (col_log st ++ [Done job_id])
          end
      end
  end.

(** Phase 2 of [main]. *)
Definition collection_phase (svc : Service) (jobs : list entry) : col_state :=
  fold_left (collect_one svc) jobs (mkCol [] []).

End B3.

(** ** Start-up and [main] *)

Record BackendStatus : Type := mkStatus {
  operational : bool;
  pending_jobs : Z
}.

(** A backend handle: what [b.status()] answers, and the collaborators bound
    to the backend (its name, the transpiler and the sampler run on it). *)
Record Backend : Type := mkBackend {
  backend_status : result BackendStatus;
  backend_service : Service
}.

(** A [QiskitRuntimeService] instance: [service.backend(name)] and
    [service.least_busy(simulator=False, operational=True)]. *)
Record Runtime : Type := mkRuntime {
  service_backend : string -> result Backend;
  service_least_busy : result Backend
}.

(** What the two constructor calls of [get_backend] answer. *)
Record Cloud : Type := mkCloud {
  connect_ibm_cloud : result Runtime;
  connect_ibm_quantum_platform : result Runtime
}.

Definition candidates : list string :=
  [ "ibm_torino"; "ibm_fez"; "ibm_sherbrooke"; "ibm_brisbane"; "ibm_kyoto";
    "ibm_osaka" ].

(** One pass of the candidate loop, inside its bare [except]: the backend
    when the loop would [break] on it. *)
Definition try_candidate (service : Runtime) (name : string) : option Backend :=
  match (b <- service_backend service name ;;
         status <- backend_status b ;;
         Ok (b, status)) with
  | Ok (b, status) =>
      if operational status && (pending_jobs status <? 500)%Z then Some b else None
  | Raise _ => None
  end.

Fixpoint select_priority (service : Runtime) (names : list string) : option Backend :=
  match names with
  | [] => None
  | name :: rest =>
      match try_candidate service name with
      | Some b => Some b
      | None => select_priority service rest
      end
  end.

(** [get_backend()], the same in both files: [Ok None] is [return None, None]. *)
Definition get_backend (cloud : Cloud) : result (option (Runtime * Backend)) :=
  let connected :=
    match connect_ibm_cloud cloud with
    | Ok service => Some service
    | Raise _ =>
        match connect_ibm_quantum_platform cloud with
        | Ok service => Some service
        | Raise _ => None
        end
    end in
  match connected with
  | None => Ok None
  | Some service =>
      match select_priority service candidates with
      | Some backend => Ok (Some (service, backend))
      | None =>
          backend <- service_least_busy service ;;
          Ok (Some (service, backend))
      end
  end.

Definition HEADER : list string :=
  [ "backend"; "run_label"; "job_id"; "global_stability (%)"; "local_A (%)";
    "local_B (%)"; "asymmetry (%)"; "shots" ].

Inductive csv_line : Type :=
| HeaderLine (columns : list string)
| RowLine (r : row).

(** The campaign log file; [None] when [os.path.isfile] is false. *)
Definition log_file : Type := option (list csv_line).

(** The log after [main]'s initialisation: created with the header when
    absent, left alone otherwise. *)
Definition init_log (file : log_file) : list csv_line :=
  match file with
  | Some lines => lines
  | None => [HeaderLine HEADER]
  end.

(** [main()] of quantum_campaign_control.py: the log file it leaves and the
    exception, if any, that ended it. *)
Definition control_main (cloud : Cloud) (file : log_file) : log_file * option exn :=
  match get_backend cloud with
  | Raise e => (file, Some e)
  | Ok None => (file, None)
  | Ok (Some (service, backend)) =>
      let lines := init_log file in
      let svc := backend_service backend in
      match Control.submission_phase svc with
      | (st, Some e) => (Some lines, Some e)
      | (st, None) =>
          let col := Control.collection_phase svc (Control.submitted_jobs st) in
          (Some (lines ++ map RowLine (Control.ledger col)), None)
      end
  end.

(** [main()] of quantum_campaign_b3.py. *)
Definition b3_main (cloud : Cloud) (file : log_file) : log_file * option exn :=
  match get_backend cloud with
  | Raise e => (file, Some e)
  | Ok None => (file, None)
  | Ok (Some (service, backend)) =>
      let lines := init_log file in
      let svc := backend_service backend in
      match B3.submission_phase svc with
      | (st, Some e) => (Some lines, Some e)
      | (st, None) =>
          let col := B3.collection_phase svc (B3.submitted_jobs st) in
          (Some (lines ++ map RowLine (B3.ledger col)), None)
      end
  end.

(** ** Definitions used to state the properties *)

(** Topology "A" of the registry. *)
Definition topology_A : topology := mkTopology [0;1;2;3;4;5] [0;1;2] [3;4;5].

(** Scenario 2 of the testable properties: a two-way split at width 9. *)
Definition scenario2 : counts_t :=
  [ (KStr "000000000", 4096%Z); (KStr "111111000", 4096%Z) ].

(** The other indexing path of the bit-reversal property: position [i] of the
    reversed string is position [w - 1 - i] of the string as given, [w] its
    width; a position outside the string does not exist. *)
Definition raw_index (bits : list ascii) (i : nat) : result ascii :=
  let w := Z.of_nat (List.length bits) in
  let j := (w - 1 - Z.of_nat i)%Z in
  if (j <? 0)%Z then Raise IndexError else py_index bits (Z.to_nat j).

Definition parity_check_unreversed (bits : list ascii) (nodes : list nat)
  (anc : nat) : result bool :=
  measured <- comprehension (raw_index bits) nodes ;;
  let computed := count_ones_mod2 measured in
  ch <- raw_index bits anc ;;
  measured_ancilla <- py_int ch ;;
  Ok (measured_ancilla =? computed)%Z.

Definition nonneg_counts (counts : counts_t) : Prop :=
  Forall (fun item => (0 <= snd item)%Z) counts.

(** *** Circuit programs, in the words of the data model *)

(** Running a list of instructions through the checked circuit interface. *)
Definition emit (prog : list instr) (qc : QuantumCircuit) : result QuantumCircuit :=
  for_each append_instr prog qc.

Definition measure_all (w : nat) : list instr :=
  map (fun i => Measure i i) (range w).

(** Triple-ancilla program: a Hadamard on every data qubit, then the
    controlled-NOTs of the global group into ancilla 6, of local-A into 7, of
    local-B into 8, then the full-width measurement. *)
Definition triple_program (config : topology) : list instr :=
  map HGate (ghz_indices config)
  ++ map (fun q => CXGate q 6) (ghz_indices config)
  ++ map (fun q => CXGate q 7) (local_a_indices config)
  ++ map (fun q => CXGate q 8) (local_b_indices config)
  ++ measure_all 9.

(** Dual-ancilla program over a listing [data_qubits] of the data qubits:
    no local-B part. *)
Definition dual_program (data_qubits local_a : list nat) : list instr :=
  map HGate data_qubits
  ++ map (fun q => CXGate q 6) data_qubits
  ++ map (fun q => CXGate q 7) local_a
  ++ measure_all 8.

(** The topology map that [main] of the dual-ancilla variant builds. *)
Definition topology_map_of (config : topology) : B3.topology_map :=
  B3.mkTopologyMap (B3.get_ordered_data config) B3.ANC_GLOBAL B3.ANC_LOCAL.

(** An instruction that couples two data qubits. *)
Definition couples_data (data_qubits : list nat) (i : instr) : bool :=
  match i with
  | CXGate c t => existsb (Nat.eqb c) data_qubits && existsb (Nat.eqb t) data_qubits
  | _ => false
  end.

Definition no_data_coupling (data_qubits : list nat) (prog : list instr) : bool :=
  forallb (fun i => negb (couples_data data_qubits i)) prog.

(** *** Reading the orchestrator's log *)

(** The (label, topology, repetition) triples of the submission loops, in
    loop order. *)
Definition jobs_to_submit : list (string * topology * nat) :=
  flat_map (fun item => map (fun i => (fst item, snd item, i)) (seq 1 REPETITIONS))
           TOPOLOGIES.

Definition pair_of (t : string * topology * nat) : string * nat :=
  (fst (fst t), snd t).

(** The pairs whose loop body was entered. *)
Fixpoint attempted (log : list event) : list (string * nat) :=
  match log with
  | [] => []
  | Preparing l i :: log' => (l, i) :: attempted log'
  | _ :: log' => attempted log'
  end.

(** The jobs the collection loop waited for. *)
Fixpoint visited (log : list event) : list string :=
  match log with
  | [] => []
  | Waiting job_id _ :: log' => job_id :: visited log'
  | _ :: log' => visited log'
  end.

(** The guarded part of a submission: [sampler.run] then [job.job_id()]. *)
Definition guarded_submit (svc : Service) (l : string) (i : nat)
  (t_qc : QuantumCircuit) : result string :=
  job <- sampler_run svc l i t_qc ;; call_job_id job.

Definition control_submit_ok (svc : Service) (t : string * topology * nat) : bool :=
  let '(l, config, i) := t in
  match Control.build_circuit config with
  | Ok qc =>
      match transpile svc l i qc with
      | Ok t_qc => is_ok (guarded_submit svc l i t_qc)
      | Raise _ => false
      end
  | Raise _ => false
  end.

Definition b3_submit_ok (svc : Service) (t : string * topology * nat) : bool :=
  let '(l, config, i) := t in
  match B3.classical_control_circuit (topology_map_of config) with
  | Ok qc =>
      match transpile svc l i qc with
      | Ok t_qc => is_ok (guarded_submit svc l i t_qc)
      | Raise _ => false
      end
  | Raise _ => false
  end.

(** What one topology contributes to the two views of the submission state. *)
Definition topology_attempts (item : string * topology) : list (string * nat) :=
  flat_map (fun i => [(fst item, i)]) (seq 1 REPETITIONS).

Definition topology_records (ok : string * topology * nat -> bool)
  (item : string * topology) : list (string * nat) :=
  flat_map (fun i => if ok (fst item, snd item, i) then [(fst item, i)] else [])
           (seq 1 REPETITIONS).

Definition control_entry_pair (e : Control.entry) : string * nat :=
  (Control.entry_run_label e, Control.entry_rep e).

Definition b3_entry_pair (e : B3.entry) : string * nat :=
  (B3.entry_run_label e, B3.entry_rep e).

Definition transpile_never_fails (svc : Service) : Prop :=
  forall l i qc, is_ok (transpile svc l i qc) = true.

(** A job whose wait, count extraction and analysis all succeed. *)
Definition control_job_ok (e : Control.entry) : bool :=
  match call_result (Control.entry_job e) with
  | Ok res =>
      match get_counts res with
      | Ok counts => is_ok (Control.analyze_results counts (Control.entry_config e))
      | Raise _ => false
      end
  | Raise _ => false
  end.

Definition b3_job_ok (e : B3.entry) : bool :=
  match call_result (B3.entry_job e) with
  | Ok res =>
      match get_counts res with
      | Ok counts => is_ok (B3.analysis_step counts (B3.entry_topology_map e))
      | Raise _ => false
      end
  | Raise _ => false
  end.

(** *** Reading the analyzers' answers *)

(** The total count of the outcomes on which a parity check answers true. *)
Definition matched_count (check : state_key -> result bool) (counts : counts_t) : Z :=
  fold_right (fun item acc =>
                match check (fst item) with
                | Ok true => (snd item + acc)%Z
                | _ => acc
                end) 0%Z counts.

(** The parity checks of the two loop bodies, outcome by outcome. *)
Definition control_check (nodes : list nat) (anc : nat) (state : state_key)
  : result bool :=
  parity_check (bits_rev_of 9 state) nodes anc.

Definition b3_check (nodes : list nat) (anc : nat) (state : state_key)
  : result bool :=
  parity_check (bits_rev_of 8 state) nodes anc.

Definition is_bit (c : ascii) : bool := Ascii.eqb c bit0 || Ascii.eqb c bit1.

(** A key that reads as at least [w] binary digits once normalised. *)
Definition well_formed_key (w : nat) (state : state_key) : Prop :=
  w <= List.length (bits_of w state) /\ forallb is_bit (bits_of w state) = true.

Definition bit_char (b : bool) : ascii := if b then bit1 else bit0.

(** Bit [i] of an integer key. *)
Definition key_bit (n : Z) (i : nat) : bool := Z.testbit n (Z.of_nat i).

(** The parity of the bits of [n] at the positions [nodes]. *)
Definition key_parity (n : Z) (nodes : list nat) : bool :=
  fold_right xorb false (map (key_bit n) nodes).

(** Two dictionary items that an analyzer of width [w] reads alike. *)
Definition same_reading (w : nat) (a b : state_key * Z) : Prop :=
  snd a = snd b /\ bits_of w (fst a) = bits_of w (fst b).

(** *** Sample services *)

Definition job_with (job_id : string) (counts : counts_t) : Job :=
  mkJob (Ok job_id) (Ok (mkJobResult (Ok counts))).

(** Transpiles everything; refuses the second repetition of every label. *)
Definition flaky_service : Service :=
  mkService "ibm_torino"
    (fun _ _ qc => Ok qc)
    (fun l i _ =>
       if i =? 2 then Raise (ExternalError "rate limit")
       else Ok (job_with l [(KStr "000000000", 8192%Z)])).

(** Fails to transpile the very first circuit; would submit everything. *)
Definition transpile_failing_service : Service :=
  mkService "ibm_torino"
    (fun l i qc =>
       if String.eqb l "A" && (i =? 1) then Raise (ExternalError "transpile")
       else Ok qc)
    (fun l _ _ => Ok (job_with l [(KStr "000000000", 8192%Z)])).

(** A config inside the stated premises of the ordering property whose
    local-A group has two members. *)
Definition short_local_a : topology := mkTopology [0;1;2;3] [0;1] [2;3].

(** One recorded job of the dual-ancilla campaign, all of whose 8192 shots
    read zero. *)
Definition b3_sample_jobs : list B3.entry :=
  [ B3.mkEntry (job_with "job-A1" [(KStr "00000000", 8192%Z)]) "job-A1" "A"
      topology_A (topology_map_of topology_A) 1 ].

Definition b3_sample_row : row :=
  mkRow "ibm_torino" "A" "job-A1"
    (Formatted2f (IZR 8192 / IZR 8192 * 100)) (Formatted2f (IZR 8192 / IZR 8192 * 100))
    (Literal "0.00") (Literal "0.00") SHOTS.

(** The two columns the dual-ancilla variant does not measure. *)
Definition placeholder_columns (r : row) : Prop :=
  col_local_B r = Literal "0.00" /\ col_asymmetry r = Literal "0.00".

(** A sample cloud: the ibm_cloud channel is down; on the platform channel
    the first candidate is busy, the second unknown, the third ready. *)
Definition busy_backend : Backend :=
  mkBackend (Ok (mkStatus true 900)) flaky_service.

Definition ready_backend : Backend :=
  mkBackend (Ok (mkStatus true 12)) flaky_service.

Definition sample_runtime : Runtime :=
  mkRuntime
    (fun name =>
       if String.eqb name "ibm_torino" then Ok busy_backend
       else if String.eqb name "ibm_sherbrooke" then Ok ready_backend
       else Raise (ExternalError "backend not found"))
    (Raise (ExternalError "no backend available")).

Definition sample_cloud : Cloud :=
  mkCloud (Raise (ExternalError "ibm_cloud unreachable")) (Ok sample_runtime).

(** A runtime none of whose candidates answers and whose fallback fails. *)
Definition empty_runtime : Runtime :=
  mkRuntime (fun _ => Raise (ExternalError "backend not found"))
            (Raise (ExternalError "no backend available")).

(** What a job record of the triple-ancilla campaign must satisfy. *)
Definition control_record_ok (e : Control.entry) : Prop :=
  In (Control.entry_run_label e, Control.entry_config e) TOPOLOGIES /\
  1 <= Control.entry_rep e <= REPETITIONS /\
  call_job_id (Control.entry_job e) = Ok (Control.entry_job_id e).

Definition b3_record_ok (e : B3.entry) : Prop :=
  In (B3.entry_run_label e, B3.entry_config e) TOPOLOGIES /\
  B3.entry_topology_map e = topology_map_of (B3.entry_config e) /\
  1 <= B3.entry_rep e <= REPETITIONS /\
  call_job_id (B3.entry_job e) = Ok (B3.entry_job_id e).

(** What a ledger row says about the job it was written for. *)
Definition row_describes (svc : Service) (run_label job_id : string) (r : row) : Prop :=
  col_backend r = backend_name svc /\
  col_run_label r = run_label /\
  col_job_id r = job_id /\
  col_shots r = SHOTS.

(** Refuses the second repetition of every label and fails to transpile the
    third circuit of label "B". *)
Definition late_transpile_failure : Service :=
  mkService "ibm_torino"
    (fun l i qc =>
       if String.eqb l "B" && (i =? 3) then Raise (ExternalError "transpile")
       else Ok qc)
    (fun l i _ =>
       if i =? 2 then Raise (ExternalError "rate limit")
       else Ok (job_with l [(KStr "000000000", 8192%Z)])).

(** A service on which nothing fails and whose jobs all report counts that
    satisfy [good]. *)
Definition healthy_service (good : counts_t -> Prop) (svc : Service) : Prop :=
  transpile_never_fails svc /\
  forall l i qc,
    exists job job_id res counts,
      sampler_run svc l i qc = Ok job /\
      call_job_id job = Ok job_id /\
      call_result job = Ok res /\
      get_counts res = Ok counts /\
      good counts.

Definition control_good_counts (counts : counts_t) : Prop :=
  Forall (fun item => well_formed_key 9 (fst item)) counts.

Definition b3_good_counts (counts : counts_t) : Prop :=
  Forall (fun item => well_formed_key 8 (fst item)) counts /\
  sum_values counts <> 0%Z.

(** The job of a record is one the sampler returned for the record's pair. *)
Definition control_from_sampler (svc : Service) (e : Control.entry) : Prop :=
  exists qc, sampler_run svc (Control.entry_run_label e) (Control.entry_rep e) qc
             = Ok (Control.entry_job e).

Definition b3_from_sampler (svc : Service) (e : B3.entry) : Prop :=
  exists qc, sampler_run svc (B3.entry_run_label e) (B3.entry_rep e) qc
             = Ok (B3.entry_job e).

(** The labels of a full campaign, in ledger order. *)
Definition campaign_labels : list string :=
  flat_map (fun item => repeat (fst item) REPETITIONS) TOPOLOGIES.

(** A service that always submits and whose jobs all read zero. *)
Definition steady_service : Service :=
  mkService "ibm_torino"
    (fun _ _ qc => Ok qc)
    (fun l _ _ => Ok (job_with l [(KStr "000000000", 8192%Z)])).

Definition steady_cloud : Cloud :=
  mkCloud (Ok (mkRuntime
                 (fun _ => Ok (mkBackend (Ok (mkStatus true 3)) steady_service))
                 (Raise (ExternalError "unused"))))
          (Raise (ExternalError "unused")).

(** ** The analyzers *)

Lemma Rpositive_true (x : R) : (0 < x)%R -> Rpositive x = true.
Proof.
  intros Hx. unfold Rpositive. destruct (Rlt_dec 0 x); [reflexivity | contradiction].
Qed.

Lemma ln2_neq_0 : ln 2 <> 0%R.
Proof. pose proof ln_lt_2. lra. Qed.

Lemma log2_half : log2 (1 / 2) = (-1)%R.
Proof.
  unfold log2.
  replace (1 / 2)%R with (/ 2)%R by lra.
  rewrite ln_Rinv by lra.
  field. exact ln2_neq_0.
Qed.

Lemma topology_A_registered : In ("A", topology_A) TOPOLOGIES.
Proof. left. reflexivity. Qed.

Lemma scenario2_total : sum_values scenario2 = 8192%Z.
Proof. reflexivity. Qed.

Lemma scenario2_loop :
  Control.loop 8192 topology_A scenario2
  = Ok (Control.mkAcc 8192 4096 8192 [(4096 / 8192)%R; (4096 / 8192)%R]).
Proof.
  assert (Hp : Rpositive (4096 / 8192) = true) by (apply Rpositive_true; lra).
  unfold Control.loop, scenario2, for_each, Control.loop_body.
  replace (parity_check (bits_rev_of 9 (KStr "000000000")) (ghz_indices topology_A) 6)
    with (Ok true) by (vm_compute; reflexivity).
  replace (parity_check (bits_rev_of 9 (KStr "000000000")) (local_a_indices topology_A) 7)
    with (Ok true) by (vm_compute; reflexivity).
  replace (parity_check (bits_rev_of 9 (KStr "000000000")) (local_b_indices topology_A) 8)
    with (Ok true) by (vm_compute; reflexivity).
  replace (parity_check (bits_rev_of 9 (KStr "111111000")) (ghz_indices topology_A) 6)
    with (Ok true) by (vm_compute; reflexivity).
  replace (parity_check (bits_rev_of 9 (KStr "111111000")) (local_a_indices topology_A) 7)
    with (Ok false) by (vm_compute; reflexivity).
  replace (parity_check (bits_rev_of 9 (KStr "111111000")) (local_b_indices topology_A) 8)
    with (Ok true) by (vm_compute; reflexivity).
  cbn [bind Control.global_ok Control.localA_ok Control.localB_ok Control.probs
       Control.acc0 app].
  rewrite !Hp. cbn [app Control.probs].
  reflexivity.
Qed.

Lemma scenario2_entropy :
  Control.entropy_of [(4096 / 8192)%R; (4096 / 8192)%R] = 1%R.
Proof.
  assert (Hp : Rpositive (4096 / 8192) = true) by (apply Rpositive_true; lra).
  unfold Control.entropy_of. cbn [filter]. rewrite Hp. cbn [map].
  unfold Rsum. cbn [fold_left].
  replace (4096 / 8192)%R with (1 / 2)%R by lra.
  rewrite log2_half. clear Hp. lra.
Qed.

(** Runs the triple-ancilla analyzer on scenario 2 up to the final quotients. *)
Ltac run_scenario2 :=
  unfold Control.analyze_results;
  rewrite scenario2_total; cbn [Z.eqb];
  rewrite scenario2_loop;
  cbn [bind Control.global_ok Control.localA_ok Control.localB_ok Control.probs];
  rewrite scenario2_entropy.

Lemma scenario2_analysis :
  Control.analyze_results scenario2 topology_A
  = Ok (1, 1 / 2, 1, 1 / 2, 1)%R.
Proof.
  run_scenario2.
  replace (8192 / 8192)%R with 1%R by lra.
  replace (4096 / 8192)%R with (1 / 2)%R by lra.
  rewrite Rabs_left by lra.
  replace (- (1 / 2 - 1))%R with (1 / 2)%R by lra.
  reflexivity.
Qed.

(** C1 (as amended): for topology A and the distribution
    {"000000000": 4096, "111111000": 4096} the triple-ancilla analyzer
    returns global stability 1, local-A stability 1/2, local-B stability 1,
    asymmetry 1/2 and entropy 1 bit: after the reversal the three 1s of the
    data register sit on qubits 3..5 and all three ancillas read 1, so the
    local-A check (parity 0 against ancilla 1) fails on the second outcome. *)
Theorem scenario2_metrics :
  Control.analyze_results scenario2 topology_A = Ok (1, 1 / 2, 1, 1 / 2, 1)%R.
Proof.
  run_scenario2.
  assert (HG : (8192 / 8192 = 1)%R) by lra.
  assert (HLA : (4096 / 8192 = 1 / 2)%R) by lra.
  rewrite HG, HLA.
  assert (HAI : Rabs (1 / 2 - 1) = (1 / 2)%R)
    by (rewrite Rabs_left by lra; lra).
  rewrite HAI. reflexivity.
Qed.

(** C1 as stated fails: no asymmetry value makes the analyzer's answer on
    scenario 2 have all three stabilities equal to 1 and entropy 1. *)
Lemma scenario2_not_all_stable :
  ~ exists AI : R,
      Control.analyze_results scenario2 topology_A = Ok (1, 1, 1, AI, 1)%R.
Proof.
  intros [AI Heq]. rewrite scenario2_analysis in Heq.
  injection Heq; intros; lra.
Qed.

(** C5: when the counts sum to zero, either analyzer returns at once a tuple
    of zeros and raises nothing. *)
Theorem zero_total_all_zero (counts : counts_t) (config : topology)
  (data_qubits : list nat) (anc_global anc_local : nat) :
  sum_values counts = 0%Z ->
  Control.analyze_results counts config = Ok (0, 0, 0, 0, 0)%R /\
  B3.analyze_results counts data_qubits anc_global anc_local = Ok [0; 0; 0]%R.
Proof.
  intros Htotal. unfold Control.analyze_results, B3.analyze_results.
  rewrite Htotal. split; reflexivity.
Qed.

Lemma zero_total_all_zero_witness :
  sum_values [(KStr "000000000", 0%Z); (KInt 5, 0%Z)] = 0%Z /\
  Control.analyze_results [(KStr "000000000", 0%Z); (KInt 5, 0%Z)] topology_A
  = Ok (0, 0, 0, 0, 0)%R /\
  B3.analyze_results [(KStr "000000000", 0%Z); (KInt 5, 0%Z)] [0;1;2;3;4;5] 6 7
  = Ok [0; 0; 0]%R.
Proof.
  split; [reflexivity |].
  apply (zero_total_all_zero [(KStr "000000000", 0%Z); (KInt 5, 0%Z)]
           topology_A [0;1;2;3;4;5] 6 7).
  reflexivity.
Defined.

(** *** Matching counts stay between 0 and the total *)

Lemma fold_left_Zadd_acc (l : list Z) (a : Z) :
  fold_left Z.add l a = (a + fold_left Z.add l 0)%Z.
Proof.
  revert a. induction l as [| x l IH]; intros a; simpl.
  - lia.
  - rewrite IH. rewrite (IH x). lia.
Qed.

Lemma sum_values_cons (item : state_key * Z) (counts : counts_t) :
  sum_values (item :: counts) = (snd item + sum_values counts)%Z.
Proof.
  unfold sum_values. simpl. rewrite fold_left_Zadd_acc. reflexivity.
Qed.

Lemma sum_values_nonneg (counts : counts_t) :
  nonneg_counts counts -> (0 <= sum_values counts)%Z.
Proof.
  induction 1 as [| item counts Hitem _ IH].
  - unfold sum_values; simpl; lia.
  - rewrite sum_values_cons. lia.
Qed.

(** One pass of the triple-ancilla loop body adds the outcome's count to each
    matching counter or leaves it alone. *)
Lemma control_loop_body_step total config a state c a' :
  Control.loop_body total config a (state, c) = Ok a' ->
  (Control.global_ok a' = Control.global_ok a \/
   Control.global_ok a' = (Control.global_ok a + c)%Z) /\
  (Control.localA_ok a' = Control.localA_ok a \/
   Control.localA_ok a' = (Control.localA_ok a + c)%Z) /\
  (Control.localB_ok a' = Control.localB_ok a \/
   Control.localB_ok a' = (Control.localB_ok a + c)%Z).
Proof.
  unfold Control.loop_body.
  destruct (parity_check _ (ghz_indices config) 6) as [okG |]; [| discriminate].
  destruct (parity_check _ (local_a_indices config) 7) as [okA |]; [| discriminate].
  destruct (parity_check _ (local_b_indices config) 8) as [okB |]; [| discriminate].
  cbn [bind]. intros Heq. injection Heq as <-. cbn.
  destruct okG, okA, okB; auto.
Qed.

Lemma control_loop_bounds total config counts :
  nonneg_counts counts ->
  forall a a' s,
    for_each (Control.loop_body total config) counts a = Ok a' ->
    (0 <= Control.global_ok a <= s)%Z ->
    (0 <= Control.localA_ok a <= s)%Z ->
    (0 <= Control.localB_ok a <= s)%Z ->
    (0 <= Control.global_ok a' <= s + sum_values counts)%Z /\
    (0 <= Control.localA_ok a' <= s + sum_values counts)%Z /\
    (0 <= Control.localB_ok a' <= s + sum_values counts)%Z.
Proof.
  induction 1 as [| [state c] counts Hc _ IH]; intros a a' s Hrun HG HA HB.
  - simpl in Hrun. injection Hrun as <-. unfold sum_values; simpl. lia.
  - cbn [for_each] in Hrun. cbn [snd] in Hc.
    destruct (Control.loop_body total config a (state, c)) as [a1 |] eqn:Hbody;
      [| discriminate].
    cbn [bind] in Hrun.
    apply control_loop_body_step in Hbody. destruct Hbody as (HG1 & HA1 & HB1).
    rewrite sum_values_cons. cbn [snd].
    replace (s + (c + sum_values counts))%Z with ((s + c) + sum_values counts)%Z by lia.
    apply (IH a1 a' (s + c)%Z Hrun); lia.
Qed.

Lemma b3_loop_body_step data_qubits ag al a state c a' :
  B3.loop_body data_qubits ag al a (state, c) = Ok a' ->
  (B3.global_ok a' = B3.global_ok a \/
   B3.global_ok a' = (B3.global_ok a + c)%Z) /\
  (B3.localA_ok a' = B3.localA_ok a \/
   B3.localA_ok a' = (B3.localA_ok a + c)%Z).
Proof.
  unfold B3.loop_body.
  destruct (parity_check _ data_qubits ag) as [okG |]; [| discriminate].
  destruct (parity_check _ (firstn 3 data_qubits) al) as [okA |]; [| discriminate].
  cbn [bind]. intros Heq. injection Heq as <-. cbn.
  destruct okG, okA; auto.
Qed.

Lemma b3_loop_bounds data_qubits ag al counts :
  nonneg_counts counts ->
  forall a a' s,
    for_each (B3.loop_body data_qubits ag al) counts a = Ok a' ->
    (0 <= B3.global_ok a <= s)%Z ->
    (0 <= B3.localA_ok a <= s)%Z ->
    (0 <= B3.global_ok a' <= s + sum_values counts)%Z /\
    (0 <= B3.localA_ok a' <= s + sum_values counts)%Z.
Proof.
  induction 1 as [| [state c] counts Hc _ IH]; intros a a' s Hrun HG HA.
  - simpl in Hrun. injection Hrun as <-. unfold sum_values; simpl. lia.
  - cbn [for_each] in Hrun. cbn [snd] in Hc.
    destruct (B3.loop_body data_qubits ag al a (state, c)) as [a1 |] eqn:Hbody;
      [| discriminate].
    cbn [bind] in Hrun.
    apply b3_loop_body_step in Hbody. destruct Hbody as (HG1 & HA1).
    rewrite sum_values_cons. cbn [snd].
    replace (s + (c + sum_values counts))%Z with ((s + c) + sum_values counts)%Z by lia.
    apply (IH a1 a' (s + c)%Z Hrun); lia.
Qed.

Lemma ratio_in_unit (ok total : Z) :
  (0 <= ok <= total)%Z -> (0 < total)%Z ->
  (0 <= IZR ok / IZR total <= 1)%R.
Proof.
  intros [Hlo Hhi] Hpos.
  apply IZR_le in Hlo. apply IZR_le in Hhi. apply IZR_lt in Hpos.
  assert (Hinv : (0 < / IZR total)%R) by (apply Rinv_0_lt_compat; exact Hpos).
  assert (Hone : (IZR total * / IZR total = 1)%R) by (field; lra).
  unfold Rdiv. split; nra.
Qed.

(** C3: with non-negative counts, every matching counter the loops end with
    lies between 0 and the total, and when the total is positive every
    stability either analyzer returns lies in [0,1]. *)
Theorem stability_in_unit_interval (counts : counts_t) :
  nonneg_counts counts ->
  (forall config a,
      Control.loop (sum_values counts) config counts = Ok a ->
      (0 <= Control.global_ok a <= sum_values counts)%Z /\
      (0 <= Control.localA_ok a <= sum_values counts)%Z /\
      (0 <= Control.localB_ok a <= sum_values counts)%Z) /\
  (forall data_qubits ag al a,
      B3.loop data_qubits ag al counts = Ok a ->
      (0 <= B3.global_ok a <= sum_values counts)%Z /\
      (0 <= B3.localA_ok a <= sum_values counts)%Z) /\
  (forall config G LA LB AI Hent,
      (0 < sum_values counts)%Z ->
      Control.analyze_results counts config = Ok (G, LA, LB, AI, Hent) ->
      (0 <= G <= 1)%R /\ (0 <= LA <= 1)%R /\ (0 <= LB <= 1)%R) /\
  (forall data_qubits ag al G LA,
      (0 < sum_values counts)%Z ->
      B3.analyze_results counts data_qubits ag al = Ok [G; LA] ->
      (0 <= G <= 1)%R /\ (0 <= LA <= 1)%R).
Proof.
  intros Hnn.
  assert (Hctl : forall config a,
             Control.loop (sum_values counts) config counts = Ok a ->
             (0 <= Control.global_ok a <= sum_values counts)%Z /\
             (0 <= Control.localA_ok a <= sum_values counts)%Z /\
             (0 <= Control.localB_ok a <= sum_values counts)%Z).
  { intros config a Hrun. unfold Control.loop in Hrun.
    apply (control_loop_bounds _ _ _ Hnn _ _ 0%Z) in Hrun; cbn; lia. }
  assert (Hb3 : forall data_qubits ag al a,
             B3.loop data_qubits ag al counts = Ok a ->
             (0 <= B3.global_ok a <= sum_values counts)%Z /\
             (0 <= B3.localA_ok a <= sum_values counts)%Z).
  { intros dq ag al a Hrun. unfold B3.loop in Hrun.
    apply (b3_loop_bounds _ _ _ _ Hnn _ _ 0%Z) in Hrun; cbn; lia. }
  split; [exact Hctl |]. split; [exact Hb3 |]. split.
  - intros config G LA LB AI Hent Hpos Heq.
    unfold Control.analyze_results in Heq.
    destruct (Z.eqb_spec (sum_values counts) 0) as [Hz | _]; [lia |].
    destruct (Control.loop (sum_values counts) config counts) as [a |] eqn:Hrun;
      [| discriminate].
    cbn [bind] in Heq. injection Heq as <- <- <- _ _.
    apply Hctl in Hrun. destruct Hrun as (HG & HA & HB).
    repeat split; apply ratio_in_unit; assumption.
  - intros dq ag al G LA Hpos Heq.
    unfold B3.analyze_results in Heq.
    destruct (Z.eqb_spec (sum_values counts) 0) as [Hz | _]; [lia |].
    destruct (B3.loop dq ag al counts) as [a |] eqn:Hrun; [| discriminate].
    cbn [bind] in Heq. injection Heq as <- <-.
    apply Hb3 in Hrun. destruct Hrun as (HG & HA).
    repeat split; apply ratio_in_unit; assumption.
Qed.

Lemma stability_in_unit_interval_witness :
  nonneg_counts scenario2 /\
  (0 < sum_values scenario2)%Z /\
  Control.analyze_results scenario2 topology_A = Ok (1, 1 / 2, 1, 1 / 2, 1)%R /\
  (0 <= 1 / 2 <= 1)%R.
Proof.
  assert (Hnn : nonneg_counts scenario2).
  { unfold nonneg_counts, scenario2. repeat constructor; cbn [snd]; lia. }
  assert (Hpos : (0 < sum_values scenario2)%Z) by reflexivity.
  split; [exact Hnn |]. split; [exact Hpos |]. split; [exact scenario2_analysis |].
  destruct (stability_in_unit_interval scenario2 Hnn) as (_ & _ & Hctl & _).
  destruct (Hctl topology_A _ _ _ _ _ Hpos scenario2_analysis) as (_ & HLA & _).
  exact HLA.
Defined.

(** *** Bit reversal *)

Lemma reversed_index_is_raw_index (bits : list ascii) (i : nat) :
  py_index (rev bits) i = raw_index bits i.
Proof.
  unfold py_index, raw_index. rewrite nth_error_rev.
  destruct (Nat.ltb_spec i (List.length bits)) as [Hlt | Hge].
  - destruct (Z.ltb_spec (Z.of_nat (List.length bits) - 1 - Z.of_nat i) 0) as [Hneg | _];
      [lia |].
    replace (Z.to_nat (Z.of_nat (List.length bits) - 1 - Z.of_nat i))
      with (List.length bits - S i) by lia.
    reflexivity.
  - destruct (Z.ltb_spec (Z.of_nat (List.length bits) - 1 - Z.of_nat i) 0) as [_ | Hpos];
      [reflexivity | lia].
Qed.

Lemma comprehension_ext {A B : Type} (f g : A -> result B) (xs : list A) :
  (forall x, f x = g x) -> comprehension f xs = comprehension g xs.
Proof.
  intros Hfg. induction xs as [| x xs IH]; simpl.
  - reflexivity.
  - rewrite Hfg, IH. reflexivity.
Qed.

(** C4: the parity check the analyzers run on the reversed string (qubit [i]
    at position [i]) gives the same answer, outcome by outcome and group by
    group, as the same check read off the string as given at positions
    [w - 1 - i]; this holds for the normalised key of either variant. *)
Theorem parity_check_reversal_agrees :
  (forall (bits : list ascii) (nodes : list nat) (anc : nat),
      parity_check (rev bits) nodes anc = parity_check_unreversed bits nodes anc) /\
  (forall (w : nat) (state : state_key) (nodes : list nat) (anc : nat),
      parity_check (bits_rev_of w state) nodes anc
      = parity_check_unreversed (bits_of w state) nodes anc).
Proof.
  assert (Hgen : forall bits nodes anc,
             parity_check (rev bits) nodes anc
             = parity_check_unreversed bits nodes anc).
  { intros bits nodes anc. unfold parity_check, parity_check_unreversed.
    rewrite (comprehension_ext (py_index (rev bits)) (raw_index bits))
      by apply reversed_index_is_raw_index.
    rewrite reversed_index_is_raw_index. reflexivity. }
  split; [exact Hgen |].
  intros w state nodes anc. unfold bits_rev_of. apply Hgen.
Qed.

(** ** The ledger of the dual-ancilla variant *)

Lemma b3_collect_one_placeholders svc st e :
  Forall placeholder_columns (B3.ledger st) ->
  Forall placeholder_columns (B3.ledger (B3.collect_one svc st e)).
Proof.
  intros Hst. unfold B3.collect_one.
  destruct (call_result (B3.entry_job e)) as [res |]; [| exact Hst].
  destruct (get_counts res) as [counts |]; [| exact Hst].
  destruct (B3.analysis_step counts (B3.entry_topology_map e)) as [[G LA] |];
    [| exact Hst].
  cbn [B3.ledger]. apply Forall_app. split; [exact Hst |].
  constructor; [split; reflexivity | constructor].
Qed.

Lemma b3_ledger_placeholders svc jobs :
  Forall placeholder_columns (B3.ledger (B3.collection_phase svc jobs)).
Proof.
  unfold B3.collection_phase.
  assert (Hgen : forall st, Forall placeholder_columns (B3.ledger st) ->
                            Forall placeholder_columns
                              (B3.ledger (fold_left (B3.collect_one svc) jobs st))).
  { induction jobs as [| e jobs IH]; intros st Hst; cbn [fold_left].
    - exact Hst.
    - apply IH. apply b3_collect_one_placeholders. exact Hst. }
  apply Hgen. constructor.
Qed.

Lemma b3_sample_row_written :
  In b3_sample_row
     (B3.ledger (B3.collection_phase flaky_service b3_sample_jobs)).
Proof. left. reflexivity. Qed.

(** C7: every ledger row the dual-ancilla collection phase writes carries the
    literal "0.00" in its local_B column and in its asymmetry column, whatever
    the service answered and whatever the jobs measured. *)
Theorem dual_rows_have_literal_placeholders (svc : Service) (jobs : list B3.entry)
  (r : row) :
  In r (B3.ledger (B3.collection_phase svc jobs)) ->
  col_local_B r = Literal "0.00" /\ col_asymmetry r = Literal "0.00".
Proof.
  intros Hin.
  pose proof (b3_ledger_placeholders svc jobs) as Hall.
  rewrite Forall_forall in Hall. exact (Hall r Hin).
Qed.

Lemma dual_rows_have_literal_placeholders_witness :
  In b3_sample_row (B3.ledger (B3.collection_phase flaky_service b3_sample_jobs)) /\
  col_local_B b3_sample_row = Literal "0.00" /\
  col_asymmetry b3_sample_row = Literal "0.00".
Proof.
  split; [exact b3_sample_row_written |].
  exact (dual_rows_have_literal_placeholders flaky_service b3_sample_jobs
           b3_sample_row b3_sample_row_written).
Defined.

(** C2: when the total is positive the asymmetry the triple-ancilla analyzer
    returns is the absolute difference of the local-A and local-B stabilities
    it returns; the dual-ancilla variant, which has no local-B group, reports
    the asymmetry of every job as the literal "0.00". *)
Theorem asymmetry_is_abs_difference :
  (forall counts config G LA LB AI Hent,
      (0 < sum_values counts)%Z ->
      Control.analyze_results counts config = Ok (G, LA, LB, AI, Hent) ->
      AI = Rabs (LA - LB)) /\
  (forall svc jobs r,
      In r (B3.ledger (B3.collection_phase svc jobs)) ->
      col_asymmetry r = Literal "0.00").
Proof.
  split.
  - intros counts config G LA LB AI Hent Hpos Heq.
    unfold Control.analyze_results in Heq.
    destruct (Z.eqb_spec (sum_values counts) 0) as [Hz | _]; [lia |].
    destruct (Control.loop (sum_values counts) config counts) as [a |];
      [| discriminate].
    cbn [bind] in Heq. injection Heq as _ <- <- <- _. reflexivity.
  - intros svc jobs r Hin.
    pose proof (b3_ledger_placeholders svc jobs) as Hall.
    rewrite Forall_forall in Hall. exact (proj2 (Hall r Hin)).
Qed.

Lemma asymmetry_is_abs_difference_witness :
  ((0 < sum_values scenario2)%Z /\
   Control.analyze_results scenario2 topology_A = Ok (1, 1 / 2, 1, 1 / 2, 1)%R /\
   (1 / 2)%R = Rabs (1 / 2 - 1)) /\
  (In b3_sample_row (B3.ledger (B3.collection_phase flaky_service b3_sample_jobs)) /\
   col_asymmetry b3_sample_row = Literal "0.00").
Proof.
  assert (Hpos : (0 < sum_values scenario2)%Z) by reflexivity.
  split.
  - split; [exact Hpos |]. split; [exact scenario2_analysis |].
    exact (proj1 asymmetry_is_abs_difference scenario2 topology_A
             _ _ _ _ _ Hpos scenario2_analysis).
  - split; [exact b3_sample_row_written |].
    exact (proj2 asymmetry_is_abs_difference flaky_service b3_sample_jobs
             b3_sample_row b3_sample_row_written).
Defined.

(** ** The circuit builders *)

Lemma for_each_app {A S : Type} (body : S -> A -> result S) (xs ys : list A) (s : S) :
  for_each body (xs ++ ys) s = (s' <- for_each body xs s ;; for_each body ys s').
Proof.
  revert s. induction xs as [| x xs IH]; intros s; cbn [for_each app bind].
  - reflexivity.
  - destruct (body s x) as [s1 |]; cbn [bind]; [apply IH | reflexivity].
Qed.

Lemma for_each_emit {A : Type} (f : A -> instr) (xs : list A) (qc : QuantumCircuit) :
  for_each (fun qc x => append_instr qc (f x)) xs qc = emit (map f xs) qc.
Proof.
  unfold emit. revert qc. induction xs as [| x xs IH]; intros qc; cbn [for_each map].
  - reflexivity.
  - destruct (append_instr qc (f x)) as [qc1 |]; cbn [bind]; [apply IH | reflexivity].
Qed.

Lemma emit_app (p1 p2 : list instr) (qc : QuantumCircuit) :
  emit (p1 ++ p2) qc = (qc' <- emit p1 qc ;; emit p2 qc').
Proof. apply for_each_app. Qed.

Lemma bind_ok {A : Type} (c : result A) : (x <- c ;; Ok x) = c.
Proof. destruct c; reflexivity. Qed.

Ltac step_emit :=
  rewrite emit_app;
  match goal with
  | |- bind ?c _ = bind ?c _ => destruct c; cbn [bind]; [| reflexivity]
  end.

(** The triple-ancilla builder issues exactly [triple_program], for any
    config, and fails where the circuit interface refuses an instruction. *)
Lemma build_circuit_emits (config : topology) :
  Control.build_circuit config = emit (triple_program config) (mkCircuit 9 9 []).
Proof.
  unfold Control.build_circuit, triple_program, qc_h, qc_cx, qc_measure.
  cbv zeta.
  rewrite (for_each_emit HGate).
  step_emit.
  rewrite (for_each_emit (fun q => CXGate q 6)). step_emit.
  rewrite (for_each_emit (fun q => CXGate q 7)). step_emit.
  rewrite (for_each_emit (fun q => CXGate q 8)). step_emit.
  rewrite (for_each_emit (fun p => Measure (fst p) (snd p))).
  rewrite bind_ok. reflexivity.
Qed.

(** The dual-ancilla builder, on a map with ancillas 6 and 7, issues exactly
    [dual_program] over its data listing and the first three entries of it. *)
Lemma classical_control_circuit_emits (data_qubits : list nat) :
  B3.classical_control_circuit
    (B3.mkTopologyMap data_qubits B3.ANC_GLOBAL B3.ANC_LOCAL)
  = emit (dual_program data_qubits (firstn 3 data_qubits)) (mkCircuit 8 8 []).
Proof.
  unfold B3.classical_control_circuit, dual_program, qc_h, qc_cx, qc_measure.
  cbv zeta. cbn [B3.tm_data B3.anc_global B3.anc_local].
  unfold B3.ANC_GLOBAL, B3.ANC_LOCAL.
  rewrite (for_each_emit HGate). step_emit.
  rewrite (for_each_emit (fun q => CXGate q 6)). step_emit.
  rewrite (for_each_emit (fun q => CXGate q 7)). step_emit.
  rewrite (for_each_emit (fun i => Measure i i)).
  rewrite bind_ok. reflexivity.
Qed.

(** *** Ordering the data qubits *)

Lemma in_get_ordered_data (config : topology) (x : nat) :
  incl (local_a_indices config) (ghz_indices config) ->
  (In x (B3.get_ordered_data config) <-> In x (ghz_indices config)).
Proof.
  intros Hincl. unfold B3.get_ordered_data.
  rewrite in_app_iff, filter_In, negb_true_iff.
  split.
  - intros [Ha | [Hg _]]; [apply Hincl; exact Ha | exact Hg].
  - intros Hg.
    destruct (existsb (Nat.eqb x) (local_a_indices config)) eqn:Hex.
    + left. apply existsb_exists in Hex. destruct Hex as (y & Hy & Hxy).
      apply Nat.eqb_eq in Hxy. subst y. exact Hy.
    + right. split; [exact Hg | reflexivity].
Qed.

Lemma get_ordered_data_NoDup (config : topology) :
  NoDup (ghz_indices config) -> NoDup (local_a_indices config) ->
  NoDup (B3.get_ordered_data config).
Proof.
  intros Hg Ha. unfold B3.get_ordered_data.
  apply NoDup_app; [exact Ha | apply NoDup_filter; exact Hg |].
  intros x Hx Hfil. apply filter_In in Hfil. destruct Hfil as [_ Hneg].
  apply negb_true_iff in Hneg.
  assert (Hex : existsb (Nat.eqb x) (local_a_indices config) = true).
  { apply existsb_exists. exists x. split; [exact Hx | apply Nat.eqb_refl]. }
  congruence.
Qed.

Lemma get_ordered_data_perm (config : topology) :
  NoDup (ghz_indices config) -> NoDup (local_a_indices config) ->
  incl (local_a_indices config) (ghz_indices config) ->
  Permutation (B3.get_ordered_data config) (ghz_indices config).
Proof.
  intros Hg Ha Hincl.
  apply NoDup_Permutation; [apply get_ordered_data_NoDup; assumption | exact Hg |].
  intros x. apply in_get_ordered_data. exact Hincl.
Qed.

Lemma get_ordered_data_prefix (config : topology) :
  firstn (List.length (local_a_indices config)) (B3.get_ordered_data config)
  = local_a_indices config.
Proof.
  unfold B3.get_ordered_data.
  rewrite firstn_app, Nat.sub_diag, firstn_all. cbn [firstn]. apply app_nil_r.
Qed.

Lemma registered_topologies (label : string) (config : topology) :
  In (label, config) TOPOLOGIES ->
  config = mkTopology [0;1;2;3;4;5] [0;1;2] [3;4;5] \/
  config = mkTopology [1;2;3;4;5;0] [1;2;3] [4;5;0] \/
  config = mkTopology [2;3;4;5;0;1] [2;3;4] [5;0;1] \/
  config = mkTopology [0;1;2;3;4;5] [0;2;4] [1;3;5].
Proof.
  unfold TOPOLOGIES. cbn [In].
  intros [Heq | [Heq | [Heq | [Heq | []]]]]; injection Heq as _ <-; auto.
Qed.

Ltac nodup_by_computation :=
  repeat (constructor; [cbn [In]; intuition discriminate |]); constructor.

Ltac incl_by_computation :=
  intros ? Hmem; cbn [In local_a_indices ghz_indices] in *; intuition auto.

(** C6: for each registered topology, the triple-ancilla builder returns the
    9-wire circuit whose program is exactly the Hadamards on the data qubits,
    the controlled-NOTs of the global group into ancilla 6, of local-A into 7
    and of local-B into 8, and the measurement of qubit i into bit i; the
    dual-ancilla builder returns the 8-wire circuit with the same shape over
    its ordered listing of the data qubits (a permutation of the global
    group) and without a local-B part; no instruction of either program has
    two data qubits as its operands. *)
Theorem circuit_programs_as_specified (label : string) (config : topology) :
  In (label, config) TOPOLOGIES ->
  Control.build_circuit config = Ok (mkCircuit 9 9 (triple_program config)) /\
  no_data_coupling (ghz_indices config) (triple_program config) = true /\
  B3.classical_control_circuit (topology_map_of config)
  = Ok (mkCircuit 8 8 (dual_program (B3.get_ordered_data config)
                                    (local_a_indices config))) /\
  Permutation (B3.get_ordered_data config) (ghz_indices config) /\
  no_data_coupling (ghz_indices config)
    (dual_program (B3.get_ordered_data config) (local_a_indices config)) = true.
Proof.
  intros Hin.
  assert (Hperm : Permutation (B3.get_ordered_data config) (ghz_indices config)).
  { apply registered_topologies in Hin.
    destruct Hin as [-> | [-> | [-> | ->]]];
      (apply get_ordered_data_perm;
       [ cbn [ghz_indices]; nodup_by_computation
       | cbn [local_a_indices]; nodup_by_computation
       | incl_by_computation ]). }
  rewrite build_circuit_emits. unfold topology_map_of.
  rewrite classical_control_circuit_emits.
  apply registered_topologies in Hin.
  destruct Hin as [-> | [-> | [-> | ->]]];
    (split; [reflexivity |]; split; [reflexivity |]; split; [reflexivity |];
     split; [exact Hperm | reflexivity]).
Qed.

Lemma circuit_programs_as_specified_witness :
  In ("D", mkTopology [0;1;2;3;4;5] [0;2;4] [1;3;5]) TOPOLOGIES /\
  Control.build_circuit (mkTopology [0;1;2;3;4;5] [0;2;4] [1;3;5])
  = Ok (mkCircuit 9 9
          [ HGate 0; HGate 1; HGate 2; HGate 3; HGate 4; HGate 5;
            CXGate 0 6; CXGate 1 6; CXGate 2 6; CXGate 3 6; CXGate 4 6; CXGate 5 6;
            CXGate 0 7; CXGate 2 7; CXGate 4 7;
            CXGate 1 8; CXGate 3 8; CXGate 5 8;
            Measure 0 0; Measure 1 1; Measure 2 2; Measure 3 3; Measure 4 4;
            Measure 5 5; Measure 6 6; Measure 7 7; Measure 8 8 ]).
Proof.
  assert (Hin : In ("D", mkTopology [0;1;2;3;4;5] [0;2;4] [1;3;5]) TOPOLOGIES).
  { unfold TOPOLOGIES. cbn [In]. auto. }
  split; [exact Hin |].
  exact (proj1 (circuit_programs_as_specified "D" _ Hin)).
Defined.

(** C10 (as amended): for every config whose global group and local-A group
    have distinct elements, whose local-A group is a subset of the global
    group and has exactly three members, [get_ordered_data] returns a
    permutation of the global group, of the same length, whose first three
    elements are the local-A group in order; so the dual-ancilla builder
    issues the controlled-NOTs into the global ancilla from that whole
    listing and those into the local ancilla from exactly the local-A group. *)
Theorem ordered_data_puts_local_a_first (config : topology) :
  NoDup (ghz_indices config) ->
  NoDup (local_a_indices config) ->
  incl (local_a_indices config) (ghz_indices config) ->
  List.length (local_a_indices config) = 3 ->
  Permutation (B3.get_ordered_data config) (ghz_indices config) /\
  List.length (B3.get_ordered_data config) = List.length (ghz_indices config) /\
  firstn 3 (B3.get_ordered_data config) = local_a_indices config /\
  B3.classical_control_circuit (topology_map_of config)
  = emit (dual_program (B3.get_ordered_data config) (local_a_indices config))
         (mkCircuit 8 8 []).
Proof.
  intros Hg Ha Hincl Hlen.
  pose proof (get_ordered_data_perm config Hg Ha Hincl) as Hperm.
  pose proof (get_ordered_data_prefix config) as Hpre. rewrite Hlen in Hpre.
  split; [exact Hperm |].
  split; [apply Permutation_length; exact Hperm |].
  split; [exact Hpre |].
  unfold topology_map_of. rewrite classical_control_circuit_emits.
  rewrite Hpre. reflexivity.
Qed.

Lemma ordered_data_puts_local_a_first_witness :
  (NoDup [0;1;2;3;4;5] /\ NoDup [0;2;4] /\ incl [0;2;4] [0;1;2;3;4;5] /\
   List.length [0;2;4] = 3) /\
  B3.get_ordered_data (mkTopology [0;1;2;3;4;5] [0;2;4] [1;3;5]) = [0;2;4;1;3;5] /\
  firstn 3 (B3.get_ordered_data (mkTopology [0;1;2;3;4;5] [0;2;4] [1;3;5]))
  = [0;2;4].
Proof.
  assert (Hg : NoDup [0;1;2;3;4;5]) by nodup_by_computation.
  assert (Ha : NoDup [0;2;4]) by nodup_by_computation.
  assert (Hincl : incl [0;2;4] [0;1;2;3;4;5])
    by (intros ? Hmem; cbn [In] in *; intuition auto).
  split; [repeat split; assumption |].
  split; [reflexivity |].
  exact (proj1 (proj2 (proj2
           (ordered_data_puts_local_a_first
              (mkTopology [0;1;2;3;4;5] [0;2;4] [1;3;5]) Hg Ha Hincl eq_refl)))).
Defined.

(** C10 as stated fails: [short_local_a] has distinct elements and its
    local-A group [0;1] is a subset of its global group [0;1;2;3], yet the
    first three elements of the ordered data are [0;1;2], and the builder
    wires qubit 2, which is outside local-A, to the local ancilla. *)
Lemma ordered_data_short_local_a :
  NoDup (ghz_indices short_local_a) /\
  NoDup (local_a_indices short_local_a) /\
  incl (local_a_indices short_local_a) (ghz_indices short_local_a) /\
  firstn 3 (B3.get_ordered_data short_local_a) = [0;1;2] /\
  firstn 3 (B3.get_ordered_data short_local_a) <> local_a_indices short_local_a /\
  B3.classical_control_circuit (topology_map_of short_local_a)
  = Ok (mkCircuit 8 8
          [ HGate 0; HGate 1; HGate 2; HGate 3;
            CXGate 0 6; CXGate 1 6; CXGate 2 6; CXGate 3 6;
            CXGate 0 7; CXGate 1 7; CXGate 2 7;
            Measure 0 0; Measure 1 1; Measure 2 2; Measure 3 3; Measure 4 4;
            Measure 5 5; Measure 6 6; Measure 7 7 ]) /\
  ~ In 2 (local_a_indices short_local_a).
Proof.
  split; [cbn [ghz_indices short_local_a]; nodup_by_computation |].
  split; [cbn [local_a_indices short_local_a]; nodup_by_computation |].
  split; [unfold short_local_a; incl_by_computation |].
  split; [reflexivity |].
  split; [discriminate |].
  split; [vm_compute; reflexivity |].
  cbn [local_a_indices short_local_a In]. intuition discriminate.
Qed.

(** ** The orchestrator *)

Lemma attempted_app (l1 l2 : list event) :
  attempted (l1 ++ l2) = attempted l1 ++ attempted l2.
Proof.
  induction l1 as [| ev l1 IH]; [reflexivity |].
  destruct ev; cbn [app attempted]; rewrite IH; reflexivity.
Qed.

Lemma visited_app (l1 l2 : list event) :
  visited (l1 ++ l2) = visited l1 ++ visited l2.
Proof.
  induction l1 as [| ev l1 IH]; [reflexivity |].
  destruct ev; cbn [app visited]; rewrite IH; reflexivity.
Qed.

Lemma flat_map_keep {A B : Type} (p : A -> bool) (g : A -> B) (xs : list A) :
  flat_map (fun x => if p x then [g x] else []) xs = map g (filter p xs).
Proof.
  induction xs as [| x xs IH]; cbn [flat_map filter map]; [reflexivity |].
  rewrite IH. destruct (p x); reflexivity.
Qed.

Lemma flat_map_nested {A B C : Type} (f : A -> list B) (g : B -> list C)
  (xs : list A) :
  flat_map g (flat_map f xs) = flat_map (fun x => flat_map g (f x)) xs.
Proof.
  induction xs as [| x xs IH]; cbn [flat_map]; [reflexivity |].
  rewrite flat_map_app, IH. reflexivity.
Qed.

Lemma flat_map_of_map {A B C : Type} (h : A -> B) (g : B -> list C) (xs : list A) :
  flat_map g (map h xs) = flat_map (fun x => g (h x)) xs.
Proof.
  induction xs as [| x xs IH]; cbn [flat_map map]; [reflexivity |].
  rewrite IH. reflexivity.
Qed.

Section LoopViews.
Context {A S B C : Type}.
Variables (v1 : S -> list B) (f1 : A -> list B).
Variables (v2 : S -> list C) (f2 : A -> list C).

(** A loop whose body never lets an exception escape on the items of [xs]
    runs to the end; what each pass adds to the two views accumulates. *)
Lemma run_loop_views (body : S -> A -> S * option exn) (xs : list A) :
  (forall s x, In x xs ->
               exists s', body s x = (s', None) /\
                          v1 s' = v1 s ++ f1 x /\ v2 s' = v2 s ++ f2 x) ->
  forall s, exists s', run_loop body xs s = (s', None) /\
                       v1 s' = v1 s ++ flat_map f1 xs /\
                       v2 s' = v2 s ++ flat_map f2 xs.
Proof.
  induction xs as [| x xs' IH]; intros Hbody s; cbn [run_loop flat_map].
  - exists s. rewrite !app_nil_r. auto.
  - destruct (Hbody s x (or_introl eq_refl)) as (s1 & Hrun & H1 & H2).
    rewrite Hrun.
    destruct (IH (fun s0 x0 Hin => Hbody s0 x0 (or_intror Hin)) s1)
      as (s2 & Hrest & H1' & H2').
    exists s2. rewrite Hrest, H1', H2', H1, H2, <- !app_assoc. auto.
Qed.

Lemma fold_left_views (body : S -> A -> S) (xs : list A) :
  (forall s x, v1 (body s x) = v1 s ++ f1 x /\ v2 (body s x) = v2 s ++ f2 x) ->
  forall s, v1 (fold_left body xs s) = v1 s ++ flat_map f1 xs /\
            v2 (fold_left body xs s) = v2 s ++ flat_map f2 xs.
Proof.
  intros Hbody. induction xs as [| x xs' IH]; intros s; cbn [fold_left flat_map].
  - rewrite !app_nil_r. auto.
  - destruct (IH (body s x)) as [H1 H2]. destruct (Hbody s x) as [H1' H2'].
    rewrite H1, H2, H1', H2', <- !app_assoc. auto.
Qed.
End LoopViews.

Lemma registered_circuits_build (label : string) (config : topology) :
  In (label, config) TOPOLOGIES ->
  is_ok (Control.build_circuit config) = true /\
  is_ok (B3.classical_control_circuit (topology_map_of config)) = true.
Proof.
  intros Hin. apply registered_topologies in Hin.
  destruct Hin as [-> | [-> | [-> | ->]]]; split; vm_compute; reflexivity.
Qed.

(** *** Submission phase *)

Lemma control_submit_one_views svc l config st i :
  transpile_never_fails svc ->
  is_ok (Control.build_circuit config) = true ->
  exists st',
    Control.submit_one svc l config st i = (st', None) /\
    attempted (Control.sub_log st') = attempted (Control.sub_log st) ++ [(l, i)] /\
    map control_entry_pair (Control.submitted_jobs st')
    = map control_entry_pair (Control.submitted_jobs st)
      ++ (if control_submit_ok svc (l, config, i) then [(l, i)] else []).
Proof.
  intros Htr Hbuild.
  unfold Control.submit_one, control_submit_ok, guarded_submit.
  destruct (Control.build_circuit config) as [qc |]; [| discriminate].
  specialize (Htr l i qc).
  destruct (transpile svc l i qc) as [t_qc |]; [| discriminate].
  destruct (sampler_run svc l i t_qc) as [job |]; cbn [bind].
  - destruct (call_job_id job) as [job_id |]; cbn [bind is_ok];
      eexists; (split; [reflexivity |]);
      cbn [Control.sub_log Control.submitted_jobs];
      rewrite !attempted_app, ?map_app; cbn [attempted map control_entry_pair
        Control.entry_run_label Control.entry_rep];
      rewrite ?app_nil_r; auto.
  - cbn [is_ok]. eexists; (split; [reflexivity |]).
    cbn [Control.sub_log Control.submitted_jobs].
    rewrite !attempted_app; cbn [attempted]; rewrite ?app_nil_r; auto.
Qed.

Lemma b3_submit_one_views svc l config st i :
  transpile_never_fails svc ->
  is_ok (B3.classical_control_circuit (topology_map_of config)) = true ->
  exists st',
    B3.submit_one svc l config (topology_map_of config) st i = (st', None) /\
    attempted (B3.sub_log st') = attempted (B3.sub_log st) ++ [(l, i)] /\
    map b3_entry_pair (B3.submitted_jobs st')
    = map b3_entry_pair (B3.submitted_jobs st)
      ++ (if b3_submit_ok svc (l, config, i) then [(l, i)] else []).
Proof.
  intros Htr Hbuild.
  unfold B3.submit_one, b3_submit_ok, guarded_submit.
  destruct (B3.classical_control_circuit (topology_map_of config)) as [qc |];
    [| discriminate].
  specialize (Htr l i qc).
  destruct (transpile svc l i qc) as [t_qc |]; [| discriminate].
  destruct (sampler_run svc l i t_qc) as [job |]; cbn [bind].
  - destruct (call_job_id job) as [job_id |]; cbn [bind is_ok];
      eexists; (split; [reflexivity |]);
      cbn [B3.sub_log B3.submitted_jobs];
      rewrite !attempted_app, ?map_app; cbn [attempted map b3_entry_pair
        B3.entry_run_label B3.entry_rep];
      rewrite ?app_nil_r; auto.
  - cbn [is_ok]. eexists; (split; [reflexivity |]).
    cbn [B3.sub_log B3.submitted_jobs].
    rewrite !attempted_app; cbn [attempted]; rewrite ?app_nil_r; auto.
Qed.

Lemma attempts_unfold :
  flat_map topology_attempts TOPOLOGIES = map pair_of jobs_to_submit.
Proof. reflexivity. Qed.

Lemma records_unfold (ok : string * topology * nat -> bool) :
  flat_map (topology_records ok) TOPOLOGIES
  = map pair_of (filter ok jobs_to_submit).
Proof.
  rewrite <- flat_map_keep. unfold jobs_to_submit. rewrite flat_map_nested.
  apply flat_map_ext. intros item. rewrite flat_map_of_map. reflexivity.
Qed.

Lemma control_submission_views svc :
  transpile_never_fails svc ->
  exists st,
    Control.submission_phase svc = (st, None) /\
    attempted (Control.sub_log st) = map pair_of jobs_to_submit /\
    map control_entry_pair (Control.submitted_jobs st)
    = map pair_of (filter (control_submit_ok svc) jobs_to_submit).
Proof.
  intros Htr. unfold Control.submission_phase.
  destruct (run_loop_views
              (fun st => attempted (Control.sub_log st)) topology_attempts
              (fun st => map control_entry_pair (Control.submitted_jobs st))
              (topology_records (control_submit_ok svc))
              (Control.submit_topology svc) TOPOLOGIES) with (s := Control.mkSub [] [])
    as (st & Hrun & Hatt & Hrec).
  - intros s [l config] Hin.
    unfold Control.submit_topology, topology_attempts, topology_records.
    cbn [fst snd].
    apply (run_loop_views
             (fun st => attempted (Control.sub_log st)) (fun i => [(l, i)])
             (fun st => map control_entry_pair (Control.submitted_jobs st))
             (fun i => if control_submit_ok svc (l, config, i) then [(l, i)] else [])
             (Control.submit_one svc l config) (seq 1 REPETITIONS)).
    intros s0 i _.
    apply control_submit_one_views; [exact Htr |].
    apply (registered_circuits_build l config Hin).
  - exists st. split; [exact Hrun |].
    rewrite Hatt, Hrec, attempts_unfold, records_unfold. auto.
Qed.

Lemma b3_submission_views svc :
  transpile_never_fails svc ->
  exists st,
    B3.submission_phase svc = (st, None) /\
    attempted (B3.sub_log st) = map pair_of jobs_to_submit /\
    map b3_entry_pair (B3.submitted_jobs st)
    = map pair_of (filter (b3_submit_ok svc) jobs_to_submit).
Proof.
  intros Htr. unfold B3.submission_phase.
  destruct (run_loop_views
              (fun st => attempted (B3.sub_log st)) topology_attempts
              (fun st => map b3_entry_pair (B3.submitted_jobs st))
              (topology_records (b3_submit_ok svc))
              (B3.submit_topology svc) TOPOLOGIES) with (s := B3.mkSub [] [])
    as (st & Hrun & Hatt & Hrec).
  - intros s [l config] Hin.
    unfold B3.submit_topology, topology_attempts, topology_records.
    cbn [fst snd].
    apply (run_loop_views
             (fun st => attempted (B3.sub_log st)) (fun i => [(l, i)])
             (fun st => map b3_entry_pair (B3.submitted_jobs st))
             (fun i => if b3_submit_ok svc (l, config, i) then [(l, i)] else [])
             (B3.submit_one svc l config (topology_map_of config))
             (seq 1 REPETITIONS)).
    intros s0 i _.
    apply (b3_submit_one_views svc l config s0 i Htr).
    apply (registered_circuits_build l config Hin).
  - exists st. split; [exact Hrun |].
    rewrite Hatt, Hrec, attempts_unfold, records_unfold. auto.
Qed.

(** C8 (as amended): when optimizing never fails, the submission phase of
    either variant runs to its end whatever [sampler.run] and [job.job_id()]
    answer: every (label, repetition) pair is attempted, in loop order, and
    the job records are exactly those of the pairs whose guarded submission
    succeeded, so a failed pair leaves no record. *)
Theorem guarded_submission_failures_isolated (svc : Service) :
  transpile_never_fails svc ->
  (snd (Control.submission_phase svc) = None /\
   attempted (Control.sub_log (fst (Control.submission_phase svc)))
   = map pair_of jobs_to_submit /\
   map control_entry_pair (Control.submitted_jobs (fst (Control.submission_phase svc)))
   = map pair_of (filter (control_submit_ok svc) jobs_to_submit)) /\
  (snd (B3.submission_phase svc) = None /\
   attempted (B3.sub_log (fst (B3.submission_phase svc)))
   = map pair_of jobs_to_submit /\
   map b3_entry_pair (B3.submitted_jobs (fst (B3.submission_phase svc)))
   = map pair_of (filter (b3_submit_ok svc) jobs_to_submit)).
Proof.
  intros Htr. split.
  - destruct (control_submission_views svc Htr) as (st & -> & Hatt & Hrec).
    cbn [fst snd]. auto.
  - destruct (b3_submission_views svc Htr) as (st & -> & Hatt & Hrec).
    cbn [fst snd]. auto.
Qed.

Lemma guarded_submission_failures_isolated_witness :
  transpile_never_fails flaky_service /\
  snd (Control.submission_phase flaky_service) = None /\
  attempted (Control.sub_log (fst (Control.submission_phase flaky_service)))
  = map pair_of jobs_to_submit /\
  map control_entry_pair
      (Control.submitted_jobs (fst (Control.submission_phase flaky_service)))
  = map pair_of (filter (control_submit_ok flaky_service) jobs_to_submit).
Proof.
  assert (Htr : transpile_never_fails flaky_service)
    by (intros l i qc; reflexivity).
  split; [exact Htr |].
  exact (proj1 (guarded_submission_failures_isolated flaky_service Htr)).
Defined.

Lemma flaky_service_records :
  map pair_of (filter (control_submit_ok flaky_service) jobs_to_submit)
  = [ ("A", 1); ("A", 3); ("A", 4); ("A", 5);
      ("B", 1); ("B", 3); ("B", 4); ("B", 5);
      ("C", 1); ("C", 3); ("C", 4); ("C", 5);
      ("D", 1); ("D", 3); ("D", 4); ("D", 5) ].
Proof. vm_compute. reflexivity. Qed.

(** C8 as stated fails: when optimizing the first circuit raises, the
    exception escapes the loop of either variant; the phase ends there, with
    only ("A", 1) attempted and no job recorded. *)
Lemma transpile_failure_aborts_submission :
  transpile transpile_failing_service "A" 1 (mkCircuit 9 9 (triple_program topology_A))
  = Raise (ExternalError "transpile") /\
  Control.submission_phase transpile_failing_service
  = (Control.mkSub [] [Preparing "A" 1], Some (ExternalError "transpile")) /\
  B3.submission_phase transpile_failing_service
  = (B3.mkSub [] [Preparing "A" 1], Some (ExternalError "transpile")) /\
  attempted (Control.sub_log (fst (Control.submission_phase transpile_failing_service)))
  <> map pair_of jobs_to_submit.
Proof.
  split; [reflexivity |].
  split; [vm_compute; reflexivity |].
  split; [vm_compute; reflexivity |].
  vm_compute. discriminate.
Qed.

(** *** Collection phase *)

Lemma control_collect_one_views svc st e :
  visited (Control.col_log (Control.collect_one svc st e))
  = visited (Control.col_log st) ++ [Control.entry_job_id e] /\
  map col_job_id (Control.ledger (Control.collect_one svc st e))
  = map col_job_id (Control.ledger st)
    ++ (if control_job_ok e then [Control.entry_job_id e] else []).
Proof.
  unfold Control.collect_one, control_job_ok.
  destruct (call_result (Control.entry_job e)) as [res |].
  - destruct (get_counts res) as [counts |].
    + destruct (Control.analyze_results counts (Control.entry_config e))
        as [[[[[G LA] LB] AI] Hent] |];
        cbn [is_ok Control.col_log Control.ledger];
        rewrite !visited_app, ?map_app; cbn [visited map col_job_id];
        rewrite ?app_nil_r; auto.
    + cbn [Control.col_log Control.ledger].
      rewrite !visited_app; cbn [visited]; rewrite ?app_nil_r; auto.
  - cbn [Control.col_log Control.ledger].
    rewrite !visited_app; cbn [visited]; rewrite ?app_nil_r; auto.
Qed.

Lemma b3_collect_one_views svc st e :
  visited (B3.col_log (B3.collect_one svc st e))
  = visited (B3.col_log st) ++ [B3.entry_job_id e] /\
  map col_job_id (B3.ledger (B3.collect_one svc st e))
  = map col_job_id (B3.ledger st)
    ++ (if b3_job_ok e then [B3.entry_job_id e] else []).
Proof.
  unfold B3.collect_one, b3_job_ok.
  destruct (call_result (B3.entry_job e)) as [res |].
  - destruct (get_counts res) as [counts |].
    + destruct (B3.analysis_step counts (B3.entry_topology_map e)) as [[G LA] |];
        cbn [is_ok B3.col_log B3.ledger];
        rewrite !visited_app, ?map_app; cbn [visited map col_job_id];
        rewrite ?app_nil_r; auto.
    + cbn [B3.col_log B3.ledger].
      rewrite !visited_app; cbn [visited]; rewrite ?app_nil_r; auto.
  - cbn [B3.col_log B3.ledger].
    rewrite !visited_app; cbn [visited]; rewrite ?app_nil_r; auto.
Qed.

(** C9: the collection phase of either variant always runs to its end; it
    waits for every recorded job exactly once, in submission order, and the
    ledger it leaves holds one row for each job whose wait, count extraction
    and analysis all succeeded, in that order, and none for any other job. *)
Theorem collection_writes_one_row_per_success (svc : Service) :
  (forall jobs : list Control.entry,
      visited (Control.col_log (Control.collection_phase svc jobs))
      = map Control.entry_job_id jobs /\
      map col_job_id (Control.ledger (Control.collection_phase svc jobs))
      = map Control.entry_job_id (filter control_job_ok jobs) /\
      List.length (Control.ledger (Control.collection_phase svc jobs))
      = List.length (filter control_job_ok jobs)) /\
  (forall jobs : list B3.entry,
      visited (B3.col_log (B3.collection_phase svc jobs))
      = map B3.entry_job_id jobs /\
      map col_job_id (B3.ledger (B3.collection_phase svc jobs))
      = map B3.entry_job_id (filter b3_job_ok jobs) /\
      List.length (B3.ledger (B3.collection_phase svc jobs))
      = List.length (filter b3_job_ok jobs)).
Proof.
  split; intros jobs.
  - destruct (fold_left_views
                (fun st => visited (Control.col_log st))
                (fun e => [Control.entry_job_id e])
                (fun st => map col_job_id (Control.ledger st))
                (fun e => if control_job_ok e then [Control.entry_job_id e] else [])
                (Control.collect_one svc) jobs
                (control_collect_one_views svc) (Control.mkCol [] []))
      as [Hvis Hrows].
    cbn [Control.col_log Control.ledger visited map app] in Hvis, Hrows.
    rewrite flat_map_keep in Hrows.
    rewrite (flat_map_keep (fun _ => true)) in Hvis.
    unfold Control.collection_phase.
    split; [| split; [exact Hrows |]].
    + rewrite Hvis. f_equal. clear. induction jobs as [| e jobs IH];
        [reflexivity | cbn [filter]; rewrite IH; reflexivity].
    + rewrite <- (length_map col_job_id), Hrows, length_map. reflexivity.
  - destruct (fold_left_views
                (fun st => visited (B3.col_log st))
                (fun e => [B3.entry_job_id e])
                (fun st => map col_job_id (B3.ledger st))
                (fun e => if b3_job_ok e then [B3.entry_job_id e] else [])
                (B3.collect_one svc) jobs
                (b3_collect_one_views svc) (B3.mkCol [] []))
      as [Hvis Hrows].
    cbn [B3.col_log B3.ledger visited map app] in Hvis, Hrows.
    rewrite flat_map_keep in Hrows.
    rewrite (flat_map_keep (fun _ => true)) in Hvis.
    unfold B3.collection_phase.
    split; [| split; [exact Hrows |]].
    + rewrite Hvis. f_equal. clear. induction jobs as [| e jobs IH];
        [reflexivity | cbn [filter]; rewrite IH; reflexivity].
    + rewrite <- (length_map col_job_id), Hrows, length_map. reflexivity.
Qed.

(** ** Further properties of the analyzers *)

Lemma control_loop_body_ok total config a state c a' :
  Control.loop_body total config a (state, c) = Ok a' ->
  exists okG okA okB,
    control_check (ghz_indices config) 6 state = Ok okG /\
    control_check (local_a_indices config) 7 state = Ok okA /\
    control_check (local_b_indices config) 8 state = Ok okB /\
    Control.global_ok a' = (if okG then Control.global_ok a + c else Control.global_ok a)%Z /\
    Control.localA_ok a' = (if okA then Control.localA_ok a + c else Control.localA_ok a)%Z /\
    Control.localB_ok a' = (if okB then Control.localB_ok a + c else Control.localB_ok a)%Z /\
    Control.probs a'
    = Control.probs a ++ filter Rpositive [(IZR c / IZR total)%R].
Proof.
  unfold Control.loop_body, control_check.
  destruct (parity_check _ (ghz_indices config) 6) as [okG |]; [| discriminate].
  destruct (parity_check _ (local_a_indices config) 7) as [okA |]; [| discriminate].
  destruct (parity_check _ (local_b_indices config) 8) as [okB |]; [| discriminate].
  cbn [bind]. intros Heq. injection Heq as <-.
  exists okG, okA, okB. cbn [Control.global_ok Control.localA_ok Control.localB_ok
                             Control.probs filter].
  repeat (split; [reflexivity |]).
  destruct (Rpositive (IZR c / IZR total)); [reflexivity | symmetry; apply app_nil_r].
Qed.

Lemma matched_count_cons check state c counts :
  matched_count check ((state, c) :: counts)
  = match check state with
    | Ok true => (c + matched_count check counts)%Z
    | _ => matched_count check counts
    end.
Proof. reflexivity. Qed.

Lemma control_loop_counts total config counts :
  forall a a',
    for_each (Control.loop_body total config) counts a = Ok a' ->
    Control.global_ok a'
    = (Control.global_ok a
       + matched_count (control_check (ghz_indices config) 6) counts)%Z /\
    Control.localA_ok a'
    = (Control.localA_ok a
       + matched_count (control_check (local_a_indices config) 7) counts)%Z /\
    Control.localB_ok a'
    = (Control.localB_ok a
       + matched_count (control_check (local_b_indices config) 8) counts)%Z /\
    Control.probs a'
    = Control.probs a
      ++ filter Rpositive (map (fun item => (IZR (snd item) / IZR total)%R) counts).
Proof.
  induction counts as [| [state c] counts IH]; intros a a' Hrun.
  - cbn [for_each] in Hrun. injection Hrun as <-.
    cbn [matched_count fold_right map filter]. rewrite app_nil_r.
    repeat split; lia.
  - cbn [for_each] in Hrun.
    destruct (Control.loop_body total config a (state, c)) as [a1 |] eqn:Hbody;
      [| discriminate].
    cbn [bind] in Hrun.
    apply control_loop_body_ok in Hbody.
    destruct Hbody as (okG & okA & okB & HcG & HcA & HcB & HG & HA & HB & HP).
    destruct (IH a1 a' Hrun) as (IG & IA & IB & IP).
    rewrite !matched_count_cons, HcG, HcA, HcB, IG, IA, IB, IP, HG, HA, HB, HP.
    cbn [map snd]. rewrite <- app_assoc.
    repeat split; try (destruct okG, okA, okB; lia).
    f_equal. cbn [filter app].
    destruct (Rpositive (IZR c / IZR total)); reflexivity.
Qed.

Lemma b3_loop_counts data_qubits ag al counts :
  forall a a',
    for_each (B3.loop_body data_qubits ag al) counts a = Ok a' ->
    B3.global_ok a'
    = (B3.global_ok a + matched_count (b3_check data_qubits ag) counts)%Z /\
    B3.localA_ok a'
    = (B3.localA_ok a + matched_count (b3_check (firstn 3 data_qubits) al) counts)%Z.
Proof.
  induction counts as [| [state c] counts IH]; intros a a' Hrun.
  - cbn [for_each] in Hrun. injection Hrun as <-.
    cbn [matched_count fold_right]. split; lia.
  - cbn [for_each] in Hrun.
    destruct (B3.loop_body data_qubits ag al a (state, c)) as [a1 |] eqn:Hbody;
      [| discriminate].
    cbn [bind] in Hrun.
    destruct (IH a1 a' Hrun) as (IG & IA).
    rewrite !matched_count_cons, IG, IA.
    unfold B3.loop_body, b3_check in *.
    destruct (parity_check _ data_qubits ag) as [okG |]; [| discriminate].
    destruct (parity_check _ (firstn 3 data_qubits) al) as [okA |]; [| discriminate].
    cbn [bind] in Hbody. injection Hbody as <-.
    cbn [B3.global_ok B3.localA_ok]. destruct okG, okA; split; lia.
Qed.

(** X1: each stability an analyzer returns is the total count of the
    outcomes whose parity check for that group holds, divided by the total
    count of all outcomes. *)
Theorem stability_is_matched_fraction (counts : counts_t) :
  sum_values counts <> 0%Z ->
  (forall config G LA LB AI Hent,
      Control.analyze_results counts config = Ok (G, LA, LB, AI, Hent) ->
      G = (IZR (matched_count (control_check (ghz_indices config) 6) counts)
           / IZR (sum_values counts))%R /\
      LA = (IZR (matched_count (control_check (local_a_indices config) 7) counts)
            / IZR (sum_values counts))%R /\
      LB = (IZR (matched_count (control_check (local_b_indices config) 8) counts)
            / IZR (sum_values counts))%R) /\
  (forall data_qubits ag al G LA,
      B3.analyze_results counts data_qubits ag al = Ok [G; LA] ->
      G = (IZR (matched_count (b3_check data_qubits ag) counts)
           / IZR (sum_values counts))%R /\
      LA = (IZR (matched_count (b3_check (firstn 3 data_qubits) al) counts)
            / IZR (sum_values counts))%R).
Proof.
  intros Hnz. split.
  - intros config G LA LB AI Hent Heq.
    unfold Control.analyze_results in Heq.
    destruct (Z.eqb_spec (sum_values counts) 0) as [Hz | _]; [contradiction |].
    destruct (Control.loop (sum_values counts) config counts) as [a |] eqn:Hrun;
      [| discriminate].
    cbn [bind] in Heq. injection Heq as <- <- <- _ _.
    apply control_loop_counts in Hrun. destruct Hrun as (HG & HA & HB & _).
    rewrite HG, HA, HB. cbn [Control.acc0 Control.global_ok Control.localA_ok
                             Control.localB_ok Z.add]. auto.
  - intros dq ag al G LA Heq.
    unfold B3.analyze_results in Heq.
    destruct (Z.eqb_spec (sum_values counts) 0) as [Hz | _]; [contradiction |].
    destruct (B3.loop dq ag al counts) as [a |] eqn:Hrun; [| discriminate].
    cbn [bind] in Heq. injection Heq as <- <-.
    apply b3_loop_counts in Hrun. destruct Hrun as (HG & HA).
    rewrite HG, HA. cbn [B3.acc0 B3.global_ok B3.localA_ok Z.add]. auto.
Qed.

Lemma stability_is_matched_fraction_witness :
  sum_values scenario2 <> 0%Z /\
  (1 / 2)%R
  = (IZR (matched_count (control_check (local_a_indices topology_A) 7) scenario2)
     / IZR (sum_values scenario2))%R.
Proof.
  assert (Hnz : sum_values scenario2 <> 0%Z) by discriminate.
  split; [exact Hnz |].
  exact (proj1 (proj2 (proj1 (stability_is_matched_fraction scenario2 Hnz)
                         topology_A _ _ _ _ _ scenario2_analysis))).
Defined.

(** *** Which keys the analyzers accept *)

Lemma py_index_ok {A : Type} (l : list A) (i : nat) :
  i < List.length l -> exists x, py_index l i = Ok x /\ In x l.
Proof.
  intros Hi. unfold py_index.
  destruct (nth_error l i) as [x |] eqn:Hnth.
  - exists x. split; [reflexivity | eapply nth_error_In; exact Hnth].
  - apply nth_error_None in Hnth. lia.
Qed.

Lemma py_index_bound {A : Type} (l : list A) (i : nat) (x : A) :
  py_index l i = Ok x -> i < List.length l.
Proof.
  unfold py_index. destruct (nth_error l i) eqn:Hnth; [| discriminate].
  intros _. apply nth_error_Some. congruence.
Qed.

Lemma comprehension_index_ok {A : Type} (l : list A) (nodes : list nat) :
  Forall (fun i => i < List.length l) nodes ->
  exists xs, comprehension (py_index l) nodes = Ok xs.
Proof.
  induction 1 as [| i nodes Hi _ [xs IH]]; cbn [comprehension].
  - eexists; reflexivity.
  - destruct (py_index_ok l i Hi) as (x & -> & _). rewrite IH. cbn [bind].
    eexists; reflexivity.
Qed.

Lemma comprehension_index_bound {A : Type} (l : list A) (nodes : list nat) xs :
  comprehension (py_index l) nodes = Ok xs ->
  Forall (fun i => i < List.length l) nodes.
Proof.
  revert xs. induction nodes as [| i nodes IH]; intros xs Hrun; [constructor |].
  cbn [comprehension] in Hrun.
  destruct (py_index l i) as [x |] eqn:Hx; [| discriminate].
  cbn [bind] in Hrun.
  destruct (comprehension (py_index l) nodes) as [ys |] eqn:Hys; [| discriminate].
  constructor; [eapply py_index_bound; exact Hx | eapply IH; reflexivity].
Qed.

Lemma py_int_bit (c : ascii) : is_bit c = true -> exists z, py_int c = Ok z.
Proof.
  unfold is_bit. intros Hc. apply orb_true_iff in Hc.
  destruct Hc as [Hc | Hc]; apply Ascii.eqb_eq in Hc; subst c;
    eexists; reflexivity.
Qed.

Lemma parity_check_ok (bits : list ascii) (nodes : list nat) (anc : nat) :
  Forall (fun i => i < List.length bits) nodes ->
  anc < List.length bits ->
  forallb is_bit bits = true ->
  exists b, parity_check bits nodes anc = Ok b.
Proof.
  intros Hnodes Hanc Hbits. unfold parity_check.
  destruct (comprehension_index_ok bits nodes Hnodes) as [xs ->]. cbn [bind].
  destruct (py_index_ok bits anc Hanc) as (ch & -> & Hin). cbn [bind].
  rewrite forallb_forall in Hbits.
  destruct (py_int_bit ch (Hbits ch Hin)) as [z ->]. cbn [bind].
  eexists; reflexivity.
Qed.

Lemma parity_check_bounds (bits : list ascii) (nodes : list nat) (anc : nat) b :
  parity_check bits nodes anc = Ok b ->
  Forall (fun i => i < List.length bits) nodes /\ anc < List.length bits.
Proof.
  unfold parity_check.
  destruct (comprehension (py_index bits) nodes) as [xs |] eqn:Hxs; [| discriminate].
  cbn [bind].
  destruct (py_index bits anc) as [ch |] eqn:Hch; [| discriminate].
  intros _. split.
  - eapply comprehension_index_bound; exact Hxs.
  - eapply py_index_bound; exact Hch.
Qed.

Lemma well_formed_key_check (w : nat) (state : state_key) (nodes : list nat)
  (anc : nat) :
  well_formed_key w state ->
  Forall (fun i => i < w) nodes -> anc < w ->
  exists b, parity_check (bits_rev_of w state) nodes anc = Ok b.
Proof.
  intros [Hlen Hbits] Hnodes Hanc. unfold bits_rev_of.
  apply parity_check_ok.
  - rewrite length_rev. eapply Forall_impl; [| exact Hnodes].
    cbn beta. intros i Hi. lia.
  - rewrite length_rev. lia.
  - apply forallb_forall. intros c Hc. apply in_rev in Hc.
    rewrite forallb_forall in Hbits. exact (Hbits c Hc).
Qed.

Lemma Forall_firstn_keep {A : Type} (P : A -> Prop) (n : nat) (l : list A) :
  Forall P l -> Forall P (firstn n l).
Proof.
  intros Hl. revert n.
  induction Hl as [| x l Hx _ IH]; intros [| n]; cbn [firstn]; constructor; auto.
Qed.

Lemma control_analysis_total (counts : counts_t) (config : topology) :
  Forall (fun item => well_formed_key 9 (fst item)) counts ->
  Forall (fun i => i < 9) (ghz_indices config) ->
  Forall (fun i => i < 9) (local_a_indices config) ->
  Forall (fun i => i < 9) (local_b_indices config) ->
  exists r, Control.analyze_results counts config = Ok r.
Proof.
  revert config.
  intros config Hkeys HG HA HB. unfold Control.analyze_results.
  destruct (sum_values counts =? 0)%Z; [eexists; reflexivity |].
  assert (Hloop : forall total a, exists a',
               for_each (Control.loop_body total config) counts a = Ok a').
  { intros total.
    induction Hkeys as [| [state c] rest Hkey _ IH]; intros a; cbn [for_each].
    - eexists; reflexivity.
    - cbn [fst] in Hkey. unfold Control.loop_body at 1.
      destruct (well_formed_key_check 9 state _ 6 Hkey HG ltac:(lia)) as [b1 ->].
      destruct (well_formed_key_check 9 state _ 7 Hkey HA ltac:(lia)) as [b2 ->].
      destruct (well_formed_key_check 9 state _ 8 Hkey HB ltac:(lia)) as [b3 ->].
      cbn [bind]. apply IH. }
  unfold Control.loop. destruct (Hloop (sum_values counts) Control.acc0) as [a' ->].
  cbn [bind]. eexists; reflexivity.
Qed.

Lemma b3_analysis_total (counts : counts_t) (data_qubits : list nat) (ag al : nat) :
  Forall (fun item => well_formed_key 8 (fst item)) counts ->
  Forall (fun i => i < 8) data_qubits -> ag < 8 -> al < 8 ->
  exists r, B3.analyze_results counts data_qubits ag al = Ok r.
Proof.
  revert data_qubits ag al.
  intros dq ag al Hkeys Hdq Hag Hal. unfold B3.analyze_results.
  destruct (sum_values counts =? 0)%Z; [eexists; reflexivity |].
  assert (Hloop : forall a, exists a',
               for_each (B3.loop_body dq ag al) counts a = Ok a').
  { induction Hkeys as [| [state c] rest Hkey _ IH]; intros a; cbn [for_each].
    - eexists; reflexivity.
    - cbn [fst] in Hkey. unfold B3.loop_body at 1.
      destruct (well_formed_key_check 8 state _ ag Hkey Hdq Hag) as [b1 ->].
      destruct (well_formed_key_check 8 state _ al Hkey
                  (Forall_firstn_keep _ 3 _ Hdq) Hal) as [b2 ->].
      cbn [bind]. apply IH. }
  unfold B3.loop. destruct (Hloop B3.acc0) as [a' ->].
  cbn [bind]. eexists; reflexivity.
Qed.

(** X2: a distribution whose keys all read as binary strings of at least the
    register width is always analysed: with group indices inside the
    register, neither analyzer raises. *)
Theorem well_formed_counts_are_analyzed (counts : counts_t) :
  (forall config,
      Forall (fun item => well_formed_key 9 (fst item)) counts ->
      Forall (fun i => i < 9) (ghz_indices config) ->
      Forall (fun i => i < 9) (local_a_indices config) ->
      Forall (fun i => i < 9) (local_b_indices config) ->
      exists r, Control.analyze_results counts config = Ok r) /\
  (forall data_qubits ag al,
      Forall (fun item => well_formed_key 8 (fst item)) counts ->
      Forall (fun i => i < 8) data_qubits -> ag < 8 -> al < 8 ->
      exists r, B3.analyze_results counts data_qubits ag al = Ok r).
Proof.
  split.
  - intros config. apply control_analysis_total.
  - intros dq ag al. apply b3_analysis_total.
Qed.

Lemma well_formed_counts_are_analyzed_witness :
  Forall (fun item => well_formed_key 9 (fst item)) scenario2 /\
  exists r, Control.analyze_results scenario2 topology_A = Ok r.
Proof.
  assert (Hkeys : Forall (fun item => well_formed_key 9 (fst item)) scenario2).
  { unfold scenario2. repeat constructor. }
  split; [exact Hkeys |].
  apply (proj1 (well_formed_counts_are_analyzed scenario2) topology_A Hkeys);
    cbn [ghz_indices local_a_indices local_b_indices topology_A];
    repeat constructor.
Defined.

Lemma control_loop_checks total config counts :
  forall a a',
    for_each (Control.loop_body total config) counts a = Ok a' ->
    Forall (fun item => exists b, control_check (local_b_indices config) 8 (fst item) = Ok b)
           counts.
Proof.
  induction counts as [| [state c] counts IH]; intros a a' Hrun; [constructor |].
  cbn [for_each] in Hrun.
  destruct (Control.loop_body total config a (state, c)) as [a1 |] eqn:Hbody;
    [| discriminate].
  cbn [bind] in Hrun. constructor; [| eapply IH; exact Hrun].
  apply control_loop_body_ok in Hbody.
  destruct Hbody as (okG & okA & okB & _ & _ & HcB & _).
  exists okB. exact HcB.
Qed.

Lemma b3_loop_checks data_qubits ag al counts :
  forall a a',
    for_each (B3.loop_body data_qubits ag al) counts a = Ok a' ->
    Forall (fun item => exists b, b3_check data_qubits ag (fst item) = Ok b) counts.
Proof.
  induction counts as [| [state c] counts IH]; intros a a' Hrun; [constructor |].
  cbn [for_each] in Hrun.
  destruct (B3.loop_body data_qubits ag al a (state, c)) as [a1 |] eqn:Hbody;
    [| discriminate].
  cbn [bind] in Hrun. constructor; [| eapply IH; exact Hrun].
  unfold B3.loop_body, b3_check in *. cbn [fst].
  destruct (parity_check _ data_qubits ag) as [okG |]; [| discriminate].
  exists okG. reflexivity.
Qed.

(** X3: a key that is too short makes the whole analysis raise. With a
    non-zero total, the triple-ancilla analyzer raises as soon as one key
    normalises to fewer than 9 characters, and the dual-ancilla analyzer as
    soon as one key does not reach the global ancilla's position. *)
Theorem short_key_makes_analysis_raise (counts : counts_t) (item : state_key * Z) :
  sum_values counts <> 0%Z ->
  In item counts ->
  (forall config,
      List.length (bits_of 9 (fst item)) < 9 ->
      exists e, Control.analyze_results counts config = Raise e) /\
  (forall data_qubits ag al,
      List.length (bits_of 8 (fst item)) <= ag ->
      exists e, B3.analyze_results counts data_qubits ag al = Raise e).
Proof.
  intros Hnz Hin. split.
  - intros config Hshort. unfold Control.analyze_results.
    destruct (Z.eqb_spec (sum_values counts) 0) as [Hz | _]; [contradiction |].
    destruct (Control.loop (sum_values counts) config counts) as [a |] eqn:Hrun;
      [| eexists; reflexivity].
    exfalso. apply control_loop_checks in Hrun.
    rewrite Forall_forall in Hrun. destruct (Hrun item Hin) as [b Hb].
    apply parity_check_bounds in Hb. destruct Hb as [_ Hb].
    unfold bits_rev_of in Hb. rewrite length_rev in Hb. lia.
  - intros dq ag al Hshort. unfold B3.analyze_results.
    destruct (Z.eqb_spec (sum_values counts) 0) as [Hz | _]; [contradiction |].
    destruct (B3.loop dq ag al counts) as [a |] eqn:Hrun; [| eexists; reflexivity].
    exfalso. apply b3_loop_checks in Hrun.
    rewrite Forall_forall in Hrun. destruct (Hrun item Hin) as [b Hb].
    apply parity_check_bounds in Hb. destruct Hb as [_ Hb].
    unfold bits_rev_of in Hb. rewrite length_rev in Hb. lia.
Qed.

Lemma short_key_makes_analysis_raise_witness :
  sum_values [(KStr "000000000", 8000%Z); (KStr "0x1f", 192%Z)] <> 0%Z /\
  In (KStr "0x1f", 192%Z) [(KStr "000000000", 8000%Z); (KStr "0x1f", 192%Z)] /\
  List.length (bits_of 9 (KStr "0x1f")) < 9 /\
  exists e, Control.analyze_results
              [(KStr "000000000", 8000%Z); (KStr "0x1f", 192%Z)] topology_A
            = Raise e.
Proof.
  assert (Hnz : sum_values [(KStr "000000000", 8000%Z); (KStr "0x1f", 192%Z)] <> 0%Z)
    by discriminate.
  assert (Hin : In (KStr "0x1f", 192%Z)
                   [(KStr "000000000", 8000%Z); (KStr "0x1f", 192%Z)])
    by (right; left; reflexivity).
  assert (Hlen : List.length (bits_of 9 (KStr "0x1f")) < 9) by (cbn; lia).
  split; [exact Hnz |]. split; [exact Hin |]. split; [exact Hlen |].
  exact (proj1 (short_key_makes_analysis_raise _ _ Hnz Hin) topology_A Hlen).
Defined.

(** *** Ranges of asymmetry and entropy *)

(** X4: with non-negative counts and a positive total, the asymmetry the
    triple-ancilla analyzer returns lies in [0,1]. *)
Theorem asymmetry_in_unit_interval (counts : counts_t) (config : topology)
  (G LA LB AI Hent : R) :
  nonneg_counts counts ->
  (0 < sum_values counts)%Z ->
  Control.analyze_results counts config = Ok (G, LA, LB, AI, Hent) ->
  (0 <= AI <= 1)%R.
Proof.
  intros Hnn Hpos Heq. unfold Control.analyze_results in Heq.
  destruct (Z.eqb_spec (sum_values counts) 0) as [Hz | _]; [lia |].
  destruct (Control.loop (sum_values counts) config counts) as [a |] eqn:Hrun;
    [| discriminate].
  cbn [bind] in Heq. injection Heq as _ _ _ <- _.
  unfold Control.loop in Hrun.
  apply (control_loop_bounds _ _ _ Hnn _ _ 0%Z) in Hrun; cbn; try lia.
  destruct Hrun as (_ & HA & HB). rewrite Z.add_0_l in HA, HB.
  pose proof (ratio_in_unit _ _ HA Hpos) as HLA.
  pose proof (ratio_in_unit _ _ HB Hpos) as HLB.
  split; [apply Rabs_pos |].
  apply Rabs_le. lra.
Qed.

Lemma asymmetry_in_unit_interval_witness :
  nonneg_counts scenario2 /\ (0 < sum_values scenario2)%Z /\ (0 <= 1 / 2 <= 1)%R.
Proof.
  assert (Hnn : nonneg_counts scenario2).
  { unfold nonneg_counts, scenario2. repeat constructor; cbn [snd]; lia. }
  assert (Hpos : (0 < sum_values scenario2)%Z) by reflexivity.
  split; [exact Hnn |]. split; [exact Hpos |].
  exact (asymmetry_in_unit_interval scenario2 topology_A _ _ _ _ _
           Hnn Hpos scenario2_analysis).
Defined.

Lemma Rpositive_pos (x : R) : Rpositive x = true -> (0 < x)%R.
Proof.
  unfold Rpositive. destruct (Rlt_dec 0 x); [trivial | discriminate].
Qed.

Lemma log2_nonpos (p : R) : (0 < p <= 1)%R -> (log2 p <= 0)%R.
Proof.
  intros [Hpos Hle]. unfold log2.
  assert (Hln2 : (0 < ln 2)%R) by (pose proof ln_lt_2; lra).
  assert (Hlnp : (ln p <= 0)%R).
  { destruct Hle as [Hlt | ->]; [| rewrite ln_1; lra].
    pose proof (ln_increasing p 1 Hpos Hlt) as Hinc. rewrite ln_1 in Hinc. lra. }
  assert (Hinv : (0 < / ln 2)%R) by (apply Rinv_0_lt_compat; exact Hln2).
  unfold Rdiv. nra.
Qed.

Lemma Rsum_nonpos (xs : list R) :
  Forall (fun x => (x <= 0)%R) xs -> (Rsum xs <= 0)%R.
Proof.
  unfold Rsum. intros Hxs.
  assert (Hgen : forall acc, (acc <= 0)%R -> (fold_left Rplus xs acc <= 0)%R).
  { induction Hxs as [| x xs Hx _ IH]; intros acc Hacc; cbn [fold_left].
    - exact Hacc.
    - apply IH. lra. }
  apply Hgen. lra.
Qed.

Lemma count_le_total (counts : counts_t) (item : state_key * Z) :
  nonneg_counts counts -> In item counts -> (snd item <= sum_values counts)%Z.
Proof.
  induction 1 as [| x counts Hx Hrest IH]; intros Hin; [contradiction |].
  rewrite sum_values_cons. pose proof (sum_values_nonneg counts Hrest).
  destruct Hin as [-> | Hin]; [lia |]. specialize (IH Hin). lia.
Qed.

Lemma entropy_of_nonneg (probs : list R) :
  Forall (fun p => (p <= 1)%R) probs -> (0 <= Control.entropy_of probs)%R.
Proof.
  intros Hle. unfold Control.entropy_of.
  assert (Hsum : (Rsum (map (fun pr => pr * log2 pr) (filter Rpositive probs)) <= 0)%R).
  { apply Rsum_nonpos. apply Forall_map. apply Forall_forall.
    intros p Hp. apply filter_In in Hp. destruct Hp as [Hin Hpos].
    apply Rpositive_pos in Hpos.
    rewrite Forall_forall in Hle. specialize (Hle p Hin).
    pose proof (log2_nonpos p (conj Hpos Hle)). nra. }
  lra.
Qed.

(** X5: with non-negative counts the entropy the triple-ancilla analyzer
    returns is never negative; and for a distribution with one outcome of
    non-zero count it is 0. *)
Theorem entropy_nonneg_and_zero_when_certain :
  (forall counts config G LA LB AI Hent,
      nonneg_counts counts ->
      Control.analyze_results counts config = Ok (G, LA, LB, AI, Hent) ->
      (0 <= Hent)%R) /\
  (forall state c config G LA LB AI Hent,
      c <> 0%Z ->
      Control.analyze_results [(state, c)] config = Ok (G, LA, LB, AI, Hent) ->
      Hent = 0%R).
Proof.
  split.
  - intros counts config G LA LB AI Hent Hnn Heq.
    unfold Control.analyze_results in Heq.
    destruct (Z.eqb_spec (sum_values counts) 0) as [Hz | Hnz].
    { injection Heq as _ _ _ _ <-. lra. }
    pose proof (sum_values_nonneg counts Hnn) as Hge.
    destruct (Control.loop (sum_values counts) config counts) as [a |] eqn:Hrun;
      [| discriminate].
    cbn [bind] in Heq. injection Heq as _ _ _ _ <-.
    apply control_loop_counts in Hrun. destruct Hrun as (_ & _ & _ & Hprobs).
    rewrite Hprobs. cbn [Control.acc0 Control.probs app].
    apply entropy_of_nonneg. apply Forall_forall. intros p Hp.
    apply filter_In in Hp. destruct Hp as [Hp _].
    apply in_map_iff in Hp. destruct Hp as (item & <- & Hitem).
    pose proof (count_le_total counts item Hnn Hitem) as Hle.
    assert (Hpos : (0 < IZR (sum_values counts))%R) by (apply IZR_lt; lia).
    apply IZR_le in Hle.
    assert (Hinv : (0 < / IZR (sum_values counts))%R)
      by (apply Rinv_0_lt_compat; exact Hpos).
    assert (Hone : (IZR (sum_values counts) * / IZR (sum_values counts) = 1)%R)
      by (field; lra).
    unfold Rdiv. nra.
  - intros state c config G LA LB AI Hent Hc Heq.
    unfold Control.analyze_results in Heq.
    assert (Htot : sum_values [(state, c)] = c)
      by (unfold sum_values; cbn; lia).
    rewrite Htot in Heq.
    destruct (Z.eqb_spec c 0) as [Hz | _]; [contradiction |].
    destruct (Control.loop c config [(state, c)]) as [a |] eqn:Hrun;
      [| discriminate].
    cbn [bind] in Heq. injection Heq as _ _ _ _ <-.
    apply control_loop_counts in Hrun. destruct Hrun as (_ & _ & _ & Hprobs).
    rewrite Hprobs. cbn [Control.acc0 Control.probs app map snd].
    assert (Hone : (IZR c / IZR c = 1)%R)
      by (field; apply not_0_IZR; exact Hc).
    rewrite Hone.
    assert (Hp1 : Rpositive 1 = true) by (apply Rpositive_true; lra).
    unfold Control.entropy_of. cbn [filter]. rewrite Hp1. cbn [filter].
    rewrite Hp1. cbn [map]. unfold Rsum. cbn [fold_left].
    unfold log2. rewrite ln_1. unfold Rdiv. clear. lra.
Qed.

Lemma entropy_nonneg_and_zero_when_certain_witness :
  nonneg_counts scenario2 /\
  Control.analyze_results scenario2 topology_A = Ok (1, 1 / 2, 1, 1 / 2, 1)%R /\
  (0 <= 1)%R.
Proof.
  assert (Hnn : nonneg_counts scenario2).
  { unfold nonneg_counts, scenario2. repeat constructor; cbn [snd]; lia. }
  split; [exact Hnn |]. split; [exact scenario2_analysis |].
  exact (proj1 entropy_nonneg_and_zero_when_certain scenario2 topology_A
           _ _ _ _ _ Hnn scenario2_analysis).
Defined.

(** *** Integer keys *)

Lemma rev_bin_digits_pos_nth (p : positive) :
  forall i, nth i (rev (bin_digits_pos p)) bit0
            = bit_char (Z.testbit (Zpos p) (Z.of_nat i)).
Proof.
  induction p as [p IH | p IH |]; intros i; cbn [bin_digits_pos].
  - rewrite rev_unit. rewrite Pos2Z.inj_xI. destruct i as [| i].
    + cbn [nth Z.of_nat]. rewrite Z.testbit_odd_0. reflexivity.
    + cbn [nth]. rewrite Nat2Z.inj_succ, Z.testbit_odd_succ by lia. apply IH.
  - rewrite rev_unit. rewrite Pos2Z.inj_xO. destruct i as [| i].
    + cbn [nth Z.of_nat]. rewrite Z.testbit_even_0. reflexivity.
    + cbn [nth]. rewrite Nat2Z.inj_succ, Z.testbit_even_succ by lia. apply IH.
  - destruct i as [| i]; [reflexivity |].
    cbn [rev app nth]. rewrite Nat2Z.inj_succ.
    change 1%Z with (2 * 0 + 1)%Z. rewrite Z.testbit_odd_succ by lia.
    rewrite Z.testbit_0_l. destruct i; reflexivity.
Qed.

Lemma rev_bin_digits_nth (n : Z) (i : nat) :
  (0 <= n)%Z ->
  nth i (rev (bin_digits n)) bit0 = bit_char (Z.testbit n (Z.of_nat i)).
Proof.
  intros Hn. destruct n as [| p | p]; [| apply rev_bin_digits_pos_nth | lia].
  rewrite Z.testbit_0_l. cbn [bin_digits rev app].
  destruct i as [| [| i]]; reflexivity.
Qed.

Lemma bits_rev_of_int_nth (w : nat) (n : Z) (i : nat) :
  (0 <= n)%Z ->
  nth i (bits_rev_of w (KInt n)) bit0 = bit_char (Z.testbit n (Z.of_nat i)).
Proof.
  intros Hn. unfold bits_rev_of, bits_of, format_b.
  destruct (Z.ltb_spec n 0) as [Hneg | _]; [lia |].
  unfold zero_pad. rewrite rev_app_distr, rev_repeat.
  rewrite <- (rev_bin_digits_nth n i Hn).
  destruct (Nat.lt_ge_cases i (List.length (rev (bin_digits n)))) as [Hlt | Hge].
  - apply app_nth1. exact Hlt.
  - rewrite app_nth2 by exact Hge.
    rewrite (nth_overflow (rev (bin_digits n))) by exact Hge.
    apply nth_repeat.
Qed.

Lemma bits_rev_of_int_length (w : nat) (n : Z) :
  (0 <= n)%Z -> w <= List.length (bits_rev_of w (KInt n)).
Proof.
  intros Hn. unfold bits_rev_of, bits_of, format_b.
  destruct (Z.ltb_spec n 0) as [Hneg | _]; [lia |].
  unfold zero_pad. rewrite length_rev, length_app, repeat_length. lia.
Qed.

Lemma int_key_index (w : nat) (n : Z) (i : nat) :
  (0 <= n)%Z -> i < w ->
  py_index (bits_rev_of w (KInt n)) i = Ok (bit_char (key_bit n i)).
Proof.
  intros Hn Hi. unfold py_index, key_bit.
  pose proof (bits_rev_of_int_length w n Hn) as Hlen.
  rewrite (nth_error_nth' _ bit0) by lia.
  rewrite bits_rev_of_int_nth by exact Hn. reflexivity.
Qed.

(** X6: for a non-negative integer key, position [i] of the reversed string
    (below the format width) holds bit [i] of the integer, qubit 0 being the
    least significant bit, and reading it with [int] gives that bit's value. *)
Theorem int_key_bit_convention (w : nat) (n : Z) (i : nat) :
  (0 <= n)%Z -> i < w ->
  py_index (bits_rev_of w (KInt n)) i = Ok (bit_char (key_bit n i)) /\
  (ch <- py_index (bits_rev_of w (KInt n)) i ;; py_int ch)
  = Ok (Z.b2z (key_bit n i)).
Proof.
  intros Hn Hi.
  pose proof (int_key_index w n i Hn Hi) as Hidx.
  split; [exact Hidx |].
  rewrite Hidx. cbn [bind]. destruct (key_bit n i); reflexivity.
Qed.

Lemma int_key_bit_convention_witness :
  (0 <= 6)%Z /\ 1 < 9 /\
  py_index (bits_rev_of 9 (KInt 6)) 1 = Ok bit1.
Proof.
  split; [lia |]. split; [lia |].
  exact (proj1 (int_key_bit_convention 9 6 1 ltac:(lia) ltac:(lia))).
Defined.

Lemma count_ones_mod2_bits (bs : list bool) :
  count_ones_mod2 (map bit_char bs)
  = (if fold_right xorb false bs then 1 else 0)%Z.
Proof.
  unfold count_ones_mod2.
  induction bs as [| b bs IH]; [reflexivity |].
  cbn [map fold_right count_occ].
  destruct b; cbn [bit_char].
  - destruct (ascii_dec bit1 bit1) as [_ | Hne]; [| contradiction].
    rewrite Nat2Z.inj_succ.
    destruct (fold_right xorb false bs); cbn [xorb negb];
      Z.div_mod_to_equations; lia.
  - destruct (ascii_dec bit0 bit1) as [Heq | _]; [discriminate |].
    destruct (fold_right xorb false bs); cbn [xorb]; exact IH.
Qed.

Lemma comprehension_map {A B : Type} (f : A -> result B) (g : A -> B)
  (xs : list A) :
  Forall (fun x => f x = Ok (g x)) xs -> comprehension f xs = Ok (map g xs).
Proof.
  induction 1 as [| x xs Hx _ IH]; cbn [comprehension map]; [reflexivity |].
  rewrite Hx, IH. reflexivity.
Qed.

(** X7: on a non-negative integer key, with the group and the ancilla inside
    the format width, the parity check never raises and answers true exactly
    when the ancilla's bit of the integer equals the parity (exclusive or) of
    the group's bits. *)
Theorem int_key_parity_check (w : nat) (n : Z) (nodes : list nat) (anc : nat) :
  (0 <= n)%Z ->
  Forall (fun i => i < w) nodes -> anc < w ->
  parity_check (bits_rev_of w (KInt n)) nodes anc
  = Ok (Bool.eqb (key_bit n anc) (key_parity n nodes)).
Proof.
  intros Hn Hnodes Hanc. unfold parity_check.
  rewrite (comprehension_map _ (fun i => bit_char (key_bit n i))).
  2:{ eapply Forall_impl; [| exact Hnodes]. cbn beta. intros i Hi.
      apply int_key_index; assumption. }
  cbn [bind]. rewrite int_key_index by assumption. cbn [bind].
  rewrite <- (map_map (key_bit n) bit_char), count_ones_mod2_bits.
  unfold key_parity.
  destruct (key_bit n anc), (fold_right xorb false (map (key_bit n) nodes));
    reflexivity.
Qed.

Lemma int_key_parity_check_witness :
  (0 <= 64)%Z /\
  parity_check (bits_rev_of 9 (KInt 64)) [0;1;2;3;4;5] 6 = Ok false.
Proof.
  split; [lia |].
  apply (int_key_parity_check 9 64 [0;1;2;3;4;5] 6); [lia | | lia].
  repeat constructor.
Defined.

(** *** Keys are read through their normalised bit string *)

Lemma list_ascii_of_string_app (s1 s2 : string) :
  list_ascii_of_string (s1 ++ s2)%string
  = list_ascii_of_string s1 ++ list_ascii_of_string s2.
Proof.
  induction s1 as [| c s1 IH]; cbn [list_ascii_of_string String.append app].
  - reflexivity.
  - rewrite IH. reflexivity.
Qed.

Lemma replace_spaces_app (s1 s2 : string) :
  replace_spaces (s1 ++ s2)%string = replace_spaces s1 ++ replace_spaces s2.
Proof.
  unfold replace_spaces. rewrite list_ascii_of_string_app. apply filter_app.
Qed.

Lemma same_reading_total (w : nat) (counts counts' : counts_t) :
  Forall2 (same_reading w) counts counts' -> sum_values counts = sum_values counts'.
Proof.
  induction 1 as [| a b counts counts' [Hc _] _ IH].
  - reflexivity.
  - rewrite !sum_values_cons, Hc, IH. reflexivity.
Qed.

(** X8: the analyzers read a key only through its normalised bit string.
    Two distributions with the same counts whose keys normalise alike get
    the same answer, error included; in particular a space anywhere in a
    string key changes nothing. *)
Theorem analysis_depends_on_normalised_keys :
  (forall counts counts' config,
      Forall2 (same_reading 9) counts counts' ->
      Control.analyze_results counts config = Control.analyze_results counts' config) /\
  (forall counts counts' data_qubits ag al,
      Forall2 (same_reading 8) counts counts' ->
      B3.analyze_results counts data_qubits ag al
      = B3.analyze_results counts' data_qubits ag al) /\
  (forall w s1 s2 c,
      same_reading w (KStr (s1 ++ " " ++ s2), c) (KStr (s1 ++ s2), c)).
Proof.
  split; [| split].
  - intros counts counts' config Hsame.
    unfold Control.analyze_results.
    rewrite <- (same_reading_total 9 counts counts' Hsame).
    destruct (sum_values counts =? 0)%Z; [reflexivity |].
    f_equal. unfold Control.loop. generalize Control.acc0.
    generalize (sum_values counts) as total.
    induction Hsame as [| [s c] [s' c'] counts counts' [Hc Hbits] _ IH];
      intros total a; cbn [for_each]; [reflexivity |].
    cbn [fst snd] in Hc, Hbits. subst c'.
    unfold Control.loop_body at 1 3. unfold bits_rev_of. rewrite Hbits.
    destruct (parity_check _ (ghz_indices config) 6); cbn [bind]; [| reflexivity].
    destruct (parity_check _ (local_a_indices config) 7); cbn [bind]; [| reflexivity].
    destruct (parity_check _ (local_b_indices config) 8); cbn [bind]; [| reflexivity].
    apply IH.
  - intros counts counts' dq ag al Hsame.
    unfold B3.analyze_results.
    rewrite <- (same_reading_total 8 counts counts' Hsame).
    destruct (sum_values counts =? 0)%Z; [reflexivity |].
    f_equal. unfold B3.loop. generalize B3.acc0.
    induction Hsame as [| [s c] [s' c'] counts counts' [Hc Hbits] _ IH];
      intros a; cbn [for_each]; [reflexivity |].
    cbn [fst snd] in Hc, Hbits. subst c'.
    unfold B3.loop_body at 1 3. unfold bits_rev_of. rewrite Hbits.
    destruct (parity_check _ dq ag); cbn [bind]; [| reflexivity].
    destruct (parity_check _ (firstn 3 dq) al); cbn [bind]; [| reflexivity].
    apply IH.
  - intros w s1 s2 c. split; [reflexivity |].
    cbn [fst bits_of]. rewrite !replace_spaces_app. reflexivity.
Qed.

Lemma analysis_depends_on_normalised_keys_witness :
  Forall2 (same_reading 9)
    [(KStr "000 000 101", 8192%Z)] [(KInt 5, 8192%Z)] /\
  Control.analyze_results [(KStr "000 000 101", 8192%Z)] topology_A
  = Control.analyze_results [(KInt 5, 8192%Z)] topology_A.
Proof.
  assert (Hsame : Forall2 (same_reading 9)
                    [(KStr "000 000 101", 8192%Z)] [(KInt 5, 8192%Z)]).
  { repeat constructor. }
  split; [exact Hsame |].
  exact (proj1 analysis_depends_on_normalised_keys _ _ topology_A Hsame).
Defined.

(** *** The order of the outcomes does not matter *)















(** ** Further properties of the circuit builders *)

Lemma emit_runs (prog : list instr) :
  forall qc,
    emit prog qc
    = if forallb (valid_instr qc) prog
      then Ok (mkCircuit (num_qubits qc) (num_clbits qc) (data qc ++ prog))
      else Raise CircuitError.
Proof.
  unfold emit.
  induction prog as [| i prog IH]; intros qc; cbn [for_each forallb].
  - rewrite app_nil_r. destruct qc; reflexivity.
  - unfold append_instr at 1. destruct (valid_instr qc i) eqn:Hv; cbn [bind andb].
    + rewrite IH. cbn [num_qubits num_clbits data].
      replace (forallb (valid_instr (mkCircuit (num_qubits qc) (num_clbits qc)
                                       (data qc ++ [i]))) prog)
        with (forallb (valid_instr qc) prog)
        by (clear; induction prog as [| [q | c t | q c] prog IHp];
            cbn [forallb]; [reflexivity | rewrite IHp; reflexivity ..]).
      rewrite <- app_assoc. reflexivity.
    + reflexivity.
Qed.

Lemma forallb_map_iff {A B : Type} (p : B -> bool) (f : A -> B) (P : A -> Prop)
  (xs : list A) :
  (forall x, p (f x) = true <-> P x) ->
  (forallb p (map f xs) = true <-> Forall P xs).
Proof.
  intros Hp. rewrite forallb_forall, Forall_forall. split.
  - intros Hall x Hx. apply Hp. apply Hall. apply in_map. exact Hx.
  - intros Hall y Hy. apply in_map_iff in Hy. destruct Hy as (x & <- & Hx).
    apply Hp. apply Hall. exact Hx.
Qed.

Lemma valid_h (nq nc q : nat) :
  valid_instr (mkCircuit nq nc []) (HGate q) = true <-> q < nq.
Proof. unfold valid_instr. cbn [num_qubits]. apply Nat.ltb_lt. Qed.

Lemma valid_cx (nq nc q t : nat) :
  t < nq ->
  valid_instr (mkCircuit nq nc []) (CXGate q t) = true <-> q < nq /\ q <> t.
Proof.
  intros Ht. unfold valid_instr. cbn [num_qubits].
  rewrite !andb_true_iff, negb_true_iff, !Nat.ltb_lt, Nat.eqb_neq. tauto.
Qed.

(** X10: the triple-ancilla builder succeeds exactly when every index of the
    three groups is inside the 9-qubit register and no group contains its
    own ancilla; it then returns the 9-wire circuit holding [triple_program],
    and otherwise raises the circuit interface's error. *)
Theorem build_circuit_succeeds_iff (config : topology) :
  (Forall (fun q => q < 9 /\ q <> 6) (ghz_indices config) /\
   Forall (fun q => q < 9 /\ q <> 7) (local_a_indices config) /\
   Forall (fun q => q < 9 /\ q <> 8) (local_b_indices config) <->
   Control.build_circuit config = Ok (mkCircuit 9 9 (triple_program config))) /\
  (Control.build_circuit config = Ok (mkCircuit 9 9 (triple_program config)) \/
   Control.build_circuit config = Raise CircuitError).
Proof.
  rewrite build_circuit_emits, emit_runs. cbn [num_qubits num_clbits data app].
  assert (Hvalid :
            forallb (valid_instr (mkCircuit 9 9 [])) (triple_program config) = true <->
            Forall (fun q => q < 9 /\ q <> 6) (ghz_indices config) /\
            Forall (fun q => q < 9 /\ q <> 7) (local_a_indices config) /\
            Forall (fun q => q < 9 /\ q <> 8) (local_b_indices config)).
  { unfold triple_program. rewrite !forallb_app, !andb_true_iff.
    rewrite (forallb_map_iff _ HGate (fun q => q < 9)) by (intros; apply valid_h).
    rewrite (forallb_map_iff _ (fun q => CXGate q 6) (fun q => q < 9 /\ q <> 6))
      by (intros; apply valid_cx; lia).
    rewrite (forallb_map_iff _ (fun q => CXGate q 7) (fun q => q < 9 /\ q <> 7))
      by (intros; apply valid_cx; lia).
    rewrite (forallb_map_iff _ (fun q => CXGate q 8) (fun q => q < 9 /\ q <> 8))
      by (intros; apply valid_cx; lia).
    assert (Hm : forallb (valid_instr (mkCircuit 9 9 [])) (measure_all 9) = true)
      by reflexivity.
    rewrite Hm. intuition auto.
    eapply Forall_impl; [| eassumption]. cbn beta. tauto. }
  destruct (forallb (valid_instr (mkCircuit 9 9 [])) (triple_program config)) eqn:Hb.
  - split; [| left; reflexivity]. split; [reflexivity |].
    intros _. apply Hvalid. reflexivity.
  - split; [| right; reflexivity]. split; [| discriminate].
    intros Hall. apply Hvalid in Hall. discriminate.
Qed.

(** X11: the dual-ancilla builder, with ancillas 6 and 7, succeeds exactly
    when every data index is below 8 and differs from 6, and the first three
    also differ from 7; it then returns the 8-wire circuit holding
    [dual_program] over the listing and its first three entries. *)
Theorem classical_control_circuit_succeeds_iff (data_qubits : list nat) :
  (Forall (fun q => q < 8 /\ q <> 6) data_qubits /\
   Forall (fun q => q <> 7) (firstn 3 data_qubits) <->
   B3.classical_control_circuit
     (B3.mkTopologyMap data_qubits B3.ANC_GLOBAL B3.ANC_LOCAL)
   = Ok (mkCircuit 8 8 (dual_program data_qubits (firstn 3 data_qubits)))) /\
  (B3.classical_control_circuit
     (B3.mkTopologyMap data_qubits B3.ANC_GLOBAL B3.ANC_LOCAL)
   = Ok (mkCircuit 8 8 (dual_program data_qubits (firstn 3 data_qubits))) \/
   B3.classical_control_circuit
     (B3.mkTopologyMap data_qubits B3.ANC_GLOBAL B3.ANC_LOCAL)
   = Raise CircuitError).
Proof.
  rewrite classical_control_circuit_emits, emit_runs.
  cbn [num_qubits num_clbits data app].
  assert (Hvalid :
            forallb (valid_instr (mkCircuit 8 8 []))
                    (dual_program data_qubits (firstn 3 data_qubits)) = true <->
            Forall (fun q => q < 8 /\ q <> 6) data_qubits /\
            Forall (fun q => q <> 7) (firstn 3 data_qubits)).
  { unfold dual_program. rewrite !forallb_app, !andb_true_iff.
    rewrite (forallb_map_iff _ HGate (fun q => q < 8)) by (intros; apply valid_h).
    rewrite (forallb_map_iff _ (fun q => CXGate q 6) (fun q => q < 8 /\ q <> 6))
      by (intros; apply valid_cx; lia).
    rewrite (forallb_map_iff _ (fun q => CXGate q 7) (fun q => q < 8 /\ q <> 7))
      by (intros; apply valid_cx; lia).
    assert (Hm : forallb (valid_instr (mkCircuit 8 8 [])) (measure_all 8) = true)
      by reflexivity.
    rewrite Hm. split.
    - intros (_ & Hg & Ha & _). split; [exact Hg |].
      eapply Forall_impl; [| exact Ha]. cbn beta. tauto.
    - intros (Hg & Ha). split; [| split; [exact Hg | split; [| reflexivity]]].
      + eapply Forall_impl; [| exact Hg]. cbn beta. tauto.
      + pose proof (Forall_firstn_keep _ 3 _ Hg) as Hg3.
        rewrite Forall_forall in *. intros q Hq.
        split; [apply (Hg3 q Hq) | apply (Ha q Hq)]. }
  destruct (forallb (valid_instr (mkCircuit 8 8 []))
              (dual_program data_qubits (firstn 3 data_qubits))) eqn:Hb.
  - split; [| left; reflexivity]. split; [reflexivity |].
    intros _. apply Hvalid. reflexivity.
  - split; [| right; reflexivity]. split; [| discriminate].
    intros Hall. apply Hvalid in Hall. discriminate.
Qed.

Lemma filter_out_members (keep l : list nat) :
  (forall x, In x l -> In x keep) ->
  filter (fun x => negb (existsb (Nat.eqb x) keep)) l = [].
Proof.
  induction l as [| x l IH]; intros Hl; [reflexivity |].
  cbn [filter].
  assert (Hex : existsb (Nat.eqb x) keep = true).
  { apply existsb_exists. exists x.
    split; [apply Hl; left; reflexivity | apply Nat.eqb_refl]. }
  rewrite Hex. cbn [negb]. apply IH. intros y Hy. apply Hl. right. exact Hy.
Qed.

(** X12: when the local-A group is a prefix of the global group and the
    global group has no repeated index, [get_ordered_data] returns the global
    group unchanged. *)
Theorem get_ordered_data_keeps_prefix_order (config : topology) (rest : list nat) :
  ghz_indices config = local_a_indices config ++ rest ->
  NoDup (ghz_indices config) ->
  B3.get_ordered_data config = ghz_indices config.
Proof.
  intros Hsplit Hnd. unfold B3.get_ordered_data. rewrite Hsplit in *.
  f_equal. rewrite filter_app.
  assert (Hdisjoint : forall x, In x (local_a_indices config) -> In x rest -> False).
  { clear Hsplit. induction (local_a_indices config) as [| y l IH];
      intros x Hx Hr; [contradiction |].
    cbn [app] in Hnd. inversion Hnd as [| ? ? Hnotin Hnd']; subst.
    destruct Hx as [-> | Hx].
    - apply Hnotin. apply in_or_app. right. exact Hr.
    - exact (IH Hnd' x Hx Hr). }
  assert (Hdrop : filter (fun x => negb (existsb (Nat.eqb x) (local_a_indices config)))
                         (local_a_indices config) = [])
    by (apply filter_out_members; auto).
  rewrite Hdrop. cbn [app].
  apply forallb_filter_id. apply forallb_forall. intros x Hx.
  destruct (existsb (Nat.eqb x) (local_a_indices config)) eqn:Hex; [| reflexivity].
  exfalso. apply existsb_exists in Hex. destruct Hex as (y & Hy & Hxy).
  apply Nat.eqb_eq in Hxy. subst y. exact (Hdisjoint x Hy Hx).
Qed.

Lemma build_circuit_succeeds_iff_witness :
  Control.build_circuit topology_A = Ok (mkCircuit 9 9 (triple_program topology_A)).
Proof.
  apply (proj1 (proj1 (build_circuit_succeeds_iff topology_A))).
  cbn [ghz_indices local_a_indices local_b_indices topology_A].
  repeat split; repeat constructor; lia.
Defined.

Lemma classical_control_circuit_succeeds_iff_witness :
  B3.classical_control_circuit
    (B3.mkTopologyMap [0;2;4;1;3;5] B3.ANC_GLOBAL B3.ANC_LOCAL)
  = Ok (mkCircuit 8 8 (dual_program [0;2;4;1;3;5] [0;2;4])).
Proof.
  apply (proj1 (proj1 (classical_control_circuit_succeeds_iff [0;2;4;1;3;5]))).
  cbn [firstn]. repeat split; repeat constructor; lia.
Defined.

Lemma get_ordered_data_keeps_prefix_order_witness :
  B3.get_ordered_data (mkTopology [1;2;3;4;5;0] [1;2;3] [4;5;0]) = [1;2;3;4;5;0].
Proof.
  apply (get_ordered_data_keeps_prefix_order
           (mkTopology [1;2;3;4;5;0] [1;2;3] [4;5;0]) [4;5;0]).
  - reflexivity.
  - cbn [ghz_indices]. nodup_by_computation.
Defined.

(** ** Start-up: choosing the backend *)

Lemma try_candidate_some (service : Runtime) (name : string) (b : Backend) :
  try_candidate service name = Some b ->
  service_backend service name = Ok b /\
  exists st, backend_status b = Ok st /\
             operational st = true /\ (pending_jobs st < 500)%Z.
Proof.
  unfold try_candidate.
  destruct (service_backend service name) as [b0 |]; cbn [bind]; [| discriminate].
  destruct (backend_status b0) as [st |] eqn:Hst; cbn [bind]; [| discriminate].
  destruct (operational st) eqn:Hop; cbn [andb]; [| discriminate].
  destruct (Z.ltb_spec (pending_jobs st) 500) as [Hlt | _]; [| discriminate].
  intros Heq. injection Heq as <-.
  split; [reflexivity |]. exists st. auto.
Qed.

Lemma select_priority_some (service : Runtime) (names : list string) (b : Backend) :
  select_priority service names = Some b ->
  exists pre name post,
    names = pre ++ name :: post /\
    Forall (fun n => try_candidate service n = None) pre /\
    try_candidate service name = Some b.
Proof.
  induction names as [| n names IH]; cbn [select_priority]; [discriminate |].
  destruct (try_candidate service n) as [b0 |] eqn:Hn.
  - intros Heq. injection Heq as ->.
    exists [], n, names. repeat split; [constructor | exact Hn].
  - intros Hrest. destruct (IH Hrest) as (pre & name & post & -> & Hpre & Hname).
    exists (n :: pre), name, post.
    repeat split; [constructor; assumption | exact Hname].
Qed.

Lemma select_priority_none (service : Runtime) (names : list string) :
  select_priority service names = None <->
  Forall (fun n => try_candidate service n = None) names.
Proof.
  induction names as [| n names IH]; cbn [select_priority].
  - split; [constructor | reflexivity].
  - destruct (try_candidate service n) as [b0 |] eqn:Hn.
    + split; [discriminate |]. intros Hall. inversion Hall; congruence.
    + rewrite IH. split; [intros Hall; constructor; assumption |].
      intros Hall. inversion Hall; assumption.
Qed.

(** X13: [get_backend] reports "no backend" exactly when both connection
    attempts raise; and once the ibm_cloud channel connects, what the
    platform channel would answer plays no part. *)
Theorem get_backend_connection_fallback :
  (forall cloud,
      get_backend cloud = Ok None <->
      is_ok (connect_ibm_cloud cloud) = false /\
      is_ok (connect_ibm_quantum_platform cloud) = false) /\
  (forall service platform platform',
      get_backend (mkCloud (Ok service) platform)
      = get_backend (mkCloud (Ok service) platform')).
Proof.
  split.
  - intros cloud. unfold get_backend.
    destruct (connect_ibm_cloud cloud) as [s |]; cbn [is_ok].
    + split; [| intros [Hc _]; discriminate].
      destruct (select_priority s candidates); [discriminate |].
      destruct (service_least_busy s); discriminate.
    + destruct (connect_ibm_quantum_platform cloud) as [s |]; cbn [is_ok].
      * split; [| intros [_ Hp]; discriminate].
        destruct (select_priority s candidates); [discriminate |].
        destruct (service_least_busy s); discriminate.
      * split; auto.
  - intros service platform platform'. reflexivity.
Qed.

(** X14: the backend [get_backend] returns is the first candidate, in
    priority order, whose lookup and status call succeed and which is
    operational with fewer than 500 pending jobs; only when no candidate is
    like that is it the one [least_busy] gave. *)
Theorem get_backend_selects_first_qualifying (cloud : Cloud) (service : Runtime)
  (b : Backend) :
  get_backend cloud = Ok (Some (service, b)) ->
  (exists pre name post st,
      candidates = pre ++ name :: post /\
      Forall (fun n => try_candidate service n = None) pre /\
      service_backend service name = Ok b /\
      backend_status b = Ok st /\
      operational st = true /\ (pending_jobs st < 500)%Z) \/
  (Forall (fun n => try_candidate service n = None) candidates /\
   service_least_busy service = Ok b).
Proof.
  unfold get_backend.
  set (connected := match connect_ibm_cloud cloud with
                    | Ok s => Some s
                    | Raise _ =>
                        match connect_ibm_quantum_platform cloud with
                        | Ok s => Some s
                        | Raise _ => None
                        end
                    end).
  destruct connected as [s |]; [| discriminate].
  destruct (select_priority s candidates) as [b0 |] eqn:Hsel.
  - intros Heq. injection Heq as -> ->. left.
    apply select_priority_some in Hsel.
    destruct Hsel as (pre & name & post & Hsplit & Hpre & Hname).
    apply try_candidate_some in Hname. destruct Hname as (Hlook & st & Hst & Hop & Hpend).
    exists pre, name, post, st. auto 10.
  - destruct (service_least_busy s) as [b0 |] eqn:Hlb; cbn [bind]; [| discriminate].
    intros Heq. injection Heq as -> ->. right.
    split; [apply select_priority_none; exact Hsel | exact Hlb].
Qed.

Lemma get_backend_selects_first_qualifying_witness :
  get_backend sample_cloud = Ok (Some (sample_runtime, ready_backend)) /\
  service_backend sample_runtime "ibm_sherbrooke" = Ok ready_backend /\
  try_candidate sample_runtime "ibm_torino" = None /\
  try_candidate sample_runtime "ibm_fez" = None.
Proof.
  assert (Hget : get_backend sample_cloud = Ok (Some (sample_runtime, ready_backend)))
    by reflexivity.
  split; [exact Hget |].
  destruct (get_backend_selects_first_qualifying _ _ _ Hget)
    as [(pre & name & post & st & Hsplit & Hpre & Hlook & _) | [Hnone Hlb]].
  - repeat split; reflexivity.
  - discriminate Hlb.
Defined.

(** ** The job records and the ledger rows *)

Lemma run_loop_inv {A S : Type} (body : S -> A -> S * option exn) (P : S -> Prop)
  (xs : list A) :
  (forall s x, In x xs -> P s -> P (fst (body s x))) ->
  forall s, P s -> P (fst (run_loop body xs s)).
Proof.
  induction xs as [| x xs IH]; intros Hbody s Hs; cbn [run_loop]; [exact Hs |].
  pose proof (Hbody s x (or_introl eq_refl) Hs) as Hstep.
  destruct (body s x) as [s1 [e |]]; cbn [fst] in *; [exact Hstep |].
  apply IH; [| exact Hstep].
  intros s0 x0 Hin. apply Hbody. right. exact Hin.
Qed.

Lemma control_submit_one_record svc l config st i :
  In (l, config) TOPOLOGIES -> 1 <= i <= REPETITIONS ->
  Forall control_record_ok (Control.submitted_jobs st) ->
  Forall control_record_ok
         (Control.submitted_jobs (fst (Control.submit_one svc l config st i))).
Proof.
  intros Hreg Hi Hst. unfold Control.submit_one.
  destruct (Control.build_circuit config) as [qc |]; cbn [fst Control.submitted_jobs];
    [| exact Hst].
  destruct (transpile svc l i qc) as [t_qc |]; cbn [fst Control.submitted_jobs];
    [| exact Hst].
  destruct (sampler_run svc l i t_qc) as [job |]; cbn [bind fst Control.submitted_jobs];
    [| exact Hst].
  destruct (call_job_id job) as [job_id |] eqn:Hid;
    cbn [bind fst Control.submitted_jobs]; [| exact Hst].
  apply Forall_app. split; [exact Hst |].
  constructor; [| constructor].
  unfold control_record_ok. cbn. auto.
Qed.

Lemma control_submit_one_length svc l config st i :
  List.length (Control.submitted_jobs (fst (Control.submit_one svc l config st i)))
  <= List.length (Control.submitted_jobs st) + 1.
Proof.
  unfold Control.submit_one.
  destruct (Control.build_circuit config) as [qc |]; cbn [fst Control.submitted_jobs];
    [| lia].
  destruct (transpile svc l i qc) as [t_qc |]; cbn [fst Control.submitted_jobs];
    [| lia].
  destruct (sampler_run svc l i t_qc) as [job |]; cbn [bind fst Control.submitted_jobs];
    [| lia].
  destruct (call_job_id job) as [job_id |];
    cbn [bind fst Control.submitted_jobs]; [| lia].
  rewrite length_app. cbn [List.length]. lia.
Qed.

Lemma b3_submit_one_record svc l config st i :
  In (l, config) TOPOLOGIES -> 1 <= i <= REPETITIONS ->
  Forall b3_record_ok (B3.submitted_jobs st) ->
  Forall b3_record_ok
         (B3.submitted_jobs
            (fst (B3.submit_one svc l config (topology_map_of config) st i))).
Proof.
  intros Hreg Hi Hst. unfold B3.submit_one.
  destruct (B3.classical_control_circuit (topology_map_of config)) as [qc |];
    cbn [fst B3.submitted_jobs]; [| exact Hst].
  destruct (transpile svc l i qc) as [t_qc |]; cbn [fst B3.submitted_jobs];
    [| exact Hst].
  destruct (sampler_run svc l i t_qc) as [job |]; cbn [bind fst B3.submitted_jobs];
    [| exact Hst].
  destruct (call_job_id job) as [job_id |] eqn:Hid;
    cbn [bind fst B3.submitted_jobs]; [| exact Hst].
  apply Forall_app. split; [exact Hst |].
  constructor; [| constructor].
  unfold b3_record_ok. cbn. auto.
Qed.

Lemma b3_submit_one_length svc l config tm st i :
  List.length (B3.submitted_jobs (fst (B3.submit_one svc l config tm st i)))
  <= List.length (B3.submitted_jobs st) + 1.
Proof.
  unfold B3.submit_one.
  destruct (B3.classical_control_circuit tm) as [qc |]; cbn [fst B3.submitted_jobs];
    [| lia].
  destruct (transpile svc l i qc) as [t_qc |]; cbn [fst B3.submitted_jobs]; [| lia].
  destruct (sampler_run svc l i t_qc) as [job |]; cbn [bind fst B3.submitted_jobs];
    [| lia].
  destruct (call_job_id job) as [job_id |]; cbn [bind fst B3.submitted_jobs]; [| lia].
  rewrite length_app. cbn [List.length]. lia.
Qed.

Lemma run_loop_measure {A S : Type} (body : S -> A -> S * option exn)
  (m : S -> nat) (k : nat) (xs : list A) :
  (forall s x, m (fst (body s x)) <= m s + k) ->
  forall s, m (fst (run_loop body xs s)) <= m s + k * List.length xs.
Proof.
  intros Hbody.
  induction xs as [| x xs IH]; intros s; cbn [run_loop List.length fst]; [lia |].
  pose proof (Hbody s x) as Hstep.
  destruct (body s x) as [s1 [e |]]; cbn [fst] in *; [nia |].
  specialize (IH s1). nia.
Qed.

Lemma in_repetitions (i : nat) : In i (seq 1 REPETITIONS) -> 1 <= i <= REPETITIONS.
Proof. intros Hin. apply in_seq in Hin. lia. Qed.

Lemma control_job_records (svc : Service) :
  Forall control_record_ok
         (Control.submitted_jobs (fst (Control.submission_phase svc))).
Proof.
  unfold Control.submission_phase.
  apply (run_loop_inv _ (fun st => Forall control_record_ok (Control.submitted_jobs st)));
    [| constructor].
  intros s [l config] Hreg Hs. unfold Control.submit_topology.
  apply (run_loop_inv _ (fun st => Forall control_record_ok (Control.submitted_jobs st)));
    [| exact Hs].
  intros s0 i Hi Hs0.
  apply control_submit_one_record;
    [exact Hreg | apply in_repetitions; exact Hi | exact Hs0].
Qed.

Lemma control_job_records_length (svc : Service) :
  List.length (Control.submitted_jobs (fst (Control.submission_phase svc)))
  <= 4 * REPETITIONS.
Proof.
  unfold Control.submission_phase.
  pose proof (run_loop_measure (Control.submit_topology svc)
                (fun st => List.length (Control.submitted_jobs st))
                REPETITIONS TOPOLOGIES) as Hm.
  cbn beta in Hm. rewrite (Nat.mul_comm 4). apply Hm.
  intros s [l config]. unfold Control.submit_topology.
  pose proof (run_loop_measure (Control.submit_one svc l config)
                (fun st => List.length (Control.submitted_jobs st))
                1 (seq 1 REPETITIONS)
                (fun s0 i => control_submit_one_length svc l config s0 i) s) as Hi.
  cbn beta in Hi. rewrite length_seq in Hi.
  refine (Nat.le_trans _ _ _ Hi _). lia.
Qed.

Lemma b3_job_records (svc : Service) :
  Forall b3_record_ok (B3.submitted_jobs (fst (B3.submission_phase svc))).
Proof.
  unfold B3.submission_phase.
  apply (run_loop_inv _ (fun st => Forall b3_record_ok (B3.submitted_jobs st)));
    [| constructor].
  intros s [l config] Hreg Hs. unfold B3.submit_topology.
  apply (run_loop_inv _ (fun st => Forall b3_record_ok (B3.submitted_jobs st)));
    [| exact Hs].
  intros s0 i Hi Hs0.
  apply b3_submit_one_record;
    [exact Hreg | apply in_repetitions; exact Hi | exact Hs0].
Qed.

Lemma b3_job_records_length (svc : Service) :
  List.length (B3.submitted_jobs (fst (B3.submission_phase svc)))
  <= 4 * REPETITIONS.
Proof.
  unfold B3.submission_phase.
  pose proof (run_loop_measure (B3.submit_topology svc)
                (fun st => List.length (B3.submitted_jobs st))
                REPETITIONS TOPOLOGIES) as Hm.
  cbn beta in Hm. rewrite (Nat.mul_comm 4). apply Hm.
  intros s [l config]. unfold B3.submit_topology.
  pose proof (run_loop_measure
                (B3.submit_one svc l config
                   (B3.mkTopologyMap (B3.get_ordered_data config)
                      B3.ANC_GLOBAL B3.ANC_LOCAL))
                (fun st => List.length (B3.submitted_jobs st))
                1 (seq 1 REPETITIONS)
                (fun s0 i => b3_submit_one_length svc l config _ s0 i) s) as Hi.
  cbn beta in Hi. rewrite length_seq in Hi.
  refine (Nat.le_trans _ _ _ Hi _). lia.
Qed.

(** X15: whatever the service answers and whether or not the phase is cut
    short, the submission phase of either variant leaves at most 20 job
    records, and every record carries a registered label with that label's
    topology, a repetition between 1 and 5, and the id its own job handle
    reported. *)
Theorem job_records_are_consistent (svc : Service) :
  (Forall control_record_ok
          (Control.submitted_jobs (fst (Control.submission_phase svc))) /\
   List.length (Control.submitted_jobs (fst (Control.submission_phase svc)))
   <= 4 * REPETITIONS) /\
  (Forall b3_record_ok (B3.submitted_jobs (fst (B3.submission_phase svc))) /\
   List.length (B3.submitted_jobs (fst (B3.submission_phase svc)))
   <= 4 * REPETITIONS).
Proof.
  split; split.
  - apply control_job_records.
  - apply control_job_records_length.
  - apply b3_job_records.
  - apply b3_job_records_length.
Qed.

Lemma flaky_service_record_count :
  List.length (Control.submitted_jobs (fst (Control.submission_phase flaky_service)))
  = 16.
Proof. vm_compute. reflexivity. Qed.

Lemma fold_left_inv {A S : Type} (body : S -> A -> S) (P : S -> Prop) (xs : list A) :
  (forall s x, In x xs -> P s -> P (body s x)) ->
  forall s, P s -> P (fold_left body xs s).
Proof.
  induction xs as [| x xs IH]; intros Hbody s Hs; cbn [fold_left]; [exact Hs |].
  apply IH.
  - intros s0 x0 Hin. apply Hbody. right. exact Hin.
  - apply Hbody; [left; reflexivity | exact Hs].
Qed.

Lemma control_collect_one_rows svc jobs st e :
  In e jobs ->
  Forall (fun r => exists e', In e' jobs /\
                              row_describes svc (Control.entry_run_label e')
                                (Control.entry_job_id e') r)
         (Control.ledger st) ->
  Forall (fun r => exists e', In e' jobs /\
                              row_describes svc (Control.entry_run_label e')
                                (Control.entry_job_id e') r)
         (Control.ledger (Control.collect_one svc st e)).
Proof.
  intros Hin Hst. unfold Control.collect_one.
  destruct (call_result (Control.entry_job e)) as [res |]; [| exact Hst].
  destruct (get_counts res) as [counts |]; [| exact Hst].
  destruct (Control.analyze_results counts (Control.entry_config e))
    as [[[[[G LA] LB] AI] Hent] |]; [| exact Hst].
  cbn [Control.ledger]. apply Forall_app. split; [exact Hst |].
  constructor; [| constructor].
  exists e. split; [exact Hin |]. unfold row_describes. cbn. auto.
Qed.

Lemma b3_collect_one_rows svc jobs st e :
  In e jobs ->
  Forall (fun r => exists e', In e' jobs /\
                              row_describes svc (B3.entry_run_label e')
                                (B3.entry_job_id e') r)
         (B3.ledger st) ->
  Forall (fun r => exists e', In e' jobs /\
                              row_describes svc (B3.entry_run_label e')
                                (B3.entry_job_id e') r)
         (B3.ledger (B3.collect_one svc st e)).
Proof.
  intros Hin Hst. unfold B3.collect_one.
  destruct (call_result (B3.entry_job e)) as [res |]; [| exact Hst].
  destruct (get_counts res) as [counts |]; [| exact Hst].
  destruct (B3.analysis_step counts (B3.entry_topology_map e)) as [[G LA] |];
    [| exact Hst].
  cbn [B3.ledger]. apply Forall_app. split; [exact Hst |].
  constructor; [| constructor].
  exists e. split; [exact Hin |]. unfold row_describes. cbn. auto.
Qed.

Lemma control_ledger_rows (svc : Service) (jobs : list Control.entry) :
  Forall (fun r => exists e, In e jobs /\
                             row_describes svc (Control.entry_run_label e)
                               (Control.entry_job_id e) r)
         (Control.ledger (Control.collection_phase svc jobs)).
Proof.
  unfold Control.collection_phase.
  apply (fold_left_inv (Control.collect_one svc)
           (fun st => Forall _ (Control.ledger st))); [| constructor].
  intros s e He Hs. apply control_collect_one_rows; assumption.
Qed.

Lemma b3_ledger_rows (svc : Service) (jobs : list B3.entry) :
  Forall (fun r => exists e, In e jobs /\
                             row_describes svc (B3.entry_run_label e)
                               (B3.entry_job_id e) r)
         (B3.ledger (B3.collection_phase svc jobs)).
Proof.
  unfold B3.collection_phase.
  apply (fold_left_inv (B3.collect_one svc)
           (fun st => Forall _ (B3.ledger st))); [| constructor].
  intros s e He Hs. apply b3_collect_one_rows; assumption.
Qed.

(** X16: every row the collection phase of either variant writes describes
    one of the recorded jobs: it carries the backend's name, that job's label
    and id, and the shot count 8192. *)
Theorem ledger_rows_describe_jobs (svc : Service) :
  (forall (jobs : list Control.entry) (r : row),
      In r (Control.ledger (Control.collection_phase svc jobs)) ->
      exists e, In e jobs /\
                row_describes svc (Control.entry_run_label e)
                  (Control.entry_job_id e) r) /\
  (forall (jobs : list B3.entry) (r : row),
      In r (B3.ledger (B3.collection_phase svc jobs)) ->
      exists e, In e jobs /\
                row_describes svc (B3.entry_run_label e) (B3.entry_job_id e) r).
Proof.
  split; intros jobs r Hin.
  - pose proof (control_ledger_rows svc jobs) as Hall.
    rewrite Forall_forall in Hall. exact (Hall r Hin).
  - pose proof (b3_ledger_rows svc jobs) as Hall.
    rewrite Forall_forall in Hall. exact (Hall r Hin).
Qed.

Lemma ledger_rows_describe_jobs_witness :
  In b3_sample_row (B3.ledger (B3.collection_phase flaky_service b3_sample_jobs)) /\
  exists e, In e b3_sample_jobs /\
            row_describes flaky_service (B3.entry_run_label e) (B3.entry_job_id e)
              b3_sample_row.
Proof.
  split; [exact b3_sample_row_written |].
  exact (proj2 (ledger_rows_describe_jobs flaky_service) b3_sample_jobs
           b3_sample_row b3_sample_row_written).
Defined.

(** ** When optimizing fails *)

Lemma run_loop_app {A S : Type} (body : S -> A -> S * option exn)
  (xs ys : list A) (s : S) :
  run_loop body (xs ++ ys) s
  = match run_loop body xs s with
    | (s', None) => run_loop body ys s'
    | (s', Some e) => (s', Some e)
    end.
Proof.
  revert s. induction xs as [| x xs IH]; intros s; cbn [app run_loop].
  - reflexivity.
  - destruct (body s x) as [s1 [e |]]; [reflexivity | apply IH].
Qed.

Lemma run_loop_map {A B S : Type} (body : S -> B -> S * option exn) (g : A -> B)
  (xs : list A) (s : S) :
  run_loop body (map g xs) s = run_loop (fun s0 x => body s0 (g x)) xs s.
Proof.
  revert s. induction xs as [| x xs IH]; intros s; cbn [map run_loop].
  - reflexivity.
  - destruct (body s (g x)) as [s1 [e |]]; [reflexivity | apply IH].
Qed.

Lemma run_loop_ext {A S : Type} (body body' : S -> A -> S * option exn)
  (xs : list A) :
  (forall s x, body s x = body' s x) ->
  forall s, run_loop body xs s = run_loop body' xs s.
Proof.
  intros Hext. induction xs as [| x xs IH]; intros s; cbn [run_loop].
  - reflexivity.
  - rewrite Hext. destruct (body' s x) as [s1 [e |]]; [reflexivity | apply IH].
Qed.

(** Two nested loops are one loop over the pairs. *)
Lemma run_loop_nested {A B S : Type} (inner : A -> list B)
  (body : A -> S -> B -> S * option exn) (xs : list A) (s : S) :
  run_loop (fun s0 x => run_loop (body x) (inner x) s0) xs s
  = run_loop (fun s0 p => body (fst p) s0 (snd p))
             (flat_map (fun x => map (pair x) (inner x)) xs) s.
Proof.
  revert s. induction xs as [| x xs IH]; intros s; cbn [run_loop flat_map].
  - reflexivity.
  - rewrite run_loop_app, run_loop_map. cbn [fst snd].
    change (run_loop (fun s0 x0 => body x s0 x0) (inner x) s)
      with (run_loop (body x) (inner x) s).
    destruct (run_loop (body x) (inner x) s) as [s1 [e |]];
      [reflexivity | apply IH].
Qed.

Lemma control_submission_is_flat (svc : Service) :
  Control.submission_phase svc
  = run_loop (fun st t => Control.submit_one svc (fst (fst t)) (snd (fst t)) st (snd t))
             jobs_to_submit (Control.mkSub [] []).
Proof.
  unfold Control.submission_phase.
  rewrite (run_loop_ext (Control.submit_topology svc)
             (fun s item => run_loop (Control.submit_one svc (fst item) (snd item))
                                     (seq 1 REPETITIONS) s))
    by (intros s [l config]; reflexivity).
  rewrite (run_loop_nested (fun _ => seq 1 REPETITIONS)
             (fun item => Control.submit_one svc (fst item) (snd item))).
  reflexivity.
Qed.

Lemma b3_submission_is_flat (svc : Service) :
  B3.submission_phase svc
  = run_loop (fun st t =>
                B3.submit_one svc (fst (fst t)) (snd (fst t))
                  (topology_map_of (snd (fst t))) st (snd t))
             jobs_to_submit (B3.mkSub [] []).
Proof.
  unfold B3.submission_phase.
  rewrite (run_loop_ext (B3.submit_topology svc)
             (fun s item => run_loop (B3.submit_one svc (fst item) (snd item)
                                        (topology_map_of (snd item)))
                                     (seq 1 REPETITIONS) s))
    by (intros s [l config]; reflexivity).
  rewrite (run_loop_nested (fun _ => seq 1 REPETITIONS)
             (fun item => B3.submit_one svc (fst item) (snd item)
                            (topology_map_of (snd item)))).
  reflexivity.
Qed.

Section LoopCut.
Context {A S B C : Type}.
Variables (v1 : S -> list B) (f1 : A -> list B).
Variables (v2 : S -> list C) (f2 : A -> list C).

(** A loop whose body lets an exception escape on [t], after running clean
    on the items before it, ends there: the items after [t] are not visited. *)
Lemma run_loop_cut (body : S -> A -> S * option exn) (pre post : list A) (t : A)
  (e : exn) :
  (forall s x, In x pre ->
               exists s', body s x = (s', None) /\
                          v1 s' = v1 s ++ f1 x /\ v2 s' = v2 s ++ f2 x) ->
  (forall s, exists s', body s t = (s', Some e) /\
                        v1 s' = v1 s ++ f1 t /\ v2 s' = v2 s) ->
  forall s, exists s', run_loop body (pre ++ t :: post) s = (s', Some e) /\
                       v1 s' = v1 s ++ flat_map f1 pre ++ f1 t /\
                       v2 s' = v2 s ++ flat_map f2 pre.
Proof.
  intros Hpre Ht s. rewrite run_loop_app.
  destruct (run_loop_views v1 f1 v2 f2 body pre Hpre s) as (s1 & -> & H1 & H2).
  cbn [run_loop]. destruct (Ht s1) as (s2 & -> & H1' & H2').
  exists s2. rewrite H1', H2', H1, H2, <- app_assoc. auto.
Qed.
End LoopCut.

Lemma in_jobs_to_submit (t : string * topology * nat) :
  In t jobs_to_submit -> In (fst t) TOPOLOGIES.
Proof.
  unfold jobs_to_submit. intros Hin. apply in_flat_map in Hin.
  destruct Hin as ([l config] & Hreg & Hmap). apply in_map_iff in Hmap.
  destruct Hmap as (i & <- & _). exact Hreg.
Qed.

Lemma control_submit_one_views_at svc l config st i :
  (forall qc, is_ok (transpile svc l i qc) = true) ->
  is_ok (Control.build_circuit config) = true ->
  exists st',
    Control.submit_one svc l config st i = (st', None) /\
    attempted (Control.sub_log st') = attempted (Control.sub_log st) ++ [(l, i)] /\
    map control_entry_pair (Control.submitted_jobs st')
    = map control_entry_pair (Control.submitted_jobs st)
      ++ (if control_submit_ok svc (l, config, i) then [(l, i)] else []).
Proof.
  intros Htr Hbuild.
  unfold Control.submit_one, control_submit_ok, guarded_submit.
  destruct (Control.build_circuit config) as [qc |]; [| discriminate].
  specialize (Htr qc).
  destruct (transpile svc l i qc) as [t_qc |]; [| discriminate].
  destruct (sampler_run svc l i t_qc) as [job |]; cbn [bind].
  - destruct (call_job_id job) as [job_id |]; cbn [bind is_ok];
      eexists; (split; [reflexivity |]);
      cbn [Control.sub_log Control.submitted_jobs];
      rewrite !attempted_app, ?map_app; cbn [attempted map control_entry_pair
        Control.entry_run_label Control.entry_rep];
      rewrite ?app_nil_r; auto.
  - cbn [is_ok]. eexists; (split; [reflexivity |]).
    cbn [Control.sub_log Control.submitted_jobs].
    rewrite !attempted_app; cbn [attempted]; rewrite ?app_nil_r; auto.
Qed.

Lemma b3_submit_one_views_at svc l config st i :
  (forall qc, is_ok (transpile svc l i qc) = true) ->
  is_ok (B3.classical_control_circuit (topology_map_of config)) = true ->
  exists st',
    B3.submit_one svc l config (topology_map_of config) st i = (st', None) /\
    attempted (B3.sub_log st') = attempted (B3.sub_log st) ++ [(l, i)] /\
    map b3_entry_pair (B3.submitted_jobs st')
    = map b3_entry_pair (B3.submitted_jobs st)
      ++ (if b3_submit_ok svc (l, config, i) then [(l, i)] else []).
Proof.
  intros Htr Hbuild.
  unfold B3.submit_one, b3_submit_ok, guarded_submit.
  destruct (B3.classical_control_circuit (topology_map_of config)) as [qc |];
    [| discriminate].
  specialize (Htr qc).
  destruct (transpile svc l i qc) as [t_qc |]; [| discriminate].
  destruct (sampler_run svc l i t_qc) as [job |]; cbn [bind].
  - destruct (call_job_id job) as [job_id |]; cbn [bind is_ok];
      eexists; (split; [reflexivity |]);
      cbn [B3.sub_log B3.submitted_jobs];
      rewrite !attempted_app, ?map_app; cbn [attempted map b3_entry_pair
        B3.entry_run_label B3.entry_rep];
      rewrite ?app_nil_r; auto.
  - cbn [is_ok]. eexists; (split; [reflexivity |]).
    cbn [B3.sub_log B3.submitted_jobs].
    rewrite !attempted_app; cbn [attempted]; rewrite ?app_nil_r; auto.
Qed.

Lemma registered_build_results (label : string) (config : topology) :
  In (label, config) TOPOLOGIES ->
  Control.build_circuit config = Ok (mkCircuit 9 9 (triple_program config)) /\
  B3.classical_control_circuit (topology_map_of config)
  = Ok (mkCircuit 8 8 (dual_program (B3.get_ordered_data config)
                                    (local_a_indices config))).
Proof.
  intros Hin. apply registered_topologies in Hin.
  destruct Hin as [-> | [-> | [-> | ->]]]; split; vm_compute; reflexivity.
Qed.

(** X17: when optimizing fails for one (label, repetition) pair, after
    succeeding for every pair before it, the submission phase of either
    variant ends there with that exception: the pairs up to that one were
    attempted, none after it, and the records are those of the earlier pairs
    whose guarded submission succeeded. *)
Theorem transpile_failure_cuts_submission (svc : Service)
  (pre post : list (string * topology * nat)) (t : string * topology * nat)
  (e : exn) :
  jobs_to_submit = pre ++ t :: post ->
  Forall (fun t' => forall qc, is_ok (transpile svc (fst (fst t')) (snd t') qc) = true)
         pre ->
  (transpile svc (fst (fst t)) (snd t) (mkCircuit 9 9 (triple_program (snd (fst t))))
   = Raise e ->
   snd (Control.submission_phase svc) = Some e /\
   attempted (Control.sub_log (fst (Control.submission_phase svc)))
   = map pair_of (pre ++ [t]) /\
   map control_entry_pair (Control.submitted_jobs (fst (Control.submission_phase svc)))
   = map pair_of (filter (control_submit_ok svc) pre)) /\
  (transpile svc (fst (fst t)) (snd t)
     (mkCircuit 8 8 (dual_program (B3.get_ordered_data (snd (fst t)))
                                  (local_a_indices (snd (fst t)))))
   = Raise e ->
   snd (B3.submission_phase svc) = Some e /\
   attempted (B3.sub_log (fst (B3.submission_phase svc)))
   = map pair_of (pre ++ [t]) /\
   map b3_entry_pair (B3.submitted_jobs (fst (B3.submission_phase svc)))
   = map pair_of (filter (b3_submit_ok svc) pre)).
Proof.
  intros Hsplit Hpre.
  assert (Hreg : forall x, In x (pre ++ t :: post) -> In (fst x) TOPOLOGIES).
  { intros x Hx. apply in_jobs_to_submit. rewrite Hsplit. exact Hx. }
  rewrite Forall_forall in Hpre.
  split; intros Hfail.
  - rewrite control_submission_is_flat, Hsplit.
    destruct (run_loop_cut
                (fun st => attempted (Control.sub_log st)) (fun x => [pair_of x])
                (fun st => map control_entry_pair (Control.submitted_jobs st))
                (fun x => if control_submit_ok svc x then [pair_of x] else [])
                (fun st x => Control.submit_one svc (fst (fst x)) (snd (fst x)) st (snd x))
                pre post t e) with (s := Control.mkSub [] [])
      as (st & -> & Hatt & Hrec).
    + intros s [[l config] i] Hx. cbn [fst snd].
      apply control_submit_one_views_at; [exact (Hpre _ Hx) |].
      assert (Hin : In (l, config) TOPOLOGIES)
        by (apply (Hreg (l, config, i)); apply in_or_app; left; exact Hx).
      destruct (registered_build_results l config Hin) as [-> _]. reflexivity.
    + intros s. destruct t as [[l config] i]. cbn [fst snd] in *.
      assert (Hin : In (l, config) TOPOLOGIES)
        by (apply (Hreg (l, config, i)); apply in_or_app; right; left; reflexivity).
      destruct (registered_build_results l config Hin) as [Hbuild _].
      unfold Control.submit_one. rewrite Hbuild, Hfail.
      eexists. split; [reflexivity |].
      cbn [Control.sub_log Control.submitted_jobs].
      rewrite attempted_app. auto.
    + cbn [fst snd]. rewrite Hatt, Hrec.
      cbn [Control.sub_log Control.submitted_jobs attempted map app].
      rewrite flat_map_keep, map_app. cbn [map].
      split; [reflexivity |]. split; [| reflexivity].
      rewrite (flat_map_keep (fun _ => true) pair_of pre).
      f_equal. f_equal. clear. induction pre as [| x pre IH]; [reflexivity |].
      cbn [filter]. rewrite IH. reflexivity.
  - rewrite b3_submission_is_flat, Hsplit.
    destruct (run_loop_cut
                (fun st => attempted (B3.sub_log st)) (fun x => [pair_of x])
                (fun st => map b3_entry_pair (B3.submitted_jobs st))
                (fun x => if b3_submit_ok svc x then [pair_of x] else [])
                (fun st x => B3.submit_one svc (fst (fst x)) (snd (fst x))
                               (topology_map_of (snd (fst x))) st (snd x))
                pre post t e) with (s := B3.mkSub [] [])
      as (st & -> & Hatt & Hrec).
    + intros s [[l config] i] Hx. cbn [fst snd].
      apply b3_submit_one_views_at; [exact (Hpre _ Hx) |].
      assert (Hin : In (l, config) TOPOLOGIES)
        by (apply (Hreg (l, config, i)); apply in_or_app; left; exact Hx).
      destruct (registered_build_results l config Hin) as [_ ->]. reflexivity.
    + intros s. destruct t as [[l config] i]. cbn [fst snd] in *.
      assert (Hin : In (l, config) TOPOLOGIES)
        by (apply (Hreg (l, config, i)); apply in_or_app; right; left; reflexivity).
      destruct (registered_build_results l config Hin) as [_ Hbuild].
      unfold B3.submit_one. rewrite Hbuild, Hfail.
      eexists. split; [reflexivity |].
      cbn [B3.sub_log B3.submitted_jobs].
      rewrite attempted_app. auto.
    + cbn [fst snd]. rewrite Hatt, Hrec.
      cbn [B3.sub_log B3.submitted_jobs attempted map app].
      rewrite flat_map_keep, map_app. cbn [map].
      split; [reflexivity |]. split; [| reflexivity].
      rewrite (flat_map_keep (fun _ => true) pair_of pre).
      f_equal. f_equal. clear. induction pre as [| x pre IH]; [reflexivity |].
      cbn [filter]. rewrite IH. reflexivity.
Qed.

Lemma transpile_failure_cuts_submission_witness :
  snd (Control.submission_phase late_transpile_failure)
  = Some (ExternalError "transpile") /\
  attempted (Control.sub_log (fst (Control.submission_phase late_transpile_failure)))
  = [ ("A", 1); ("A", 2); ("A", 3); ("A", 4); ("A", 5);
      ("B", 1); ("B", 2); ("B", 3) ] /\
  map control_entry_pair
      (Control.submitted_jobs (fst (Control.submission_phase late_transpile_failure)))
  = [ ("A", 1); ("A", 3); ("A", 4); ("A", 5); ("B", 1) ].
Proof.
  apply (proj1 (transpile_failure_cuts_submission late_transpile_failure
                  (firstn 7 jobs_to_submit) (skipn 8 jobs_to_submit)
                  ("B", mkTopology [1;2;3;4;5;0] [1;2;3] [4;5;0], 3)
                  (ExternalError "transpile") eq_refl
                  ltac:(repeat (constructor; [intros qc; reflexivity |]);
                        constructor))).
  reflexivity.
Defined.

(** ** [main] *)

Lemma control_ledger_length (svc : Service) (jobs : list Control.entry) :
  List.length (Control.ledger (Control.collection_phase svc jobs))
  <= List.length jobs.
Proof.
  destruct (fold_left_views
              (fun st => visited (Control.col_log st))
              (fun e => [Control.entry_job_id e])
              (fun st => map col_job_id (Control.ledger st))
              (fun e => if control_job_ok e then [Control.entry_job_id e] else [])
              (Control.collect_one svc) jobs
              (control_collect_one_views svc) (Control.mkCol [] []))
    as [_ Hrows].
  cbn [Control.ledger map app] in Hrows. rewrite flat_map_keep in Hrows.
  unfold Control.collection_phase.
  rewrite <- (length_map col_job_id), Hrows, length_map.
  apply filter_length_le.
Qed.

Lemma b3_ledger_length (svc : Service) (jobs : list B3.entry) :
  List.length (B3.ledger (B3.collection_phase svc jobs)) <= List.length jobs.
Proof.
  destruct (fold_left_views
              (fun st => visited (B3.col_log st))
              (fun e => [B3.entry_job_id e])
              (fun st => map col_job_id (B3.ledger st))
              (fun e => if b3_job_ok e then [B3.entry_job_id e] else [])
              (B3.collect_one svc) jobs
              (b3_collect_one_views svc) (B3.mkCol [] []))
    as [_ Hrows].
  cbn [B3.ledger map app] in Hrows. rewrite flat_map_keep in Hrows.
  unfold B3.collection_phase.
  rewrite <- (length_map col_job_id), Hrows, length_map.
  apply filter_length_le.
Qed.

(** X18: without a backend [main] does nothing to the log file. When both
    connection attempts raise it returns quietly; when a connection is made
    but no candidate qualifies and [least_busy] raises, that exception ends
    [main]. *)
Theorem main_without_backend (cloud : Cloud) (file : log_file) :
  (is_ok (connect_ibm_cloud cloud) = false ->
   is_ok (connect_ibm_quantum_platform cloud) = false ->
   control_main cloud file = (file, None) /\ b3_main cloud file = (file, None)) /\
  (forall service e,
      connect_ibm_cloud cloud = Ok service \/
      (is_ok (connect_ibm_cloud cloud) = false /\
       connect_ibm_quantum_platform cloud = Ok service) ->
      Forall (fun n => try_candidate service n = None) candidates ->
      service_least_busy service = Raise e ->
      control_main cloud file = (file, Some e) /\
      b3_main cloud file = (file, Some e)).
Proof.
  split.
  - intros Hc Hp. unfold control_main, b3_main, get_backend.
    destruct (connect_ibm_cloud cloud); [discriminate |].
    destruct (connect_ibm_quantum_platform cloud); [discriminate |].
    split; reflexivity.
  - intros service e Hconn Hnone Hlb.
    apply select_priority_none in Hnone.
    assert (Hget : get_backend cloud = Raise e).
    { unfold get_backend.
      destruct Hconn as [-> | [Hc ->]].
      - rewrite Hnone, Hlb. reflexivity.
      - destruct (connect_ibm_cloud cloud); [discriminate |].
        rewrite Hnone, Hlb. reflexivity. }
    unfold control_main, b3_main. rewrite Hget. split; reflexivity.
Qed.

Lemma main_without_backend_witness :
  control_main (mkCloud (Raise (ExternalError "down")) (Ok empty_runtime)) None
  = (None, Some (ExternalError "no backend available")).
Proof.
  apply (proj2 (main_without_backend
                  (mkCloud (Raise (ExternalError "down")) (Ok empty_runtime)) None)
           empty_runtime (ExternalError "no backend available")).
  - right. split; reflexivity.
  - repeat constructor.
  - reflexivity.
Defined.

(** X19: [main] of either variant only ever appends to its log. The file it
    leaves is the file it found, or that file (created with the header when
    absent) followed by at most 20 rows; each row has the shot count 8192 and
    the label of a registered topology; and when [main] ends with an
    exception it has written no row. *)
Theorem main_only_appends_rows (cloud : Cloud) (file : log_file) :
  (exists rows,
      (fst (control_main cloud file) = file \/
       fst (control_main cloud file) = Some (init_log file ++ map RowLine rows)) /\
      (snd (control_main cloud file) <> None -> rows = []) /\
      List.length rows <= 4 * REPETITIONS /\
      Forall (fun r => col_shots r = SHOTS /\
                       exists config, In (col_run_label r, config) TOPOLOGIES) rows) /\
  (exists rows,
      (fst (b3_main cloud file) = file \/
       fst (b3_main cloud file) = Some (init_log file ++ map RowLine rows)) /\
      (snd (b3_main cloud file) <> None -> rows = []) /\
      List.length rows <= 4 * REPETITIONS /\
      Forall (fun r => col_shots r = SHOTS /\
                       exists config, In (col_run_label r, config) TOPOLOGIES) rows).
Proof.
  split.
  - unfold control_main.
    destruct (get_backend cloud) as [[[service backend] |] | e].
    + pose proof (control_job_records (backend_service backend)) as Hrec.
      pose proof (control_job_records_length (backend_service backend)) as Hlen.
      destruct (Control.submission_phase (backend_service backend)) as [st [e |]].
      * exists []. cbn [fst snd map List.length]. rewrite app_nil_r.
        repeat split; auto; lia.
      * cbn [fst] in Hrec, Hlen.
        exists (Control.ledger (Control.collection_phase (backend_service backend)
                                  (Control.submitted_jobs st))).
        cbn [fst snd]. split; [right; reflexivity |].
        split; [intros Hne; contradiction |].
        split.
        { pose proof (control_ledger_length (backend_service backend)
                        (Control.submitted_jobs st)). lia. }
        pose proof (control_ledger_rows (backend_service backend)
                      (Control.submitted_jobs st)) as Hrows.
        eapply Forall_impl; [| exact Hrows]. cbn beta.
        intros r (e & He & _ & Hlabel & _ & Hshots).
        split; [exact Hshots |].
        rewrite Forall_forall in Hrec. destruct (Hrec e He) as (Hreg & _).
        exists (Control.entry_config e). rewrite Hlabel. exact Hreg.
    + exists []. cbn [fst snd List.length]. repeat split; auto; lia.
    + exists []. cbn [fst snd List.length]. repeat split; auto; lia.
  - unfold b3_main.
    destruct (get_backend cloud) as [[[service backend] |] | e].
    + pose proof (b3_job_records (backend_service backend)) as Hrec.
      pose proof (b3_job_records_length (backend_service backend)) as Hlen.
      destruct (B3.submission_phase (backend_service backend)) as [st [e |]].
      * exists []. cbn [fst snd map List.length]. rewrite app_nil_r.
        repeat split; auto; lia.
      * cbn [fst] in Hrec, Hlen.
        exists (B3.ledger (B3.collection_phase (backend_service backend)
                             (B3.submitted_jobs st))).
        cbn [fst snd]. split; [right; reflexivity |].
        split; [intros Hne; contradiction |].
        split.
        { pose proof (b3_ledger_length (backend_service backend)
                        (B3.submitted_jobs st)). lia. }
        pose proof (b3_ledger_rows (backend_service backend)
                      (B3.submitted_jobs st)) as Hrows.
        eapply Forall_impl; [| exact Hrows]. cbn beta.
        intros r (e & He & _ & Hlabel & _ & Hshots).
        split; [exact Hshots |].
        rewrite Forall_forall in Hrec. destruct (Hrec e He) as (Hreg & _).
        exists (B3.entry_config e). rewrite Hlabel. exact Hreg.
    + exists []. cbn [fst snd List.length]. repeat split; auto; lia.
    + exists []. cbn [fst snd List.length]. repeat split; auto; lia.
Qed.

(** *** A job whose counts sum to zero *)

(** X20: a job whose counts sum to zero gets a row of zeros from the
    triple-ancilla collection loop, and no row at all from the dual-ancilla
    one: there the analyzer's three-value early return does not fit the
    two-name unpacking, the [ValueError] is caught and the job is skipped. *)
Theorem zero_total_job_rows (svc : Service) (res : JobResult) (counts : counts_t) :
  get_counts res = Ok counts ->
  sum_values counts = 0%Z ->
  (forall st e,
      call_result (Control.entry_job e) = Ok res ->
      Control.ledger (Control.collect_one svc st e)
      = Control.ledger st
        ++ [mkRow (backend_name svc) (Control.entry_run_label e)
              (Control.entry_job_id e)
              (Formatted2f (0 * 100)) (Formatted2f (0 * 100))
              (Formatted2f (0 * 100)) (Formatted2f (0 * 100)) SHOTS]) /\
  (forall st e,
      call_result (B3.entry_job e) = Ok res ->
      B3.ledger (B3.collect_one svc st e) = B3.ledger st /\
      B3.col_log (B3.collect_one svc st e)
      = B3.col_log st
        ++ [Waiting (B3.entry_job_id e) (B3.entry_run_label e);
            ProcessFailed (B3.entry_job_id e) ValueError]).
Proof.
  intros Hcounts Hzero. split; intros st e Hres.
  - unfold Control.collect_one. rewrite Hres, Hcounts.
    unfold Control.analyze_results. rewrite Hzero. reflexivity.
  - unfold B3.collect_one. rewrite Hres, Hcounts.
    unfold B3.analysis_step, B3.analyze_results. rewrite Hzero.
    cbn [Z.eqb bind B3.ledger B3.col_log]. rewrite <- app_assoc. auto.
Qed.

Lemma zero_total_job_rows_witness :
  B3.ledger (B3.collect_one flaky_service (B3.mkCol [] [])
               (B3.mkEntry (job_with "job-0" []) "job-0" "A" topology_A
                  (topology_map_of topology_A) 1))
  = [].
Proof.
  exact (proj1 (proj2 (zero_total_job_rows flaky_service (mkJobResult (Ok [])) []
                         eq_refl eq_refl)
                  (B3.mkCol [] [])
                  (B3.mkEntry (job_with "job-0" []) "job-0" "A" topology_A
                     (topology_map_of topology_A) 1)
                  eq_refl)).
Defined.

(** *** A campaign on which nothing fails *)

Lemma control_submit_one_sampler svc l config st i :
  Forall (control_from_sampler svc) (Control.submitted_jobs st) ->
  Forall (control_from_sampler svc)
         (Control.submitted_jobs (fst (Control.submit_one svc l config st i))).
Proof.
  intros Hst. unfold Control.submit_one.
  destruct (Control.build_circuit config) as [qc |]; cbn [fst Control.submitted_jobs];
    [| exact Hst].
  destruct (transpile svc l i qc) as [t_qc |]; cbn [fst Control.submitted_jobs];
    [| exact Hst].
  destruct (sampler_run svc l i t_qc) as [job |] eqn:Hrun;
    cbn [bind fst Control.submitted_jobs]; [| exact Hst].
  destruct (call_job_id job) as [job_id |];
    cbn [bind fst Control.submitted_jobs]; [| exact Hst].
  apply Forall_app. split; [exact Hst |].
  constructor; [| constructor]. exists t_qc. exact Hrun.
Qed.

Lemma b3_submit_one_sampler svc l config tm st i :
  Forall (b3_from_sampler svc) (B3.submitted_jobs st) ->
  Forall (b3_from_sampler svc)
         (B3.submitted_jobs (fst (B3.submit_one svc l config tm st i))).
Proof.
  intros Hst. unfold B3.submit_one.
  destruct (B3.classical_control_circuit tm) as [qc |]; cbn [fst B3.submitted_jobs];
    [| exact Hst].
  destruct (transpile svc l i qc) as [t_qc |]; cbn [fst B3.submitted_jobs];
    [| exact Hst].
  destruct (sampler_run svc l i t_qc) as [job |] eqn:Hrun;
    cbn [bind fst B3.submitted_jobs]; [| exact Hst].
  destruct (call_job_id job) as [job_id |];
    cbn [bind fst B3.submitted_jobs]; [| exact Hst].
  apply Forall_app. split; [exact Hst |].
  constructor; [| constructor]. exists t_qc. exact Hrun.
Qed.

Lemma control_jobs_from_sampler (svc : Service) :
  Forall (control_from_sampler svc)
         (Control.submitted_jobs (fst (Control.submission_phase svc))).
Proof.
  unfold Control.submission_phase.
  apply (run_loop_inv _ (fun st => Forall (control_from_sampler svc)
                                          (Control.submitted_jobs st)));
    [| constructor].
  intros s [l config] _ Hs. unfold Control.submit_topology.
  apply (run_loop_inv _ (fun st => Forall (control_from_sampler svc)
                                          (Control.submitted_jobs st)));
    [| exact Hs].
  intros s0 i _ Hs0. apply control_submit_one_sampler. exact Hs0.
Qed.

Lemma b3_jobs_from_sampler (svc : Service) :
  Forall (b3_from_sampler svc) (B3.submitted_jobs (fst (B3.submission_phase svc))).
Proof.
  unfold B3.submission_phase.
  apply (run_loop_inv _ (fun st => Forall (b3_from_sampler svc)
                                          (B3.submitted_jobs st)));
    [| constructor].
  intros s [l config] _ Hs. unfold B3.submit_topology.
  apply (run_loop_inv _ (fun st => Forall (b3_from_sampler svc)
                                          (B3.submitted_jobs st)));
    [| exact Hs].
  intros s0 i _ Hs0. apply b3_submit_one_sampler. exact Hs0.
Qed.

Lemma registered_indices_in_range (label : string) (config : topology) :
  In (label, config) TOPOLOGIES ->
  Forall (fun i => i < 9) (ghz_indices config) /\
  Forall (fun i => i < 9) (local_a_indices config) /\
  Forall (fun i => i < 9) (local_b_indices config) /\
  Forall (fun i => i < 8) (B3.get_ordered_data config).
Proof.
  intros Hin. apply registered_topologies in Hin.
  destruct Hin as [-> | [-> | [-> | ->]]];
    cbn [ghz_indices local_a_indices local_b_indices];
    (repeat split; [| | | vm_compute B3.get_ordered_data]; repeat constructor).
Qed.

Lemma healthy_control_submits good svc (t : string * topology * nat) :
  healthy_service good svc -> In t jobs_to_submit ->
  control_submit_ok svc t = true.
Proof.
  intros [Htr Hjobs] Hin. apply in_jobs_to_submit in Hin.
  destruct t as [[l config] i]. cbn [fst] in Hin.
  unfold control_submit_ok, guarded_submit.
  destruct (registered_build_results l config Hin) as [-> _].
  specialize (Htr l i (mkCircuit 9 9 (triple_program config))).
  destruct (transpile svc l i _) as [t_qc |]; [| discriminate].
  destruct (Hjobs l i t_qc) as (job & job_id & res & counts & -> & Hid & _).
  cbn [bind]. rewrite Hid. reflexivity.
Qed.

Lemma healthy_b3_submits good svc (t : string * topology * nat) :
  healthy_service good svc -> In t jobs_to_submit ->
  b3_submit_ok svc t = true.
Proof.
  intros [Htr Hjobs] Hin. apply in_jobs_to_submit in Hin.
  destruct t as [[l config] i]. cbn [fst] in Hin.
  unfold b3_submit_ok, guarded_submit.
  destruct (registered_build_results l config Hin) as [_ ->].
  specialize (Htr l i (mkCircuit 8 8 (dual_program (B3.get_ordered_data config)
                                                    (local_a_indices config)))).
  destruct (transpile svc l i _) as [t_qc |]; [| discriminate].
  destruct (Hjobs l i t_qc) as (job & job_id & res & counts & -> & Hid & _).
  cbn [bind]. rewrite Hid. reflexivity.
Qed.

Lemma healthy_control_job_ok svc (e : Control.entry) :
  healthy_service control_good_counts svc ->
  control_record_ok e -> control_from_sampler svc e ->
  control_job_ok e = true.
Proof.
  intros [_ Hjobs] (Hreg & _) [qc Hrun].
  destruct (Hjobs (Control.entry_run_label e) (Control.entry_rep e) qc)
    as (job & job_id & res & counts & Hrun' & _ & Hres & Hcounts & Hgood).
  rewrite Hrun in Hrun'. injection Hrun' as <-.
  unfold control_job_ok. rewrite Hres, Hcounts.
  destruct (registered_indices_in_range _ _ Hreg) as (HG & HA & HB & _).
  destruct (control_analysis_total counts (Control.entry_config e) Hgood HG HA HB)
    as [r ->].
  reflexivity.
Qed.

Lemma healthy_b3_job_ok svc (e : B3.entry) :
  healthy_service b3_good_counts svc ->
  b3_record_ok e -> b3_from_sampler svc e ->
  b3_job_ok e = true.
Proof.
  intros [_ Hjobs] (Hreg & Htm & _) [qc Hrun].
  destruct (Hjobs (B3.entry_run_label e) (B3.entry_rep e) qc)
    as (job & job_id & res & counts & Hrun' & _ & Hres & Hcounts & Hgood & Hnz).
  rewrite Hrun in Hrun'. injection Hrun' as <-.
  unfold b3_job_ok. rewrite Hres, Hcounts.
  destruct (registered_indices_in_range _ _ Hreg) as (_ & _ & _ & Hdq).
  rewrite Htm. unfold B3.analysis_step, topology_map_of.
  cbn [B3.tm_data B3.anc_global B3.anc_local].
  pose proof (b3_analysis_total counts (B3.get_ordered_data (B3.entry_config e))
                B3.ANC_GLOBAL B3.ANC_LOCAL Hgood Hdq
                ltac:(unfold B3.ANC_GLOBAL; lia) ltac:(unfold B3.ANC_LOCAL; lia))
    as [r Hr].
  unfold B3.analyze_results in *.
  destruct (Z.eqb_spec (sum_values counts) 0) as [Hz | _]; [contradiction |].
  destruct (B3.loop _ _ _ counts) as [a |]; [| discriminate].
  reflexivity.
Qed.

Lemma control_collect_one_labels svc st e :
  map col_run_label (Control.ledger (Control.collect_one svc st e))
  = map col_run_label (Control.ledger st)
    ++ (if control_job_ok e then [Control.entry_run_label e] else []).
Proof.
  unfold Control.collect_one, control_job_ok.
  destruct (call_result (Control.entry_job e)) as [res |];
    [| cbn [Control.ledger]; rewrite app_nil_r; reflexivity].
  destruct (get_counts res) as [counts |];
    [| cbn [Control.ledger]; rewrite app_nil_r; reflexivity].
  destruct (Control.analyze_results counts (Control.entry_config e))
    as [[[[[G LA] LB] AI] Hent] |]; cbn [is_ok Control.ledger].
  - rewrite map_app. reflexivity.
  - rewrite app_nil_r. reflexivity.
Qed.

Lemma b3_collect_one_labels svc st e :
  map col_run_label (B3.ledger (B3.collect_one svc st e))
  = map col_run_label (B3.ledger st)
    ++ (if b3_job_ok e then [B3.entry_run_label e] else []).
Proof.
  unfold B3.collect_one, b3_job_ok.
  destruct (call_result (B3.entry_job e)) as [res |];
    [| cbn [B3.ledger]; rewrite app_nil_r; reflexivity].
  destruct (get_counts res) as [counts |];
    [| cbn [B3.ledger]; rewrite app_nil_r; reflexivity].
  destruct (B3.analysis_step counts (B3.entry_topology_map e)) as [[G LA] |];
    cbn [is_ok B3.ledger].
  - rewrite map_app. reflexivity.
  - rewrite app_nil_r. reflexivity.
Qed.

Lemma filter_keeps_all {A : Type} (p : A -> bool) (l : list A) :
  Forall (fun x => p x = true) l -> filter p l = l.
Proof.
  intros Hall. apply forallb_filter_id. apply forallb_forall.
  rewrite Forall_forall in Hall. exact Hall.
Qed.

Lemma control_healthy_ledger_labels svc :
  healthy_service control_good_counts svc ->
  exists st,
    Control.submission_phase svc = (st, None) /\
    map col_run_label
        (Control.ledger (Control.collection_phase svc (Control.submitted_jobs st)))
    = campaign_labels.
Proof.
  intros Hh. pose proof Hh as [Htr _].
  destruct (control_submission_views svc Htr) as (st & Hsub & _ & Hpairs).
  exists st. split; [exact Hsub |].
  pose proof (control_job_records svc) as Hrec.
  pose proof (control_jobs_from_sampler svc) as Hfrom.
  rewrite Hsub in Hrec, Hfrom. cbn [fst] in Hrec, Hfrom.
  assert (Hall : Forall (fun e => control_job_ok e = true) (Control.submitted_jobs st)).
  { rewrite Forall_forall in *. intros e He.
    apply (healthy_control_job_ok svc e Hh (Hrec e He) (Hfrom e He)). }
  rewrite (filter_keeps_all (control_submit_ok svc)) in Hpairs
    by (apply Forall_forall; intros t Ht;
        apply (healthy_control_submits _ svc t Hh Ht)).
  destruct (fold_left_views
              (fun s => map col_run_label (Control.ledger s))
              (fun e => if control_job_ok e then [Control.entry_run_label e] else [])
              (fun s => map col_run_label (Control.ledger s))
              (fun e => if control_job_ok e then [Control.entry_run_label e] else [])
              (Control.collect_one svc) (Control.submitted_jobs st)
              (fun s e => conj (control_collect_one_labels svc s e)
                               (control_collect_one_labels svc s e))
              (Control.mkCol [] [])) as [Hlabels _].
  unfold Control.collection_phase. rewrite Hlabels.
  cbn [Control.ledger map app].
  rewrite flat_map_keep, (filter_keeps_all _ _ Hall).
  change (map Control.entry_run_label (Control.submitted_jobs st))
    with (map (fun e => fst (control_entry_pair e)) (Control.submitted_jobs st)).
  rewrite <- (map_map control_entry_pair fst), Hpairs. reflexivity.
Qed.

Lemma b3_healthy_ledger_labels svc :
  healthy_service b3_good_counts svc ->
  exists st,
    B3.submission_phase svc = (st, None) /\
    map col_run_label (B3.ledger (B3.collection_phase svc (B3.submitted_jobs st)))
    = campaign_labels.
Proof.
  intros Hh. pose proof Hh as [Htr _].
  destruct (b3_submission_views svc Htr) as (st & Hsub & _ & Hpairs).
  exists st. split; [exact Hsub |].
  pose proof (b3_job_records svc) as Hrec.
  pose proof (b3_jobs_from_sampler svc) as Hfrom.
  rewrite Hsub in Hrec, Hfrom. cbn [fst] in Hrec, Hfrom.
  assert (Hall : Forall (fun e => b3_job_ok e = true) (B3.submitted_jobs st)).
  { rewrite Forall_forall in *. intros e He.
    apply (healthy_b3_job_ok svc e Hh (Hrec e He) (Hfrom e He)). }
  rewrite (filter_keeps_all (b3_submit_ok svc)) in Hpairs
    by (apply Forall_forall; intros t Ht;
        apply (healthy_b3_submits _ svc t Hh Ht)).
  destruct (fold_left_views
              (fun s => map col_run_label (B3.ledger s))
              (fun e => if b3_job_ok e then [B3.entry_run_label e] else [])
              (fun s => map col_run_label (B3.ledger s))
              (fun e => if b3_job_ok e then [B3.entry_run_label e] else [])
              (B3.collect_one svc) (B3.submitted_jobs st)
              (fun s e => conj (b3_collect_one_labels svc s e)
                               (b3_collect_one_labels svc s e))
              (B3.mkCol [] [])) as [Hlabels _].
  unfold B3.collection_phase. rewrite Hlabels.
  cbn [B3.ledger map app].
  rewrite flat_map_keep, (filter_keeps_all _ _ Hall).
  change (map B3.entry_run_label (B3.submitted_jobs st))
    with (map (fun e => fst (b3_entry_pair e)) (B3.submitted_jobs st)).
  rewrite <- (map_map b3_entry_pair fst), Hpairs. reflexivity.
Qed.

(** X21: on a backend where nothing fails and every job reports well-formed
    counts (with a non-zero total, for the dual-ancilla variant), [main]
    started without a log file ends without exception and leaves the header
    followed by exactly 20 rows, five for each topology, in the order A, B,
    C, D. *)
Theorem healthy_campaign_writes_twenty_rows (cloud : Cloud) (service : Runtime)
  (backend : Backend) :
  get_backend cloud = Ok (Some (service, backend)) ->
  (healthy_service control_good_counts (backend_service backend) ->
   exists rows,
     control_main cloud None = (Some (HeaderLine HEADER :: map RowLine rows), None) /\
     map col_run_label rows = campaign_labels /\ List.length rows = 20) /\
  (healthy_service b3_good_counts (backend_service backend) ->
   exists rows,
     b3_main cloud None = (Some (HeaderLine HEADER :: map RowLine rows), None) /\
     map col_run_label rows = campaign_labels /\ List.length rows = 20).
Proof.
  intros Hget. split; intros Hh.
  - destruct (control_healthy_ledger_labels _ Hh) as (st & Hsub & Hlabels).
    eexists. unfold control_main. rewrite Hget, Hsub. cbn [init_log app].
    split; [reflexivity |]. split; [exact Hlabels |].
    rewrite <- (length_map col_run_label), Hlabels. reflexivity.
  - destruct (b3_healthy_ledger_labels _ Hh) as (st & Hsub & Hlabels).
    eexists. unfold b3_main. rewrite Hget, Hsub. cbn [init_log app].
    split; [reflexivity |]. split; [exact Hlabels |].
    rewrite <- (length_map col_run_label), Hlabels. reflexivity.
Qed.

Lemma steady_service_healthy : healthy_service control_good_counts steady_service.
Proof.
  split; [intros l i qc; reflexivity |].
  intros l i qc. eexists _, _, _, _.
  repeat (split; [reflexivity |]).
  unfold control_good_counts. repeat constructor.
Qed.

Lemma healthy_campaign_writes_twenty_rows_witness :
  get_backend steady_cloud
  = Ok (Some (mkRuntime
                (fun _ => Ok (mkBackend (Ok (mkStatus true 3)) steady_service))
                (Raise (ExternalError "unused")),
              mkBackend (Ok (mkStatus true 3)) steady_service)) /\
  exists rows,
    control_main steady_cloud None
    = (Some (HeaderLine HEADER :: map RowLine rows), None) /\
    map col_run_label rows = campaign_labels /\ List.length rows = 20.
Proof.
  split; [reflexivity |].
  exact (proj1 (healthy_campaign_writes_twenty_rows steady_cloud _ _ eq_refl)
           steady_service_healthy).
Defined.

(** ** Parity checks: group order, longer keys, full agreement *)

Lemma comprehension_index_runs (bits : list ascii) (nodes : list nat) :
  comprehension (py_index bits) nodes
  = if forallb (fun i => i <? List.length bits) nodes
    then Ok (map (fun i => nth i bits bit0) nodes)
    else Raise IndexError.
Proof.
  induction nodes as [| i nodes IH]; cbn [comprehension forallb map]; [reflexivity |].
  unfold py_index at 1.
  destruct (Nat.ltb_spec i (List.length bits)) as [Hlt | Hge]; cbn [andb].
  - rewrite (nth_error_nth' bits bit0 Hlt). cbn [bind]. rewrite IH.
    destruct (forallb _ nodes); reflexivity.
  - apply nth_error_None in Hge. rewrite Hge. reflexivity.
Qed.

Lemma forallb_perm {A : Type} (p : A -> bool) (l l' : list A) :
  Permutation l l' -> forallb p l = forallb p l'.
Proof.
  induction 1 as [| x l l' _ IH | x y l | l l' l'' _ IH1 _ IH2]; cbn [forallb].
  - reflexivity.
  - rewrite IH. reflexivity.
  - destruct (p x), (p y); reflexivity.
  - congruence.
Qed.

Lemma count_ones_mod2_perm (l l' : list ascii) :
  Permutation l l' -> count_ones_mod2 l = count_ones_mod2 l'.
Proof.
  intros Hperm. unfold count_ones_mod2.
  rewrite (Permutation_count_occ ascii_dec l l') in Hperm.
  rewrite (Hperm bit1). reflexivity.
Qed.

(** X22: a parity check does not depend on the order in which the group's
    indices are listed: permuting them gives the same answer, error
    included. So the dual-ancilla analyzer's global check over the reordered
    data qubits is the check over [ghz_indices]. *)
Theorem parity_check_ignores_group_order :
  (forall bits nodes nodes' anc,
      Permutation nodes nodes' ->
      parity_check bits nodes anc = parity_check bits nodes' anc) /\
  (forall config anc state,
      NoDup (ghz_indices config) -> NoDup (local_a_indices config) ->
      incl (local_a_indices config) (ghz_indices config) ->
      b3_check (B3.get_ordered_data config) anc state
      = b3_check (ghz_indices config) anc state).
Proof.
  assert (Hgen : forall bits nodes nodes' anc,
             Permutation nodes nodes' ->
             parity_check bits nodes anc = parity_check bits nodes' anc).
  { intros bits nodes nodes' anc Hperm. unfold parity_check.
    rewrite !comprehension_index_runs.
    rewrite (forallb_perm _ _ _ Hperm).
    destruct (forallb _ nodes'); [| reflexivity]. cbn [bind].
    rewrite (count_ones_mod2_perm _ _
               (Permutation_map (fun i => nth i bits bit0) Hperm)).
    reflexivity. }
  split; [exact Hgen |].
  intros config anc state Hg Ha Hincl. unfold b3_check.
  apply Hgen. apply get_ordered_data_perm; assumption.
Qed.

Lemma parity_check_ignores_group_order_witness :
  Permutation [0;2;4;1;3;5] [0;1;2;3;4;5] /\
  parity_check (bits_rev_of 8 (KStr "01000101")) [0;2;4;1;3;5] 6
  = parity_check (bits_rev_of 8 (KStr "01000101")) [0;1;2;3;4;5] 6.
Proof.
  assert (Hperm : Permutation [0;2;4;1;3;5] [0;1;2;3;4;5]).
  { apply (get_ordered_data_perm (mkTopology [0;1;2;3;4;5] [0;2;4] [1;3;5])).
    - cbn [ghz_indices]. nodup_by_computation.
    - cbn [local_a_indices]. nodup_by_computation.
    - incl_by_computation. }
  split; [exact Hperm |].
  exact (proj1 parity_check_ignores_group_order _ _ _ 6 Hperm).
Defined.

Lemma rev_app_index {A : Type} (extra bits : list A) (i : nat) :
  i < List.length bits ->
  py_index (rev (extra ++ bits)) i = py_index (rev bits) i.
Proof.
  intros Hi. unfold py_index. rewrite rev_app_distr.
  rewrite nth_error_app1 by (rewrite length_rev; exact Hi). reflexivity.
Qed.

(** X23: characters to the left of the register are ignored. When the group
    and the ancilla lie inside a key, the parity check on any longer key
    ending in it answers the same; the analyzers do not reject keys wider
    than the register. *)
Theorem parity_check_ignores_extra_high_bits (extra bits : list ascii)
  (nodes : list nat) (anc : nat) :
  Forall (fun i => i < List.length bits) nodes ->
  anc < List.length bits ->
  parity_check (rev (extra ++ bits)) nodes anc = parity_check (rev bits) nodes anc.
Proof.
  intros Hnodes Hanc. unfold parity_check.
  assert (Hcomp : comprehension (py_index (rev (extra ++ bits))) nodes
                  = comprehension (py_index (rev bits)) nodes).
  { induction Hnodes as [| i nodes Hi _ IH]; cbn [comprehension]; [reflexivity |].
    rewrite (rev_app_index extra bits i Hi), IH. reflexivity. }
  rewrite Hcomp, (rev_app_index extra bits anc Hanc). reflexivity.
Qed.

Lemma parity_check_ignores_extra_high_bits_witness :
  parity_check (bits_rev_of 9 (KStr "11000000000")) [0;1;2;3;4;5] 6
  = parity_check (bits_rev_of 9 (KStr "000000000")) [0;1;2;3;4;5] 6.
Proof.
  apply (parity_check_ignores_extra_high_bits
           (list_ascii_of_string "11") (list_ascii_of_string "000000000")
           [0;1;2;3;4;5] 6).
  - repeat constructor.
  - cbn. lia.
Defined.

(** X24: when every outcome passes a group's parity check and the total is
    not zero, that group's stability is exactly 1. *)
Theorem full_agreement_gives_stability_one (counts : counts_t) :
  sum_values counts <> 0%Z ->
  (forall config G LA LB AI Hent,
      Control.analyze_results counts config = Ok (G, LA, LB, AI, Hent) ->
      (Forall (fun item => control_check (ghz_indices config) 6 (fst item) = Ok true)
              counts -> G = 1%R) /\
      (Forall (fun item => control_check (local_a_indices config) 7 (fst item) = Ok true)
              counts -> LA = 1%R) /\
      (Forall (fun item => control_check (local_b_indices config) 8 (fst item) = Ok true)
              counts -> LB = 1%R)) /\
  (forall data_qubits ag al G LA,
      B3.analyze_results counts data_qubits ag al = Ok [G; LA] ->
      (Forall (fun item => b3_check data_qubits ag (fst item) = Ok true) counts ->
       G = 1%R) /\
      (Forall (fun item => b3_check (firstn 3 data_qubits) al (fst item) = Ok true)
              counts -> LA = 1%R)).
Proof.
  intros Hnz.
  assert (Hfull : forall check,
             Forall (fun item => check (fst item) = Ok true) counts ->
             matched_count check counts = sum_values counts).
  { intros check Hall. clear Hnz.
    induction Hall as [| [s c] rest Hitem _ IH]; [reflexivity |].
    cbn [fst] in Hitem. rewrite matched_count_cons, Hitem, IH, sum_values_cons.
    reflexivity. }
  assert (Hone : (IZR (sum_values counts) / IZR (sum_values counts) = 1)%R)
    by (field; apply not_0_IZR; exact Hnz).
  split.
  - intros config G LA LB AI Hent Heq.
    unfold Control.analyze_results in Heq.
    destruct (Z.eqb_spec (sum_values counts) 0) as [Hz | _]; [contradiction |].
    destruct (Control.loop (sum_values counts) config counts) as [a |] eqn:Hrun;
      [| discriminate].
    cbn [bind] in Heq. injection Heq as <- <- <- _ _.
    apply control_loop_counts in Hrun. destruct Hrun as (HG & HA & HB & _).
    cbn [Control.acc0 Control.global_ok Control.localA_ok Control.localB_ok Z.add]
      in HG, HA, HB.
    repeat split; intros Hall;
      [rewrite HG | rewrite HA | rewrite HB]; rewrite (Hfull _ Hall); exact Hone.
  - intros dq ag al G LA Heq.
    unfold B3.analyze_results in Heq.
    destruct (Z.eqb_spec (sum_values counts) 0) as [Hz | _]; [contradiction |].
    destruct (B3.loop dq ag al counts) as [a |] eqn:Hrun; [| discriminate].
    cbn [bind] in Heq. injection Heq as <- <-.
    apply b3_loop_counts in Hrun. destruct Hrun as (HG & HA).
    cbn [B3.acc0 B3.global_ok B3.localA_ok Z.add] in HG, HA.
    split; intros Hall; [rewrite HG | rewrite HA]; rewrite (Hfull _ Hall); exact Hone.
Qed.

Lemma full_agreement_gives_stability_one_witness :
  sum_values scenario2 <> 0%Z /\
  Forall (fun item => control_check (ghz_indices topology_A) 6 (fst item) = Ok true)
         scenario2 /\
  Control.analyze_results scenario2 topology_A = Ok (1, 1 / 2, 1, 1 / 2, 1)%R /\
  1%R = 1%R.
Proof.
  assert (Hnz : sum_values scenario2 <> 0%Z) by discriminate.
  assert (Hall : Forall (fun item => control_check (ghz_indices topology_A) 6 (fst item)
                                     = Ok true) scenario2).
  { unfold scenario2. repeat constructor. }
  split; [exact Hnz |]. split; [exact Hall |]. split; [exact scenario2_analysis |].
  exact (proj1 (proj1 (full_agreement_gives_stability_one scenario2 Hnz)
                  topology_A _ _ _ _ _ scenario2_analysis) Hall).
Defined.

Lemma get_backend_connection_fallback_witness :
  is_ok (connect_ibm_cloud (mkCloud (Raise (ExternalError "down"))
                                    (Raise (ExternalError "down")))) = false /\
  get_backend (mkCloud (Raise (ExternalError "down")) (Raise (ExternalError "down")))
  = Ok None.
Proof.
  split; [reflexivity |].
  apply (proj1 get_backend_connection_fallback). split; reflexivity.
Defined.

Lemma job_records_are_consistent_witness :
  List.length (Control.submitted_jobs (fst (Control.submission_phase flaky_service)))
  <= 4 * REPETITIONS.
Proof.
  exact (proj2 (proj1 (job_records_are_consistent flaky_service))).
Defined.

Lemma main_only_appends_rows_witness :
  exists rows,
    (fst (control_main steady_cloud None) = None \/
     fst (control_main steady_cloud None) = Some (init_log None ++ map RowLine rows)) /\
    (snd (control_main steady_cloud None) <> None -> rows = []) /\
    List.length rows <= 4 * REPETITIONS /\
    Forall (fun r => col_shots r = SHOTS /\
                     exists config, In (col_run_label r, config) TOPOLOGIES) rows.
Proof.
  exact (proj1 (main_only_appends_rows steady_cloud None)).
Defined.
